(** * react-utils: the Webpack configuration factory, the build script and
      the Modal component

    A shallow embedding of
    - [config-ts-src/webpack/app-base.ts] (the function [configFactory]),
    - the command-line build script (the steps of the script, the
      handler of Webpack compilation results), and
    - [src/shared/components/Modal/index.tsx] (the elements of [BaseModal]
      and its effects),
    followed by the properties of these programs.

    The JavaScript runtime is modelled by a state-and-exception monad over a
    [World]: the file systems, the module registry of [require], the store
    of option objects, the exit code of the process, the calls that leave
    the program (file system, console, Webpack, Babel) in their order, and
    the queue of promise reactions that have not run yet.

    - An options object lives in the store and is passed by reference, so
      that a write to the caller's object would show.
    - The file system is an in-memory one with the errors of Node's [fs]
      ([ENOENT], [EEXIST], [EISDIR], [ENOTDIR]); each call is recorded, also
      when it throws. The option [fs] of the factory selects a volume.
    - Paths are POSIX paths; [path.resolve] is written out.
    - The random key and the time of a build come from the world, and so
      does the [sitemap] library: for the source that the factory hands
      to it, the world says whether a write to the stream throws, or the
      promise of the document rejects, or resolves, and to what. *)

From Stdlib Require Import ZArith Ascii String.
From stdpp Require Import base option list gmap strings.

Set Warnings "-register-all".
Local Open Scope string_scope.
Local Open Scope list_scope.

(** ** JavaScript values *)

(** Values that the option objects, the build info and the Webpack
    configuration are made of. Objects keep their properties in insertion
    order, which is the order [JSON.stringify] prints them in. Numbers are
    integers: none of the modelled code computes with a number. *)
Inductive Value :=
  | VUndefined
  | VNull
  | VBool (b : bool)
  | VNumber (n : Z)
  | VString (s : string)
  | VArray (items : list Value)
  | VObject (props : list (string * Value))
  | VRegExp (source : string)
  | VExtern (name : string).
  (* [VExtern name]: a function or loader imported from a library, known
     by its name only. *)

Abbreviation Obj := (list (string * Value)).

(** [ToBoolean] of ECMAScript: the test made by [if (v)] and [!v]. *)
Definition ToBoolean (v : Value) : bool :=
  match v with
  | VUndefined | VNull => false
  | VBool b => b
  | VNumber n => negb (n =? 0)%Z
  | VString s => negb (String.eqb s "")
  | VArray _ | VObject _ | VRegExp _ | VExtern _ => true
  end.

(** [if (s)] for a value that is a string or [undefined]. *)
Definition truthy_string (s : option string) : bool :=
  match s with
  | Some s => negb (String.eqb s "")
  | None => false
  end.

(** [if (b)] for a value that is a boolean or [undefined]. *)
Definition truthy_bool (b : option bool) : bool := default false b.

(** [obj[k] = v]: an existing property keeps its place. *)
Fixpoint set_prop (k : string) (v : Value) (props : Obj) : Obj :=
  match props with
  | [] => [(k, v)]
  | (k', v') :: rest =>
      if String.eqb k k' then (k, v) :: rest else (k', v') :: set_prop k v rest
  end.

Definition get_prop (k : string) (props : Obj) : option Value :=
  snd <$> List.find (fun kv => String.eqb k (fst kv)) props.

(** [{ ...target, ...source }]. *)
Definition spread (target source : Obj) : Obj :=
  fold_left (fun acc kv => set_prop (fst kv) (snd kv) acc) source target.

(** What [JSON.parse(JSON.stringify(v))] makes of a value: properties that
    hold [undefined] or a function are dropped, such array items become
    [null], a regular expression becomes the empty object. *)
Fixpoint jsonify (v : Value) : Value :=
  match v with
  | VArray items =>
      VArray (map (fun x => match x with
                            | VUndefined | VExtern _ => VNull
                            | _ => jsonify x
                            end) items)
  | VObject props =>
      VObject ((fix go (ps : Obj) : Obj :=
                  match ps with
                  | [] => []
                  | (k, x) :: rest =>
                      match x with
                      | VUndefined | VExtern _ => go rest
                      | _ => (k, jsonify x) :: go rest
                      end
                  end) props)
  | VRegExp _ => VObject []
  | _ => v
  end.

(** ** Text: what files and string constants of the bundle hold

    Text is kept up to what the modelled code can tell of it: the text
    that [JSON.stringify] gives for a value, the XML that the sitemap
    library gives for the entries streamed to it, and text that is not a
    JSON document, with its characters. *)
Inductive Text :=
  | Json (v : Value) (space : nat)   (* JSON.stringify(v, null, space) *)
  | SitemapXml (items : list Value)  (* an XML sitemap of these entries *)
  | NotJson (s : string).            (* the characters of a text that is not JSON *)

(** ** Exceptions and completions *)

Inductive Exception :=
  | Error (message : string)
  | TypeError (message : string)
  | SyntaxError (message : string)
  | SystemError (code syscall path : string)
  | ModuleNotFound (request : string).

Inductive Completion (A : Type) :=
  | Normal (a : A)
  | Throw (e : Exception).
Arguments Normal {A} a.
Arguments Throw {A} e.

Definition JSON_stringify (v : Value) (space : nat) : Text := Json v space.

Definition JSON_parse (t : Text) : Completion Value :=
  match t with
  | Json VUndefined _ | Json (VExtern _) _ => Throw (SyntaxError "Unexpected token")
  | Json v _ => Normal (jsonify v)
  | SitemapXml _ | NotJson _ => Throw (SyntaxError "Unexpected token")
  end.

(** ** Paths (POSIX flavour of Node's [path]) *)

Fixpoint segments_from (cur s : string) : list string :=
  match s with
  | EmptyString => [cur]
  | String c rest =>
      if Ascii.eqb c "/"%char then cur :: segments_from "" rest
      else segments_from (cur +:+ String c "") rest
  end.

Definition segments (s : string) : list string := segments_from "" s.

(** [normalizeString]: empty and [.] segments vanish, [..] drops the
    segment before it and is lost at the root. *)
Definition normalize_step (acc : list string) (seg : string) : list string :=
  if String.eqb seg "" || String.eqb seg "." then acc
  else if String.eqb seg ".." then removelast acc
  else acc ++ [seg].

Definition normalizeString (segs : list string) : list string :=
  fold_left normalize_step segs [].

Definition isAbsolute (p : string) : bool :=
  match p with
  | String c _ => Ascii.eqb c "/"%char
  | EmptyString => false
  end.

(** The segments of [path.resolve(...args)] in a process whose working
    directory is [cwd] (an absolute path): the rightmost absolute argument
    and what follows it, or else everything after [cwd]. *)
Definition resolve_segments (cwd : string) (args : list string) : list string :=
  normalizeString
    (fold_left
       (fun acc a =>
          if String.eqb a "" then acc
          else if isAbsolute a then segments a
          else acc ++ segments a)
       args (segments cwd)).

Definition render (segs : list string) : string :=
  "/" +:+ String.concat "/" segs.

Definition path_resolve_from (cwd : string) (args : list string) : string :=
  render (resolve_segments cwd args).

(** ** An in-memory file system with the errors of Node's [fs] *)

Inductive Node :=
  | File (content : Text)
  | Directory.

(** A volume maps the segments of an absolute path to what is there; the
    root always is a directory. *)
Abbreviation Volume := (gmap (list string) Node).

Definition node_at (v : Volume) (k : list string) : option Node :=
  match k with
  | [] => Some Directory
  | _ => v !! k
  end.

Definition parent (k : list string) : list string := removelast k.

Definition vol_read (path : string) (v : Volume) (k : list string) : Completion Text :=
  match node_at v k with
  | Some (File t) => Normal t
  | Some Directory => Throw (SystemError "EISDIR" "read" path)
  | None => Throw (SystemError "ENOENT" "open" path)
  end.

Definition vol_write (path : string) (v : Volume) (k : list string) (t : Text)
  : Completion Volume :=
  match node_at v k with
  | Some Directory => Throw (SystemError "EISDIR" "open" path)
  | _ =>
      match node_at v (parent k) with
      | Some Directory => Normal (<[k := File t]> v)
      | Some (File _) => Throw (SystemError "ENOTDIR" "open" path)
      | None => Throw (SystemError "ENOENT" "open" path)
      end
  end.

(** [mkdirSync(path)]: the parent has to be there, the directory not. *)
Definition vol_mkdir (path : string) (v : Volume) (k : list string) : Completion Volume :=
  match node_at v k with
  | Some _ => Throw (SystemError "EEXIST" "mkdir" path)
  | None =>
      match node_at v (parent k) with
      | Some Directory => Normal (<[k := Directory]> v)
      | Some (File _) => Throw (SystemError "ENOTDIR" "mkdir" path)
      | None => Throw (SystemError "ENOENT" "mkdir" path)
      end
  end.

(** [mkdirSync(path, { recursive: true })]: missing ancestors are created,
    existing directories are left alone, a file in the way is an error.
    [done] is the prefix of the path already walked. *)
Fixpoint vol_mkdir_p (path : string) (v : Volume) (done todo : list string)
  : Completion Volume :=
  match todo with
  | [] => Normal v
  | seg :: rest =>
      let k := done ++ [seg] in
      match node_at v k with
      | Some Directory => vol_mkdir_p path v k rest
      | Some (File _) =>
          Throw (SystemError (match rest with [] => "EEXIST" | _ => "ENOTDIR" end)
                             "mkdir" path)
      | None => vol_mkdir_p path (<[k := Directory]> v) k rest
      end
  end.

(** [rimraf.sync(path)]: the node and everything below it go. *)
Definition vol_rimraf (v : Volume) (k : list string) : Volume :=
  filter (fun kv => ¬ k `prefix_of` fst kv) v.

(** ** Data model of [app-base.ts] *)

(** [BuildInfoT]: the record a build generates. *)
Module BuildInfoT.
Record t := {
  key : string;
  publicPath : string;
  timestamp : string;
  useServiceWorker : bool;
}.

(** The object, with its properties in the order in which the literal
    of [configFactory] lists them. *)
Definition value (b : t) : Value :=
  VObject [("key", VString (key b));
           ("publicPath", VString (publicPath b));
           ("useServiceWorker", VBool (useServiceWorker b));
           ("timestamp", VString (timestamp b))].
End BuildInfoT.

(** [OptionsT]: an optional property that is absent (or [undefined]) is
    [None]. [fs] names a volume of the world. *)
Module OptionsT.
Inductive Entry :=
  | EntryOne (s : string)
  | EntryMany (l : list string).

Inductive KeepBuildInfo :=
  | KeepFlag (b : bool)
  | KeepObject (info : Obj).

Inductive Workbox :=
  | WorkboxFlag (b : bool)
  | WorkboxObject (options : Obj).

Inductive Mode := development | none | production.

Record t := {
  babelEnv : string;
  babelLoaderOptions : option Obj;
  context : string;
  cssLocalIdent : option string;
  dontEmitBuildInfo : option bool;
  dontUseProgressPlugin : option bool;
  entry : Entry;
  fs : option nat;
  keepBuildInfo : option KeepBuildInfo;
  mode : Mode;
  outputPath : option string;
  publicPath : option string;
  sitemap : option string;
  typescript : option bool;
  workbox : option Workbox;
}.

Definition set_workbox (w : option Workbox) (o : t) : t :=
  {| babelEnv := babelEnv o;
     babelLoaderOptions := babelLoaderOptions o;
     context := context o;
     cssLocalIdent := cssLocalIdent o;
     dontEmitBuildInfo := dontEmitBuildInfo o;
     dontUseProgressPlugin := dontUseProgressPlugin o;
     entry := entry o;
     fs := fs o;
     keepBuildInfo := keepBuildInfo o;
     mode := mode o;
     outputPath := outputPath o;
     publicPath := publicPath o;
     sitemap := sitemap o;
     typescript := typescript o;
     workbox := w |}.

Definition truthy_keep (k : option KeepBuildInfo) : bool :=
  match k with
  | Some (KeepFlag b) => b
  | Some (KeepObject _) => true
  | None => false
  end.

Definition truthy_workbox (w : option Workbox) : bool :=
  match w with
  | Some (WorkboxFlag b) => b
  | Some (WorkboxObject _) => true
  | None => false
  end.
End OptionsT.

(** The Webpack [Configuration] that the factory returns. Loader rules are
    plain object literals and stay [Value]s. *)
Module Configuration.
Record Output := {
  chunkFilename : string;
  filename : string;
  path : string;
  publicPath : string;
}.

Inductive Plugin :=
  | DefinePlugin (definitions : list (string * Text))
  | ProgressPlugin
  | InjectManifest (options : Obj).

Record Resolve := {
  alias : list (string * string);
  extensions : list string;
  symlinks : bool;
}.

Record t := {
  context : string;
  entry : list string;
  node : Obj;
  mode : OptionsT.Mode;
  output : Output;
  plugins : list Plugin;
  resolve : Resolve;
  module : Obj;
}.
End Configuration.

(** ** The world *)

(** What a module exports: a value, or a function (of its argument list). *)
Inductive Exported :=
  | ExportValue (v : Value)
  | ExportFunction (f : list Value -> Value).

(** Calls that leave the program, in the order in which they are made. *)
Inductive Call :=
  | ExistsSync (fs : nat) (path : string)
  | ReadFileSync (fs : nat) (path : string)
  | MkdirSync (fs : nat) (path : string) (recursive : bool)
  | WriteFileSync (fs : nat) (path : string) (data : Text)
  | RimrafSync (path : string)
  | Require (path : string)
  | ConsoleError (args : list Value)
  | ConsoleWarn (args : list Value)
  | ConsoleLog (args : list Value)
  | Webpack (config : Value)
  | CompilerWatch
  | CompilerRun
  | CompilerClose
  | Exec (command : string) (BABEL_ENV : string)
  | CopyFromFolder (from to regex : string).

(** What comes of a sitemap source that is streamed through the [sitemap]
    library: <<source.forEach((item) => sm.write(item)); sm.end();
    SM.streamToPromise(sm)>>. *)
Inductive Streamed :=
  | WriteThrows (e : Exception)   (* a [sm.write(item)], or the loop, throws *)
  | Rejected                      (* the promise rejects *)
  | Resolved (sitemap : Text).    (* the promise resolves, to this document *)

(** Promise reactions that wait for their turn. *)
Inductive Job :=
  | SitemapReady (sitemap : Text) (o : nat) (fs : nat)
  | BabelJsDone (command : string) (BABEL_ENV : string).

Record World := {
  cwd : string;                       (* process.cwd(), an absolute path *)
  __dirname : string;                 (* the folder of the app-base module *)
  volumes : gmap nat Volume;          (* file systems; 0 is Node's [fs] *)
  registry : gmap string Exported;    (* what [require] finds at a path *)
  sitemapStream : Value -> Streamed;  (* the [sitemap] library, for a source *)
  entropy : nat -> string;            (* forge.random.getBytesSync *)
  clock : string;                     (* new Date().toISOString() *)
  objects : gmap nat OptionsT.t;      (* the option objects, by reference *)
  exitCode : option Z;                (* process.exitCode *)
  calls : list Call;
  pending : list Job;
}.

Definition nodeFs : nat := 0.

Definition set_volumes (f : gmap nat Volume -> gmap nat Volume) (w : World) : World :=
  {| cwd := cwd w; __dirname := __dirname w; volumes := f (volumes w);
     registry := registry w; sitemapStream := sitemapStream w;
     entropy := entropy w; clock := clock w;
     objects := objects w; exitCode := exitCode w; calls := calls w;
     pending := pending w |}.

Definition set_objects (f : gmap nat OptionsT.t -> gmap nat OptionsT.t) (w : World) : World :=
  {| cwd := cwd w; __dirname := __dirname w; volumes := volumes w;
     registry := registry w; sitemapStream := sitemapStream w;
     entropy := entropy w; clock := clock w;
     objects := f (objects w); exitCode := exitCode w; calls := calls w;
     pending := pending w |}.

Definition set_exitCode (c : option Z) (w : World) : World :=
  {| cwd := cwd w; __dirname := __dirname w; volumes := volumes w;
     registry := registry w; sitemapStream := sitemapStream w;
     entropy := entropy w; clock := clock w;
     objects := objects w; exitCode := c; calls := calls w;
     pending := pending w |}.

Definition set_calls (f : list Call -> list Call) (w : World) : World :=
  {| cwd := cwd w; __dirname := __dirname w; volumes := volumes w;
     registry := registry w; sitemapStream := sitemapStream w;
     entropy := entropy w; clock := clock w;
     objects := objects w; exitCode := exitCode w; calls := f (calls w);
     pending := pending w |}.

Definition set_pending (f : list Job -> list Job) (w : World) : World :=
  {| cwd := cwd w; __dirname := __dirname w; volumes := volumes w;
     registry := registry w; sitemapStream := sitemapStream w;
     entropy := entropy w; clock := clock w;
     objects := objects w; exitCode := exitCode w; calls := calls w;
     pending := f (pending w) |}.

(** ** The monad of effects: state and exceptions *)

Definition M (A : Type) : Type := World -> Completion A * World.

Definition ret {A} (a : A) : M A := fun w => (Normal a, w).

Definition bind {A B} (m : M A) (k : A -> M B) : M B :=
  fun w =>
    match m w with
    | (Normal a, w') => k a w'
    | (Throw e, w') => (Throw e, w')
    end.

Definition throw {A} (e : Exception) : M A := fun w => (Throw e, w).

Definition gets {A} (f : World -> A) : M A := fun w => (Normal (f w), w).

Definition modify (f : World -> World) : M unit := fun w => (Normal tt, f w).

(** A completion computed outside the monad enters it. *)
Definition lift {A} (c : Completion A) : M A := fun w => (c, w).

Declare Scope js_scope.
Delimit Scope js_scope with js.
Notation "x <- m ;; k" := (bind m (fun x => k))
  (at level 100, m at next level, right associativity) : js_scope.
Notation "m ;; k" := (bind m (fun _ => k))
  (at level 100, right associativity) : js_scope.
Local Open Scope js_scope.

(** The world and the completion that a computation leaves. *)
Definition world_after {A} (m : M A) (w : World) : World := snd (m w).
Definition completion_of {A} (m : M A) (w : World) : Completion A := fst (m w).

Definition when (b : bool) (m : M unit) : M unit :=
  if b then m else ret tt.

Fixpoint forEach {A} (f : A -> M unit) (l : list A) : M unit :=
  match l with
  | [] => ret tt
  | x :: rest => f x ;; forEach f rest
  end.

Definition call (c : Call) : M unit := modify (set_calls (fun cs => cs ++ [c])).

(** ** Node built-ins *)

Definition path_resolve (args : list string) : M string :=
  gets (fun w => path_resolve_from (cwd w) args).

Definition volume (w : World) (fs : nat) : Volume := default ∅ (volumes w !! fs).

(** The file system resolves a path against the working directory. *)
Definition fs_key (w : World) (path : string) : list string :=
  resolve_segments (cwd w) [path].

Definition existsSync (fs : nat) (path : string) : M bool :=
  call (ExistsSync fs path) ;;
  gets (fun w => bool_decide (is_Some (node_at (volume w fs) (fs_key w path)))).

Definition readFileSync (fs : nat) (path : string) : M Text :=
  call (ReadFileSync fs path) ;;
  w <- gets id ;;
  lift (vol_read path (volume w fs) (fs_key w path)).

Definition put_volume (fs : nat) (c : Completion Volume) : M unit :=
  v <- lift c ;;
  modify (set_volumes <[fs := v]>).

Definition mkdirSync (fs : nat) (path : string) (recursive : bool) : M unit :=
  call (MkdirSync fs path recursive) ;;
  w <- gets id ;;
  put_volume fs
    (if recursive then vol_mkdir_p path (volume w fs) [] (fs_key w path)
     else vol_mkdir path (volume w fs) (fs_key w path)).

Definition writeFileSync (fs : nat) (path : string) (data : Text) : M unit :=
  call (WriteFileSync fs path data) ;;
  w <- gets id ;;
  put_volume fs (vol_write path (volume w fs) (fs_key w path) data).

(** [require(path)]: the export of the module at the path. *)
Definition require (path : string) : M Exported :=
  call (Require path) ;;
  w <- gets id ;;
  match registry w !! path with
  | Some e => ret e
  | None => throw (ModuleNotFound path)
  end.

(** [isFunction(x) ? x(...args) : x] *)
Definition call_if_function (e : Exported) (args : list Value) : Value :=
  match e with
  | ExportValue v => v
  | ExportFunction f => f args
  end.

(** ** The store of option objects *)

Definition get (l : nat) : M OptionsT.t :=
  w <- gets id ;;
  match objects w !! l with
  | Some o => ret o
  | None => throw (TypeError "Cannot read properties of undefined")
  end.

(** [l.f] *)
Definition read {A} (l : nat) (f : OptionsT.t -> A) : M A :=
  o <- get l ;; ret (f o).

(** A new object gets a reference that is not in use. *)
Definition alloc (o : OptionsT.t) : M nat :=
  fun w =>
    let l := fresh (dom (objects w)) in
    (Normal l, set_objects <[l := o]> w).

(** lodash [clone]: a shallow copy, in a new object. *)
Definition clone (l : nat) : M nat :=
  o <- get l ;; alloc o.

Definition or_default {A} (x : option A) (d : A) : option A :=
  match x with
  | Some _ => x
  | None => Some d
  end.

(** The second argument of the [defaults] call in [configFactory]. *)
Record DefaultsT := {
  default_babelLoaderOptions : Obj;
  default_cssLocalIdent : string;
  default_outputPath : string;
  default_publicPath : string;
}.

Definition with_defaults (d : DefaultsT) (o : OptionsT.t) : OptionsT.t :=
  {| OptionsT.babelEnv := OptionsT.babelEnv o;
     OptionsT.babelLoaderOptions :=
       or_default (OptionsT.babelLoaderOptions o) (default_babelLoaderOptions d);
     OptionsT.context := OptionsT.context o;
     OptionsT.cssLocalIdent :=
       or_default (OptionsT.cssLocalIdent o) (default_cssLocalIdent d);
     OptionsT.dontEmitBuildInfo := OptionsT.dontEmitBuildInfo o;
     OptionsT.dontUseProgressPlugin := OptionsT.dontUseProgressPlugin o;
     OptionsT.entry := OptionsT.entry o;
     OptionsT.fs := OptionsT.fs o;
     OptionsT.keepBuildInfo := OptionsT.keepBuildInfo o;
     OptionsT.mode := OptionsT.mode o;
     OptionsT.outputPath :=
       or_default (OptionsT.outputPath o) (default_outputPath d);
     OptionsT.publicPath :=
       or_default (OptionsT.publicPath o) (default_publicPath d);
     OptionsT.sitemap := OptionsT.sitemap o;
     OptionsT.typescript := OptionsT.typescript o;
     OptionsT.workbox := OptionsT.workbox o |}.

(** lodash [defaults(object, source)]: the properties of [object] that
    resolve to [undefined] are assigned from [source], in place; [object]
    is returned. *)
Definition defaults (l : nat) (source : DefaultsT) : M nat :=
  o <- get l ;;
  modify (set_objects <[l := with_defaults source o]>) ;;
  ret l.

(** [l.workbox = v] *)
Definition assign_workbox (l : nat) (v : OptionsT.Workbox) : M unit :=
  o <- get l ;;
  modify (set_objects <[l := OptionsT.set_workbox (Some v) o]>).

(** ** [app-base.ts] *)

(** A string argument of [path.resolve]; [undefined] is refused. *)
Definition path_argument (x : option string) : M string :=
  match x with
  | Some s => ret s
  | None => throw (TypeError "The paths argument must be of type string")
  end.

Definition string_value (x : option string) : Value :=
  match x with
  | Some s => VString s
  | None => VUndefined
  end.

Definition bool_value (x : option bool) : Value :=
  match x with
  | Some b => VBool b
  | None => VUndefined
  end.

(** <<`${x}`>> *)
Definition template (x : option string) : string :=
  match x with
  | Some s => s
  | None => "undefined"
  end.

Definition keep_value (k : option OptionsT.KeepBuildInfo) : Value :=
  match k with
  | Some (OptionsT.KeepFlag b) => VBool b
  | Some (OptionsT.KeepObject info) => VObject info
  | None => VUndefined
  end.

(** [k === true] *)
Definition is_true (k : option OptionsT.KeepBuildInfo) : bool :=
  match k with
  | Some (OptionsT.KeepFlag true) => true
  | _ => false
  end.

(** lodash [isObject] *)
Definition isObject (w : option OptionsT.Workbox) : bool :=
  match w with
  | Some (OptionsT.WorkboxObject _) => true
  | _ => false
  end.

(** The properties that [...w] spreads. *)
Definition workbox_props (w : option OptionsT.Workbox) : Obj :=
  match w with
  | Some (OptionsT.WorkboxObject options) => options
  | _ => []
  end.

(** The reaction to [SM.streamToPromise(sm)]: the sitemap is written into
    the output folder. *)
Definition sitemapResolved (sitemap : Text) (o fs : nat) : M unit :=
  context <- read o OptionsT.context ;;
  outputPath <- read o OptionsT.outputPath ;;
  outputPath <- path_argument outputPath ;;
  outUrl <- path_resolve [context; outputPath] ;;
  found <- existsSync fs outUrl ;;
  when (negb found) (mkdirSync fs outUrl false) ;;
  context <- read o OptionsT.context ;;
  outputPath <- read o OptionsT.outputPath ;;
  outputPath <- path_argument outputPath ;;
  target <- path_resolve [context; outputPath; "sitemap.xml"] ;;
  writeFileSync fs target sitemap.

(** Whether [source.forEach] can be called: on an array, and on an
    object whose [forEach] is a function. Of a value that is a function
    known by its name only, what comes of the call is the library
    parameter's to say as well. *)
Definition has_forEach (source : Value) : bool :=
  match source with
  | VArray _ | VExtern _ => true
  | VObject props =>
      match get_prop "forEach" props with
      | Some (VExtern _) => true
      | _ => false
      end
  | _ => false
  end.

(** [if (o.sitemap) { ... }]. The [sitemap] library is not part of the
    repository: what it makes of the source is taken from the world. The
    reaction is left behind only when the promise resolves. *)
Definition emitSitemap (o fs : nat) : M unit :=
  sitemap <- read o OptionsT.sitemap ;;
  when (truthy_string sitemap)
    (context <- read o OptionsT.context ;;
     sitemap <- path_argument sitemap ;;
     sitemapUrl <- path_resolve [context; sitemap] ;;
     source <- require sitemapUrl ;;
     let source := call_if_function source [] in
     (* sm = new SM.SitemapStream(); source.forEach((item) => sm.write(item)) *)
     if has_forEach source then
       streamed <- gets (fun w => sitemapStream w source) ;;
       match streamed with
       | WriteThrows e => throw e
       | Rejected => ret tt
       | Resolved sitemap =>
           (* SM.streamToPromise(sm).then((sitemap) => { ... }) *)
           modify (set_pending (fun js => js ++ [SitemapReady sitemap o fs]))
       end
     else
       throw (TypeError (match source with
                         | VUndefined => "Cannot read properties of undefined"
                         | VNull => "Cannot read properties of null"
                         | _ => "source.forEach is not a function"
                         end))).

(** The build info object generated for a build. *)
Definition generateBuildInfo (o : nat) : M Value :=
  key <- gets (fun w => entropy w 32) ;;
  publicPath <- read o OptionsT.publicPath ;;
  workbox <- read o OptionsT.workbox ;;
  timestamp <- gets clock ;;
  ret (VObject [("key", VString key);
                ("publicPath", string_value publicPath);
                ("useServiceWorker", VBool (OptionsT.truthy_workbox workbox));
                ("timestamp", VString timestamp)]).

(** [let buildInfo; ... if (!buildInfo) { ... }] *)
Definition resolveBuildInfo (o fs : nat) (buildInfoUrl : string) : M Value :=
  keepBuildInfo <- read o OptionsT.keepBuildInfo ;;
  buildInfo <-
    (if OptionsT.truthy_keep keepBuildInfo then
       if is_true keepBuildInfo then
         found <- existsSync fs buildInfoUrl ;;
         if found then
           text <- readFileSync fs buildInfoUrl ;;
           lift (JSON_parse text)
         else ret VUndefined
       else ret (keep_value keepBuildInfo)
     else ret VUndefined) ;;
  if negb (ToBoolean buildInfo) then generateBuildInfo o else ret buildInfo.

(** [if (!o.dontEmitBuildInfo) { ... }] *)
Definition emitBuildInfo (o fs : nat) (buildInfoUrl : string) (buildInfo : Value) : M unit :=
  dontEmitBuildInfo <- read o OptionsT.dontEmitBuildInfo ;;
  when (negb (truthy_bool dontEmitBuildInfo))
    (context <- read o OptionsT.context ;;
     mkdirSync fs context true ;;
     writeFileSync fs buildInfoUrl (JSON_stringify buildInfo 0)).

Definition polyfills : list string :=
  ["core-js/stable"; "regenerator-runtime/runtime"; "nodelist-foreach-polyfill"].

Definition normalizeEntry (e : OptionsT.Entry) : list string :=
  polyfills ++ match e with
               | OptionsT.EntryMany l => l
               | OptionsT.EntryOne s => [s]
               end.

(** [if (o.workbox) { ... }] *)
Definition addWorkbox (o : nat) (plugins : list Configuration.Plugin)
  : M (list Configuration.Plugin) :=
  workbox <- read o OptionsT.workbox ;;
  if OptionsT.truthy_workbox workbox then
    when (negb (isObject workbox)) (assign_workbox o (OptionsT.WorkboxObject [])) ;;
    dirname <- gets __dirname ;;
    swSrc <- path_resolve [dirname; "../workbox/default.js"] ;;
    workbox <- read o OptionsT.workbox ;;
    ret (plugins ++
         [Configuration.InjectManifest
            (set_prop "swDest" (VString "__service-worker.js")
               (spread [("swSrc", VString swSrc)] (workbox_props workbox)))])
  else ret plugins.

Definition fontsRule : Value :=
  VObject [("test", VRegExp "\.(eot|otf|svg|ttf|woff2?)$");
           ("include", VArray [VRegExp "node_modules";
                               VRegExp "src[/\\]assets[/\\]fonts"]);
           ("type", VString "asset/resource");
           ("generator",
            VObject [("filename", VString "fonts/[contenthash][ext][query]")])].

Definition scriptsRule (typescript : option bool) (babelEnv : string)
    (babelLoaderOptions : option Obj) : Value :=
  VObject [("test", VRegExp (if truthy_bool typescript
                             then "\.((j|t)sx?|svg)$" else "\.(jsx?|svg)$"));
           ("exclude", VArray [VRegExp "node_modules"]);
           ("loader", VString "babel-loader");
           ("options",
            VObject
              (spread
                 [("babelrc", VBool false);
                  ("configFile", VBool false);
                  ("envName", VString babelEnv);
                  ("presets",
                   VArray [VArray [VString "@dr.pogodin/react-utils/config/babel/webpack";
                                   VObject [("typescript", bool_value typescript)]]])]
                 (default [] babelLoaderOptions)))].

Definition imagesRule : Value :=
  VObject [("test", VRegExp "\.(gif|jpe?g|png)$");
           ("type", VString "asset/resource");
           ("generator",
            VObject [("filename", VString "images/[contenthash][ext][query]")])].

Definition scssRule (cssLocalIdent : option string) : Value :=
  VObject [("test", VRegExp "\.scss$");
           ("use",
            VArray [VExtern "MiniCssExtractPlugin.loader";
                    VObject [("loader", VString "css-loader");
                             ("options",
                              VObject [("modules",
                                        VObject [("getLocalIdent", VExtern "getLocalIdent");
                                                 ("localIdentName", string_value cssLocalIdent);
                                                 ("namedExport", VBool false)])])];
                    VObject [("loader", VString "postcss-loader");
                             ("options",
                              VObject [("postcssOptions",
                                        VObject [("plugins", VArray [VExtern "autoprefixer"])])])];
                    VString "resolve-url-loader";
                    VObject [("loader", VString "sass-loader");
                             ("options", VObject [("sourceMap", VBool true)])]])].

Definition cssRule : Value :=
  VObject [("test", VRegExp "\.css$");
           ("use", VArray [VExtern "MiniCssExtractPlugin.loader"; VString "css-loader"])].

Definition defaultOptions : DefaultsT :=
  {| default_babelLoaderOptions := [];
     default_cssLocalIdent := "[hash:base64:6]";
     default_outputPath := "build/web-public";
     default_publicPath := "" |}.

(** The object literal that [configFactory] returns, from the values that
    its expressions read. *)
Definition configuration (context : string) (entry : list string)
    (mode : OptionsT.Mode) (output_path : string) (publicPath : option string)
    (plugins : list Configuration.Plugin) (assets components fonts styles : string)
    (typescript : option bool) (babelEnv : string)
    (babelLoaderOptions : option Obj) (cssLocalIdent : option string)
  : Configuration.t :=
  {| Configuration.context := context;
     Configuration.entry := entry;
     Configuration.node := [("__dirname", VBool true)];
     Configuration.mode := mode;
     Configuration.output :=
       {| Configuration.chunkFilename := "[contenthash].js";
          Configuration.filename := "[contenthash].js";
          Configuration.path := output_path;
          Configuration.publicPath := template publicPath +:+ "/" |};
     Configuration.plugins := plugins;
     Configuration.resolve :=
       {| Configuration.alias :=
            [("assets", assets); ("components", components);
             ("fonts", fonts); ("styles", styles)];
          Configuration.extensions :=
            [".ts"; ".tsx"; ".js"; ".jsx"; ".json"; ".scss"];
          Configuration.symlinks := false |};
     Configuration.module :=
       [("rules",
         VArray [fontsRule;
                 scriptsRule typescript babelEnv babelLoaderOptions;
                 imagesRule;
                 scssRule cssLocalIdent;
                 cssRule])] |}.

(** [return { ... }]: the expressions of the literal, in their order. *)
Definition returnConfiguration (ops o : nat) (entry : list string)
    (plugins : list Configuration.Plugin) : M Configuration.t :=
  context <- read o OptionsT.context ;;
  mode <- read o OptionsT.mode ;;
  dirname <- gets __dirname ;;
  outputPath <- read o OptionsT.outputPath ;;
  outputPath <- path_argument outputPath ;;
  output_path <- path_resolve [dirname; context; outputPath] ;;
  publicPath <- read o OptionsT.publicPath ;;
  assets <- path_resolve [context; "src/assets"] ;;
  components <- path_resolve [context; "src/shared/components"] ;;
  fonts <- path_resolve [context; "src/assets/fonts"] ;;
  styles <- path_resolve [context; "src/styles"] ;;
  typescript <- read ops OptionsT.typescript ;;
  babelEnv <- read o OptionsT.babelEnv ;;
  babelLoaderOptions <- read o OptionsT.babelLoaderOptions ;;
  cssLocalIdent <- read o OptionsT.cssLocalIdent ;;
  ret (configuration context entry mode output_path publicPath plugins
         assets components fonts styles typescript babelEnv
         babelLoaderOptions cssLocalIdent).

(** The plugins before the Workbox one is considered. *)
Definition basePlugins (buildInfo : Value) (dontUseProgressPlugin : option bool)
  : list Configuration.Plugin :=
  let plugins := [Configuration.DefinePlugin
                    [("BUILD_INFO", JSON_stringify buildInfo 0)]] in
  if negb (truthy_bool dontUseProgressPlugin)
  then plugins ++ [Configuration.ProgressPlugin] else plugins.

(** [configFactory(ops)], for the options object at the reference [ops]. *)
Definition configFactory (ops : nat) : M Configuration.t :=
  o <- (c <- clone ops ;; defaults c defaultOptions) ;;
  ops_fs <- read ops OptionsT.fs ;;
  let fs := default nodeFs ops_fs in
  emitSitemap o fs ;;
  context <- read o OptionsT.context ;;
  buildInfoUrl <- path_resolve [context; ".build-info"] ;;
  buildInfo <- resolveBuildInfo o fs buildInfoUrl ;;
  emitBuildInfo o fs buildInfoUrl buildInfo ;;
  o_entry <- read o OptionsT.entry ;;
  let entry := normalizeEntry o_entry in
  dontUseProgressPlugin <- read ops OptionsT.dontUseProgressPlugin ;;
  let plugins := basePlugins buildInfo dontUseProgressPlugin in
  plugins <- addWorkbox o plugins ;;
  returnConfiguration ops o entry plugins.

(** One promise reaction runs. *)
Definition runJob (j : Job) : M unit :=
  match j with
  | SitemapReady sitemap o fs => sitemapResolved sitemap o fs
  | BabelJsDone command env => call (Exec command env)
  end.

(** The reactions that wait run in turn, after the synchronous code; what
    one of them throws is a rejection that nothing handles, and the next
    reaction runs. *)
Definition runPending (w : World) : World :=
  fold_left (fun w j => snd (runJob j w)) (pending w)
            (set_pending (fun _ => []) w).

(** ** The build script *)

Module BuildScript.

(** [program.opts()]: the options after [commander] has parsed the
    command line; an option without default that was not given is
    [None]. *)
Record CmdLineArgs := {
  lib : bool;
  inDir : string;
  outDir : string;
  buildType : option string;
  watch : option bool;
  webpackConfig : string;
  copyFiles : option string;
}.

Definition DEVELOPMENT : string := "development".
Definition PRODUCTION : string := "production".

Definition VALID_BUILD_TYPES : list string := [DEVELOPMENT; PRODUCTION].

(** [list.includes(x)], for [x] a string or [undefined]. *)
Definition includes (l : list string) (x : option string) : bool :=
  match x with
  | Some s => existsb (String.eqb s) l
  | None => false
  end.

(** lodash [merge(config, { output: { path } })] *)
Definition merge_output_path (config : Value) (path : string) : Value :=
  match config with
  | VObject props =>
      VObject
        (set_prop "output"
           (match get_prop "output" props with
            | Some (VObject output) => VObject (set_prop "path" (VString path) output)
            | _ => VObject [("path", VString path)]
            end)
           props)
  | _ => config
  end.

Definition dquote : string := String (ascii_of_nat 34) EmptyString.

Definition rimraf_sync (path : string) : M unit :=
  call (RimrafSync path) ;;
  w <- gets id ;;
  modify (set_volumes <[nodeFs := vol_rimraf (volume w nodeFs) (fs_key w path)]>).

(** The error that Webpack hands to the handler. *)
Record WebpackError := {
  stack : option string;
  message : string;
  details : option string;
}.

Record Asset := { name : string; size : Z }.

Record ChunkGroup := { assets : list Asset }.

(** The [stats] object, as the results of its methods. *)
Record Stats := {
  hasErrors : bool;
  hasWarnings : bool;
  errors : Value;                                  (* toJson().errors *)
  warnings : Value;                                (* toJson().warnings *)
  rendered : string;                               (* toString({ colors: true }) *)
  namedChunkGroups : list (string * ChunkGroup);   (* toJson({ ... }).namedChunkGroups *)
}.

Definition error_value (e : WebpackError) : Value :=
  VObject [("message", VString (message e));
           ("stack", string_value (stack e));
           ("details", string_value (details e))].

(** [mapValues(namedChunkGroups, (item) => item.assets.map(({ name }) => name))] *)
Definition chunkGroups (groups : list (string * ChunkGroup)) : Value :=
  VObject (map (fun g => (fst g, VArray (map (fun a => VString (name a)) (assets (snd g)))))
               groups).

Definition setExitCode (c : Z) : M unit := modify (set_exitCode (Some c)).

(** The part of the handler after the check of [error]. *)
Definition handleStats (buildType webpackOutDir : string) (stats : option Stats) : M unit :=
  stats <- match stats with
           | Some s => ret s
           | None => throw (TypeError "Cannot read properties of undefined")
           end ;;
  stop <- (if hasErrors stats then
             call (ConsoleError [VString "Error defailts:"; errors stats]) ;;
             if negb (String.eqb buildType DEVELOPMENT) then
               setExitCode 1 ;; ret true
             else ret false
           else ret false) ;;
  if stop : bool then ret tt
  else
    when (hasWarnings stats) (call (ConsoleWarn [warnings stats])) ;;
    call (ConsoleLog [VString (rendered stats)]) ;;
    let chunks := chunkGroups (namedChunkGroups stats) in
    writeFileSync nodeFs (webpackOutDir +:+ "/__chunk_groups__.json")
      (JSON_stringify chunks 2).

(** [handleWebpackCompilationResults(error, stats)], in the scope of the
    script's [buildType] and [webpackOutDir]. *)
Definition handleWebpackCompilationResults (buildType webpackOutDir : string)
    (error : option WebpackError) (stats : option Stats) : M unit :=
  stop <- match error with
          | Some e =>
              call (ConsoleError [if truthy_string (stack e)
                                  then string_value (stack e) else error_value e]) ;;
              when (truthy_string (details e))
                (call (ConsoleError [string_value (details e)])) ;;
              if negb (String.eqb buildType DEVELOPMENT) then
                setExitCode 1 ;; ret true
              else ret false
          | None => ret false
          end ;;
  if stop : bool then ret tt
  else handleStats buildType webpackOutDir stats.

(** [exec(command, options)]: the command starts in a child process. *)
Definition exec (command BABEL_ENV : string) : M unit :=
  call (Exec command BABEL_ENV).

(** [babelBuild()]: the first [exec] starts at once, the second one when
    the first has finished. *)
Definition babelBuild (BABEL_CMD_JS BABEL_CMD_SVG BABEL_ENV : string) : M unit :=
  exec BABEL_CMD_JS BABEL_ENV ;;
  modify (set_pending (fun js => js ++ [BabelJsDone BABEL_CMD_SVG BABEL_ENV])).

(** [copyFromFolder(from, to, regex)], as one call: the walk through the
    folders is not followed here. *)
Definition copyFromFolder (from to regex : string) : M unit :=
  call (CopyFromFolder from to regex).

(** The script, from the validation of the build type on. Webpack, Babel
    and the copy of files are calls that leave the program; Webpack
    answers a compilation by calling the handler above. *)
Definition main (cmdLineArgs : CmdLineArgs) : M unit :=
  let buildType := buildType cmdLineArgs in
  if negb (includes VALID_BUILD_TYPES buildType) then
    throw (Error "Invalid build type")
  else
    let buildType := template buildType in
    cwd <- gets cwd ;;
    inDir <- path_resolve [cwd; inDir cmdLineArgs] ;;
    outDir <- path_resolve [cwd; outDir cmdLineArgs] ;;
    let outDir := if lib cmdLineArgs then outDir +:+ "/" +:+ buildType else outDir in
    rimraf_sync outDir ;;
    mkdirSync nodeFs outDir true ;;
    configPath <- path_resolve [cwd; webpackConfig cmdLineArgs] ;;
    webpackConfig <- require configPath ;;
    let webpackConfig := call_if_function webpackConfig [VString buildType] in
    let webpackOutDir := if negb (lib cmdLineArgs)
                         then outDir +:+ "/web-public" else outDir in
    let webpackConfig := merge_output_path webpackConfig webpackOutDir in
    call (Webpack webpackConfig) ;;
    (if truthy_bool (watch cmdLineArgs) then call CompilerWatch
     else call CompilerRun ;; call CompilerClose) ;;
    let BABEL_CMD_JS :=
      cwd +:+ "/node_modules/.bin/babel" +:+ " " +:+ inDir +:+ " --out-dir "
          +:+ outDir +:+ " --source-maps"
          +:+ (if String.eqb buildType PRODUCTION then " --minified" else "") in
    let BABEL_CMD_SVG :=
      BABEL_CMD_JS +:+ " --extensions " +:+ dquote +:+ ".svg" +:+ dquote
                   +:+ " --keep-file-extension" in
    babelBuild BABEL_CMD_JS BABEL_CMD_SVG buildType ;;
    when (truthy_string (copyFiles cmdLineArgs))
      (copyFromFolder inDir outDir (template (copyFiles cmdLineArgs))).

End BuildScript.

(** ** The Modal component *)

Module Modal.
Section Component.
(** The state of the application that hosts the modal: what the
    [onCancel] callback acts on. *)
Context {App : Type}.
(** What React accepts as children. *)
Context {ReactNode : Type}.

Record Theme := {
  container : option string;
  overlay : option string;
}.

Record PropsT := {
  cancelOnScrolling : option bool;
  children : option ReactNode;
  containerStyle : option Obj;
  dontDisableScrolling : option bool;
  onCancel : option (App -> App);
  theme : Theme;
}.

(** An event on its way through the tree. *)
Record SyntheticEvent := {
  key : string;
  propagationStopped : bool;
}.

Definition stopPropagation (e : SyntheticEvent) : SyntheticEvent :=
  {| key := key e; propagationStopped := true |}.

(** A handler sees the event and acts on the application. *)
Definition Handler : Type := SyntheticEvent -> App -> SyntheticEvent * App.

(** A [<div>] of the modal. The [onFocus] handlers, which move the
    keyboard focus, have no part in this model. *)
Record Div := {
  ariaLabel : option string;
  ariaModal : option string;
  className : option string;
  role : option string;
  tabIndex : option Z;
  style : option Obj;
  onClick : option Handler;
  onKeyDown : option Handler;
  onWheel : option Handler;
  content : option ReactNode;
}.

Definition focusLast : Div :=
  {| ariaLabel := None; ariaModal := None; className := None; role := None;
     tabIndex := Some 0%Z; style := None;
     onClick := None; onKeyDown := None; onWheel := None; content := None |}.

Definition overlayDiv (props : PropsT) : Div :=
  {| ariaLabel := Some "Cancel";
     ariaModal := None;
     className := overlay (theme props);
     role := Some "button";
     tabIndex := Some 0%Z;
     style := None;
     onClick := Some (fun e app =>
       match onCancel props with
       | Some cancel => (stopPropagation e, cancel app)
       | None => (e, app)
       end);
     onKeyDown := Some (fun e app =>
       if String.eqb (key e) "Escape" then
         match onCancel props with
         | Some cancel => (stopPropagation e, cancel app)
         | None => (e, app)
         end
       else (e, app));
     onWheel := None;
     content := None |}.

Definition containerDiv (props : PropsT) : Div :=
  {| ariaLabel := None;
     ariaModal := Some "true";
     className := container (theme props);
     role := Some "dialog";
     tabIndex := None;
     style := containerStyle props;
     onClick := Some (fun e app => (stopPropagation e, app));
     onKeyDown := None;
     onWheel := Some (fun e app => (stopPropagation e, app));
     content := children props |}.

Definition focusOverlay : Div := focusLast.

(** What [BaseModal] returns: nothing before the portal exists, then
    the five elements, rendered into the portal. *)
Definition BaseModal (props : PropsT) (portal : option nat) : option (list Div * nat) :=
  match portal with
  | Some p =>
      Some ([focusLast; overlayDiv props; containerDiv props; focusOverlay; focusLast], p)
  | None => None
  end.

(** The page around the component: the children of [document.body], its
    class list, and the listeners on [window]. *)
Record Page := {
  body : list nat;
  bodyClasses : list string;
  windowListeners : list (string * (App -> App));
}.

(** The three effects that run after the first render: a new [<div>] is
    appended to the body and becomes the portal; [onCancel] listens to
    scrolling if asked to; scrolling of the window is disabled unless
    opted out. The result is the page and the [portal] state. *)
Definition mountEffects (props : PropsT) (page : Page) : Page * option nat :=
  let p := S (max_list (body page)) in
  ({| body := body page ++ [p];
      bodyClasses :=
        if truthy_bool (dontDisableScrolling props) then bodyClasses page
        else if bool_decide ("scrollingDisabledByModal" ∈ bodyClasses page)
             then bodyClasses page
             else bodyClasses page ++ ["scrollingDisabledByModal"];
      windowListeners :=
        match onCancel props with
        | Some cancel =>
            if truthy_bool (cancelOnScrolling props)
            then windowListeners page ++ [("scroll", cancel); ("wheel", cancel)]
            else windowListeners page
        | None => windowListeners page
        end |},
   Some p).

(** The events of the tests: the handler of the element runs, if it
    has one. *)
Definition dispatch (h : option Handler) (e : SyntheticEvent) (app : App)
  : SyntheticEvent * App :=
  match h with
  | Some handler => handler e app
  | None => (e, app)
  end.

Definition click (d : Div) := dispatch (onClick d).
Definition keyDown (d : Div) := dispatch (onKeyDown d).
End Component.
Arguments Theme : clear implicits.
Arguments PropsT : clear implicits.
Arguments Div : clear implicits.
Arguments Page : clear implicits.
End Modal.

(** ** Notions used in the statements and in the proofs *)

Definition is_write (c : Call) : bool :=
  match c with
  | WriteFileSync _ _ _ => true
  | _ => false
  end.

Module BuildScriptClaims.
Import BuildScript.

(** A compilation failed: Webpack reports a fatal error, or the stats
    report errors. *)
Definition failed (error : option WebpackError) (stats : option Stats) : Prop :=
  is_Some error \/ exists s, stats = Some s /\ hasErrors s = true.

(** The call that writes the manifest of chunk groups. *)
Definition manifest (webpackOutDir : string) (s : Stats) : Call :=
  WriteFileSync nodeFs (webpackOutDir +:+ "/__chunk_groups__.json")
    (JSON_stringify (chunkGroups (namedChunkGroups s)) 2).

(** The handler, called for a compilation with stats, writes the
    manifest. *)
Definition writes_manifest (buildType webpackOutDir : string)
    (error : option WebpackError) (stats : option Stats) (w : World) : Prop :=
  forall s, stats = Some s ->
    In (manifest webpackOutDir s)
       (calls (world_after
                 (handleWebpackCompilationResults buildType webpackOutDir error stats) w)).
End BuildScriptClaims.

(** What [configFactory] never touches outside of the option objects it
    makes: [w'] differs from [w] in the file systems, the calls made and
    the reactions that wait, at most. *)
Definition frame (w w' : World) : Prop :=
  cwd w' = cwd w /\ __dirname w' = __dirname w /\ registry w' = registry w
  /\ entropy w' = entropy w /\ clock w' = clock w /\ exitCode w' = exitCode w
  /\ objects w' = objects w.

Definition framed {A} (m : M A) : Prop := forall w, frame w (world_after m w).

(** The build info that a build generates: a random key, the public path
    (the empty string unless the caller gives one), whether a service
    worker is asked for, and the time. *)
Definition generated (r : OptionsT.t) (w : World) : BuildInfoT.t :=
  {| BuildInfoT.key := entropy w 32;
     BuildInfoT.publicPath := default "" (OptionsT.publicPath r);
     BuildInfoT.timestamp := clock w;
     BuildInfoT.useServiceWorker := OptionsT.truthy_workbox (OptionsT.workbox r) |}.

(** The Workbox option as the factory leaves it in its copy of the
    options: [true] has become the empty object. *)
Definition workboxOption (w : option OptionsT.Workbox) : option OptionsT.Workbox :=
  if OptionsT.truthy_workbox w && negb (isObject w)
  then Some (OptionsT.WorkboxObject [])
  else w.

(** The plugin list, with the Workbox plugin if the option asks for it. *)
Definition withWorkbox (swSrc : string) (w : option OptionsT.Workbox)
    (plugins : list Configuration.Plugin) : list Configuration.Plugin :=
  if OptionsT.truthy_workbox w then
    plugins ++ [Configuration.InjectManifest
                  (set_prop "swDest" (VString "__service-worker.js")
                     (spread [("swSrc", VString swSrc)]
                        (workbox_props (workboxOption w))))]
  else plugins.

(** The configuration that the factory returns for the options [r] in a
    process at [w], given the build info and the plugins. *)
Definition configurationFor (r : OptionsT.t) (w : World)
    (plugins : list Configuration.Plugin) : Configuration.t :=
  let context := OptionsT.context r in
  configuration context (normalizeEntry (OptionsT.entry r)) (OptionsT.mode r)
    (path_resolve_from (cwd w)
       [__dirname w; context; default "build/web-public" (OptionsT.outputPath r)])
    (Some (default "" (OptionsT.publicPath r)))
    plugins
    (path_resolve_from (cwd w) [context; "src/assets"])
    (path_resolve_from (cwd w) [context; "src/shared/components"])
    (path_resolve_from (cwd w) [context; "src/assets/fonts"])
    (path_resolve_from (cwd w) [context; "src/styles"])
    (OptionsT.typescript r) (OptionsT.babelEnv r)
    (Some (default [] (OptionsT.babelLoaderOptions r)))
    (Some (default "[hash:base64:6]" (OptionsT.cssLocalIdent r))).

(** The build info that a configuration carries: the text that its
    [DefinePlugin] gives to [BUILD_INFO]. *)
Definition buildInfoOf (cfg : Configuration.t) : option Text :=
  match Configuration.plugins cfg with
  | Configuration.DefinePlugin definitions :: _ =>
      snd <$> List.find (fun d => String.eqb (fst d) "BUILD_INFO") definitions
  | _ => None
  end.

(** What is at [<context>/.build-info] in the file system of the call. *)
Definition buildInfoFile (r : OptionsT.t) (w : World) : option Node :=
  node_at (volume w (default nodeFs (OptionsT.fs r)))
          (fs_key w (path_resolve_from (cwd w) [OptionsT.context r; ".build-info"])).

(** The call returns a configuration, and its build info is [b]. *)
Definition uses_build_info (ops : nat) (w : World) (b : Value) : Prop :=
  exists cfg w', configFactory ops w = (Normal cfg, w')
                 /\ buildInfoOf cfg = Some (JSON_stringify b 0).

(** If the call returns, the build info of its configuration is [b]. *)
Definition returns_build_info (ops : nat) (w : World) (b : Value) : Prop :=
  forall cfg w', configFactory ops w = (Normal cfg, w') ->
                 buildInfoOf cfg = Some (JSON_stringify b 0).

(** The call does not return: it throws. *)
Definition throws (ops : nat) (w : World) : Prop :=
  exists e, completion_of (configFactory ops) w = Throw e.

(** The choice of the build info as the specification states it: the
    object given is used; with [true] and the file there, the build info
    is loaded from it, or generated if the load yields nothing usable; in
    every other case it is generated. *)
Definition build_info_claim (ops : nat) (w : World) : Prop :=
  forall r, objects w !! ops = Some r ->
    match OptionsT.keepBuildInfo r with
    | Some (OptionsT.KeepObject info) => uses_build_info ops w (VObject info)
    | Some (OptionsT.KeepFlag true) =>
        match buildInfoFile r w with
        | Some (File text) =>
            (exists b, JSON_parse text = Normal b /\ uses_build_info ops w b)
            \/ uses_build_info ops w (BuildInfoT.value (generated r w))
        | _ => uses_build_info ops w (BuildInfoT.value (generated r w))
        end
    | _ => uses_build_info ops w (BuildInfoT.value (generated r w))
    end.

(** The write of the build info as the specification states it: the call
    writes the build info to [<context>/.build-info], once. *)
Definition build_info_written_claim (ops : nat) (w : World) : Prop :=
  forall r, objects w !! ops = Some r ->
    exists l b,
      calls (world_after (configFactory ops) w) = calls w ++ l
      /\ filter is_write l
         = [WriteFileSync (default nodeFs (OptionsT.fs r))
              (path_resolve_from (cwd w) [OptionsT.context r; ".build-info"])
              (JSON_stringify b 0)].



(** ** Sample worlds and inputs, for the examples below *)

(** A project in [/app], checked out and not built yet. *)
Definition projectVolume : Volume :=
  <[ ["app"; "sitemap.json"] := File (NotJson "...") ]>
    (<[ ["app"] := Directory ]> ∅).

(** The [sitemap] library in the sample worlds, with a stream that has no
    host name: an array of absolute URLs of the sample site gives their
    sitemap; for an array without entries the promise rejects; any
    other entry, such as a relative URL, makes [sm.write] throw. *)
Definition sampleEntry (item : Value) : bool :=
  match item with
  | VString url => String.prefix "https://example.com/" url
  | _ => false
  end.

Definition sampleStream (source : Value) : Streamed :=
  match source with
  | VArray [] => Rejected
  | VArray items =>
      if forallb sampleEntry items then Resolved (SitemapXml items)
      else WriteThrows (TypeError "Invalid URL")
  | _ => WriteThrows (TypeError "Invalid URL")
  end.

Definition sampleWorld : World :=
  {| cwd := "/app";
     __dirname := "/app/node_modules/@dr.pogodin/react-utils/config/webpack";
     volumes := {[ nodeFs := projectVolume ]};
     registry :=
       <[ "/app/webpack.config.js" :=
            ExportFunction (fun args => VObject [("mode", hd VUndefined args)]) ]>
         {[ "/app/sitemap.json" :=
              ExportValue (VArray [VString "https://example.com/";
                                   VString "https://example.com/about"]) ]};
     sitemapStream := sampleStream;
     entropy := fun n => "0123456789abcdef0123456789abcdef";
     clock := "2024-05-01T10:00:00.000Z";
     objects := ∅;
     exitCode := None;
     calls := [];
     pending := [] |}.

Module AppBaseSamples.
Import OptionsT.

(** The options of a production build of the project in [/app]. *)
Definition options (dontEmitBuildInfo : option bool)
    (keepBuildInfo : option KeepBuildInfo) (sitemap : option string)
    (workbox : option Workbox) : OptionsT.t :=
  {| babelEnv := "production";
     babelLoaderOptions := None;
     context := "/app";
     cssLocalIdent := None;
     dontEmitBuildInfo := dontEmitBuildInfo;
     dontUseProgressPlugin := None;
     entry := EntryOne "./src";
     fs := None;
     keepBuildInfo := keepBuildInfo;
     mode := production;
     outputPath := None;
     publicPath := None;
     sitemap := sitemap;
     typescript := None;
     workbox := workbox |}.

(** The sample world, with these files in Node's [fs] and the caller's
    options at the reference 0. *)
Definition worldWith (files : Volume) (ops : OptionsT.t) : World :=
  {| cwd := cwd sampleWorld;
     __dirname := __dirname sampleWorld;
     volumes := {[ nodeFs := files ]};
     registry := registry sampleWorld;
     sitemapStream := sitemapStream sampleWorld;
     entropy := entropy sampleWorld;
     clock := clock sampleWorld;
     objects := {[ 0 := ops ]};
     exitCode := None;
     calls := [];
     pending := [] |}.

Definition plain : OptionsT.t := options None None None None.
Definition plainWorld : World := worldWith projectVolume plain.

Definition optedOut : OptionsT.t := options (Some true) None None None.
Definition optedOutWorld : World := worldWith projectVolume optedOut.

(** A [.build-info] file that does not hold JSON. *)
Definition reuse : OptionsT.t := options None (Some (KeepFlag true)) None None.
Definition corruptVolume : Volume :=
  <[ ["app"; ".build-info"] := File (NotJson "<<<<<<< HEAD") ]> projectVolume.
Definition corruptWorld : World := worldWith corruptVolume reuse.

(** A [.build-info] file of an earlier build. *)
Definition earlier : Value :=
  VObject [("key", VString "k"); ("publicPath", VString "");
           ("useServiceWorker", VBool false);
           ("timestamp", VString "2024-04-30T08:00:00.000Z")].
Definition builtVolume : Volume :=
  <[ ["app"; ".build-info"] := File (Json earlier 0) ]> projectVolume.
Definition builtWorld : World := worldWith builtVolume reuse.

(** A sitemap is asked for; [/app/build] is not there yet. *)
Definition withSitemap : OptionsT.t :=
  options None None (Some "sitemap.json") None.
Definition sitemapWorld : World := worldWith projectVolume withSitemap.

(** The same, after an earlier build has left [/app/build]. *)
Definition rebuiltVolume : Volume :=
  <[ ["app"; "build"] := Directory ]> projectVolume.
Definition rebuildWorld : World := worldWith rebuiltVolume withSitemap.

(** A service worker is asked for, with the default options. *)
Definition withWorkbox : OptionsT.t :=
  options None None None (Some (WorkboxFlag true)).
Definition withWorkboxWorld : World := worldWith projectVolume withWorkbox.
End AppBaseSamples.

Module BuildScriptSamples.
Import BuildScript.

Definition failedStats : Stats :=
  {| hasErrors := true;
     hasWarnings := false;
     errors := VArray [VString "Module not found"];
     warnings := VArray [];
     rendered := "ERROR in ./src/index.js";
     namedChunkGroups :=
       [("main", {| assets := [{| name := "main.js"; size := 100 |};
                               {| name := "main.css"; size := 20 |}] |})] |}.

Definition noBuildType : CmdLineArgs :=
  {| lib := false; inDir := "src"; outDir := "build"; buildType := None;
     watch := None; webpackConfig := "webpack.config.js"; copyFiles := None |}.

Definition development : CmdLineArgs :=
  {| lib := false; inDir := "src"; outDir := "build";
     buildType := Some "development"; watch := None;
     webpackConfig := "webpack.config.js"; copyFiles := None |}.

Definition fatal : WebpackError :=
  {| stack := Some "Error: Invalid configuration object";
     message := "Invalid configuration object";
     details := None |}.
End BuildScriptSamples.

(** ** The Modal component: the other handlers and the cleanups *)

Module ModalLifecycle.
Section Lifecycle.
Import Modal.
Context {App ReactNode : Type}.

Definition wheel (d : Div App ReactNode) := dispatch (onWheel d).

(** The elements that a render puts into the portal, in their order. *)
Definition elements (props : PropsT App ReactNode) (portal : option nat)
  : list (Div App ReactNode) :=
  match BaseModal props portal with
  | Some (divs, _) => divs
  | None => []
  end.

(** An event that no handler has stopped travels on to [window], where
    the listeners for its type run, in the order in which they were
    added. *)
Definition atWindow (page : Page App) (type : string) (r : SyntheticEvent * App)
  : SyntheticEvent * App :=
  if propagationStopped (fst r) then r
  else (fst r,
        fold_left (fun app listener =>
                     if String.eqb (fst listener) type then snd listener app else app)
                  (windowListeners page) (snd r)).

(** The events, on an element of a modal in a page. *)
Definition clickOn (page : Page App) (d : Div App ReactNode) (e : SyntheticEvent)
    (app : App) := atWindow page "click" (click d e app).
Definition keyDownOn (page : Page App) (d : Div App ReactNode) (e : SyntheticEvent)
    (app : App) := atWindow page "keydown" (keyDown d e app).
Definition wheelOn (page : Page App) (d : Div App ReactNode) (e : SyntheticEvent)
    (app : App) := atWindow page "wheel" (wheel d e app).

(** [parent.removeChild(p)]: the child leaves the list; a node that is
    not a child is refused. *)
Definition removeChild (p : nat) (children : list nat) : Completion (list nat) :=
  if bool_decide (p ∈ children)
  then Normal (filter (fun c => c <> p) children)
  else Throw (Error "The node to be removed is not a child of this node").

(** The cleanup of the first effect, for the portal [p] that the effect
    made: [document.body.removeChild(p)]. *)
Definition portalCleanup (p : nat) (page : Page App) : Completion (Page App) :=
  match removeChild p (body page) with
  | Normal children =>
      Normal {| body := children;
                bodyClasses := bodyClasses page;
                windowListeners := windowListeners page |}
  | Throw e => Throw e
  end.

(** The cleanup of the third effect: unless opted out, the class that
    disables scrolling is taken off the body. *)
Definition scrollingCleanup (props : PropsT App ReactNode) (page : Page App)
  : Page App :=
  if truthy_bool (dontDisableScrolling props) then page
  else {| body := body page;
          bodyClasses :=
            filter (fun c => c <> "scrollingDisabledByModal") (bodyClasses page);
          windowListeners := windowListeners page |}.
End Lifecycle.
End ModalLifecycle.

Module ModalSamples.
Import Modal.

(** A modal in an application whose state counts the calls of
    [onCancel]. *)
Definition props : PropsT nat string :=
  {| cancelOnScrolling := None;
     children := Some "Modal Content";
     containerStyle := None;
     dontDisableScrolling := None;
     onCancel := Some S;
     theme := {| container := Some "container"; overlay := None |} |}.

Definition keyEnter : SyntheticEvent :=
  {| key := "Enter"; propagationStopped := false |}.

(** The same modal, cancelled by scrolling as well. *)
Definition scrollProps : PropsT nat string :=
  {| cancelOnScrolling := Some true;
     children := Some "Modal Content";
     containerStyle := None;
     dontDisableScrolling := None;
     onCancel := Some S;
     theme := {| container := Some "container"; overlay := None |} |}.

Definition wheelEvent : SyntheticEvent :=
  {| key := ""; propagationStopped := false |}.

(** A page without listeners on its window. *)
Definition page : Page nat :=
  {| body := [1; 2]; bodyClasses := []; windowListeners := [] |}.
End ModalSamples.

(** ** The build script: the paths and commands that the script computes *)

Module BuildScriptPlan.
Import BuildScript.

(** [inDir]: <<path.resolve(cwd, cmdLineArgs.inDir)>> *)
Definition inDirOf (args : CmdLineArgs) (w : World) : string :=
  path_resolve_from (cwd w) [cwd w; inDir args].

(** [outDir], for the build type [t]: the resolved folder, and below it
    the folder of the build type for a library build. *)
Definition outDirOf (args : CmdLineArgs) (t : string) (w : World) : string :=
  let outDir := path_resolve_from (cwd w) [cwd w; outDir args] in
  if lib args then outDir +:+ "/" +:+ t else outDir.

(** [webpackOutDir] *)
Definition webpackOutDirOf (args : CmdLineArgs) (t : string) (w : World) : string :=
  if negb (lib args) then outDirOf args t w +:+ "/web-public" else outDirOf args t w.

Definition configPathOf (args : CmdLineArgs) (w : World) : string :=
  path_resolve_from (cwd w) [cwd w; webpackConfig args].

(** [BABEL_CMD_JS] and [BABEL_CMD_SVG] *)
Definition BABEL_CMD_JS (args : CmdLineArgs) (t : string) (w : World) : string :=
  cwd w +:+ "/node_modules/.bin/babel" +:+ " " +:+ inDirOf args w +:+ " --out-dir "
        +:+ outDirOf args t w +:+ " --source-maps"
        +:+ (if String.eqb t PRODUCTION then " --minified" else "").

Definition BABEL_CMD_SVG (args : CmdLineArgs) (t : string) (w : World) : string :=
  BABEL_CMD_JS args t w +:+ " --extensions " +:+ dquote +:+ ".svg" +:+ dquote
               +:+ " --keep-file-extension".

(** [config.output.path] *)
Definition output_path (config : Value) : option Value :=
  match config with
  | VObject props =>
      match get_prop "output" props with
      | Some (VObject output) => get_prop "path" output
      | _ => None
      end
  | _ => None
  end.

Definition is_compiler (c : Call) : bool :=
  match c with
  | CompilerWatch | CompilerRun | CompilerClose => true
  | _ => false
  end.

Definition is_exec (c : Call) : bool :=
  match c with
  | Exec _ _ => true
  | _ => false
  end.

(** A call that starts a build step: Webpack, its compiler, Babel, the
    copy of files. *)
Definition is_build_step (c : Call) : bool :=
  match c with
  | Webpack _ | CompilerWatch | CompilerRun | CompilerClose
  | Exec _ _ | CopyFromFolder _ _ _ => true
  | _ => false
  end.
End BuildScriptPlan.

Module BuildScriptRuns.
Import BuildScript.

(** The project with what an earlier build has left in [/app/build]. *)
Definition staleVolume : Volume :=
  <[ ["app"; "build"; "web-public"; "old.js"] := File (NotJson "old") ]>
    (<[ ["app"; "build"; "web-public"] := Directory ]>
       (<[ ["app"; "build"] := Directory ]> projectVolume)).

Definition staleWorld : World :=
  {| cwd := cwd sampleWorld;
     __dirname := __dirname sampleWorld;
     volumes := {[ nodeFs := staleVolume ]};
     registry := registry sampleWorld;
     sitemapStream := sitemapStream sampleWorld;
     entropy := entropy sampleWorld;
     clock := clock sampleWorld;
     objects := ∅;
     exitCode := None;
     calls := [];
     pending := [] |}.

(** A production build of a library, in watch mode. *)
Definition library : CmdLineArgs :=
  {| lib := true; inDir := "src"; outDir := "build";
     buildType := Some "production"; watch := Some true;
     webpackConfig := "webpack.config.js"; copyFiles := None |}.

(** A build whose Webpack configuration is not where the script looks
    for it. *)
Definition misconfigured : CmdLineArgs :=
  {| lib := false; inDir := "src"; outDir := "build";
     buildType := Some "production"; watch := None;
     webpackConfig := "config/webpack.js"; copyFiles := None |}.

Definition cleanStats : Stats :=
  {| hasErrors := false;
     hasWarnings := true;
     errors := VArray [];
     warnings := VArray [VString "asset size limit"];
     rendered := "compiled with 1 warning";
     namedChunkGroups :=
       [("main", {| assets := [{| name := "main.js"; size := 100 |}] |})] |}.
End BuildScriptRuns.

(** The rule of the Babel loader in a configuration:
    <<config.module.rules.find((x) => x.loader === 'babel-loader')>> *)
Definition babelLoader (cfg : Configuration.t) : option Obj :=
  match get_prop "rules" (Configuration.module cfg) with
  | Some (VArray rules) =>
      match List.find
              (fun x => match x with
                        | VObject rule =>
                            match get_prop "loader" rule with
                            | Some (VString loader) => String.eqb loader "babel-loader"
                            | _ => false
                            end
                        | _ => false
                        end) rules with
      | Some (VObject rule) => Some rule
      | _ => None
      end
  | _ => None
  end.

(** The object at [modules] in the options of the CSS loader of the rule
    for SCSS files:
    <<config.module.rules.find((x) => String(x.test) === '/\.scss$/')
        .use.find((x) => x.loader === 'css-loader').options.modules>> *)
Definition cssLoaderModules (cfg : Configuration.t) : option Obj :=
  match get_prop "rules" (Configuration.module cfg) with
  | Some (VArray rules) =>
      match List.find
              (fun x => match x with
                        | VObject rule =>
                            match get_prop "test" rule with
                            | Some (VRegExp test) => String.eqb test "\.scss$"
                            | _ => false
                            end
                        | _ => false
                        end) rules with
      | Some (VObject rule) =>
          match get_prop "use" rule with
          | Some (VArray use) =>
              match List.find
                      (fun x => match x with
                                | VObject loader =>
                                    match get_prop "loader" loader with
                                    | Some (VString name) => String.eqb name "css-loader"
                                    | _ => false
                                    end
                                | _ => false
                                end) use with
              | Some (VObject loader) =>
                  match get_prop "options" loader with
                  | Some (VObject options) =>
                      match get_prop "modules" options with
                      | Some (VObject modules) => Some modules
                      | _ => None
                      end
                  | _ => None
                  end
              | _ => None
              end
          | _ => None
          end
      | _ => None
      end
  | _ => None
  end.

(** The options that the factory gives to the Babel loader before the
    caller's are spread over them. *)
Definition babelLoaderDefaults (typescript : option bool) (babelEnv : string) : Obj :=
  [("babelrc", VBool false);
   ("configFile", VBool false);
   ("envName", VString babelEnv);
   ("presets",
    VArray [VArray [VString "@dr.pogodin/react-utils/config/babel/webpack";
                    VObject [("typescript", bool_value typescript)]]])].

Module AppBaseRuns.
Import OptionsT.

(** A service worker is asked for, with options of the caller's. *)
Definition customWorkbox : OptionsT.t :=
  AppBaseSamples.options None None None
    (Some (WorkboxObject [("swSrc", VString "/app/src/sw.js");
                          ("swDest", VString "sw.js");
                          ("maximumFileSizeToCacheInBytes", VNumber 5000000)])).
Definition customWorkboxWorld : World :=
  AppBaseSamples.worldWith projectVolume customWorkbox.

(** Options of the caller's for the Babel loader. *)
Definition customBabel : OptionsT.t :=
  {| babelEnv := "production";
     babelLoaderOptions := Some [("envName", VString "modern");
                                 ("cacheDirectory", VBool true)];
     context := "/app";
     cssLocalIdent := None;
     dontEmitBuildInfo := None;
     dontUseProgressPlugin := None;
     entry := EntryOne "./src";
     fs := None;
     keepBuildInfo := None;
     mode := production;
     outputPath := None;
     publicPath := None;
     sitemap := None;
     typescript := Some true;
     workbox := None |}.
Definition customBabelWorld : World :=
  AppBaseSamples.worldWith projectVolume customBabel.

End AppBaseRuns.

(** ** The file system of a call *)

(** A reaction that works on the file system [fs], if on any. *)
Definition job_on (fs : nat) (j : Job) : Prop :=
  match j with
  | SitemapReady _ _ f => f = fs
  | BabelJsDone _ _ => True
  end.

(** From [w] to [w'] no file system other than [fs] has changed, and the
    reactions that have been added work on [fs]. *)
Definition confined (fs : nat) (w w' : World) : Prop :=
  (forall k, k <> fs -> volumes w' !! k = volumes w !! k)
  /\ exists js, pending w' = pending w ++ js /\ Forall (job_on fs) js.

Definition confines {A} (fs : nat) (m : M A) : Prop :=
  forall w, confined fs w (world_after m w).

Module AppBaseBuilds.
Import OptionsT.

(** A process that holds the options of a build, at the reference 0, and
    the options with which a server reuses the build info, at 5. *)
Definition buildThenServe : World :=
  {| cwd := cwd sampleWorld;
     __dirname := __dirname sampleWorld;
     volumes := {[ nodeFs := projectVolume ]};
     registry := registry sampleWorld;
     sitemapStream := sitemapStream sampleWorld;
     entropy := entropy sampleWorld;
     clock := clock sampleWorld;
     objects := <[ 5 := AppBaseSamples.reuse ]> {[ 0 := AppBaseSamples.plain ]};
     exitCode := None;
     calls := [];
     pending := [] |}.

(** Options with a file system of their own. *)
Definition inMemory : OptionsT.t :=
  {| babelEnv := "production";
     babelLoaderOptions := None;
     context := "/app";
     cssLocalIdent := None;
     dontEmitBuildInfo := None;
     dontUseProgressPlugin := Some true;
     entry := EntryOne "./src";
     fs := Some 7;
     keepBuildInfo := None;
     mode := production;
     outputPath := Some "out";
     publicPath := None;
     sitemap := Some "sitemap.json";
     typescript := None;
     workbox := None |}.
Definition inMemoryWorld : World := AppBaseSamples.worldWith projectVolume inMemory.
End AppBaseBuilds.

(** ** The sitemap source *)

(** A value on which [source.forEach] cannot be called: it is neither an
    array nor an object with a function at [forEach]. *)
Definition no_forEach (source : Value) : Prop :=
  match source with
  | VArray _ | VExtern _ => False
  | VObject props => forall f, get_prop "forEach" props <> Some (VExtern f)
  | _ => True
  end.

Module AppBaseSources.
(** A sitemap module that lists its pages by their paths. *)
Definition byPath : OptionsT.t :=
  AppBaseSamples.options None None (Some "routes.json") None.
Definition byPathWorld : World :=
  {| cwd := cwd sampleWorld;
     __dirname := __dirname sampleWorld;
     volumes := {[ nodeFs := projectVolume ]};
     registry :=
       <[ "/app/routes.json" := ExportValue (VArray [VString "/"; VString "/about"]) ]>
         (registry sampleWorld);
     sitemapStream := sitemapStream sampleWorld;
     entropy := entropy sampleWorld;
     clock := clock sampleWorld;
     objects := {[ 0 := byPath ]};
     exitCode := None;
     calls := [];
     pending := [] |}.
End AppBaseSources.

(** * Properties *)

(** ** The monad *)

Lemma bind_run {A B} (m : M A) (k : A -> M B) (w : World) :
  bind m k w = match m w with
               | (Normal a, w') => k a w'
               | (Throw e, w') => (Throw e, w')
               end.
Proof. reflexivity. Qed.

Lemma bind_normal {A B} (m : M A) (k : A -> M B) (w w' : World) (b : B) :
  bind m k w = (Normal b, w') ->
  exists a w1, m w = (Normal a, w1) /\ k a w1 = (Normal b, w').
Proof.
  unfold bind. destruct (m w) as [[a|e] w1]; [eauto|discriminate].
Qed.

Lemma world_after_bind {A B} (m : M A) (k : A -> M B) (w : World) :
  world_after (bind m k) w
  = match completion_of m w with
    | Normal a => world_after (k a) (world_after m w)
    | Throw _ => world_after m w
    end.
Proof.
  unfold world_after, completion_of, bind.
  destruct (m w) as [[a|e] w1]; reflexivity.
Qed.

(** ** Frames *)

Lemma frame_refl (w : World) : frame w w.
Proof. unfold frame. tauto. Qed.

Lemma frame_trans (w1 w2 w3 : World) : frame w1 w2 -> frame w2 w3 -> frame w1 w3.
Proof. unfold frame. intuition congruence. Qed.

Lemma framed_bind {A B} (m : M A) (k : A -> M B) :
  framed m -> (forall a, framed (k a)) -> framed (bind m k).
Proof.
  intros Hm Hk w. rewrite world_after_bind.
  destruct (completion_of m w); [|apply Hm].
  eapply frame_trans; [apply Hm|apply Hk].
Qed.

Lemma framed_ret {A} (a : A) : framed (ret a).
Proof. intros w. apply frame_refl. Qed.

Lemma framed_throw {A} (e : Exception) : framed (@throw A e).
Proof. intros w. apply frame_refl. Qed.

Lemma framed_gets {A} (f : World -> A) : framed (gets f).
Proof. intros w. apply frame_refl. Qed.

Lemma framed_lift {A} (c : Completion A) : framed (lift c).
Proof. intros w. apply frame_refl. Qed.

Lemma framed_call (c : Call) : framed (call c).
Proof. intros w. unfold frame. simpl. tauto. Qed.

Lemma framed_set_pending (f : list Job -> list Job) : framed (modify (set_pending f)).
Proof. intros w. unfold frame. simpl. tauto. Qed.

Lemma framed_set_volumes (f : gmap nat Volume -> gmap nat Volume) :
  framed (modify (set_volumes f)).
Proof. intros w. unfold frame. simpl. tauto. Qed.

(** The proof that a computation is framed follows its structure. *)
Create HintDb framed.

Ltac framed_steps :=
  repeat first
    [ solve [auto with framed]
    | apply framed_ret | apply framed_throw | apply framed_gets | apply framed_lift
    | apply framed_call | apply framed_set_pending | apply framed_set_volumes
    | apply framed_bind; [|intros ?]
    | assumption
    | match goal with
      | |- framed (match ?x with _ => _ end) => destruct x
      | |- framed (when ?b _) => unfold when
      end ].

Lemma framed_get (l : nat) : framed (get l).
Proof. unfold get. framed_steps. Qed.

Lemma framed_read {A} (l : nat) (f : OptionsT.t -> A) : framed (read l f).
Proof. unfold read. pose proof (framed_get l). framed_steps. Qed.

Lemma framed_path_resolve (args : list string) : framed (path_resolve args).
Proof. unfold path_resolve. framed_steps. Qed.

Lemma framed_path_argument (x : option string) : framed (path_argument x).
Proof. unfold path_argument. framed_steps. Qed.

Lemma framed_existsSync (fs : nat) (path : string) : framed (existsSync fs path).
Proof. unfold existsSync. framed_steps. Qed.

Lemma framed_readFileSync (fs : nat) (path : string) : framed (readFileSync fs path).
Proof. unfold readFileSync. framed_steps. Qed.

Lemma framed_put_volume (fs : nat) (c : Completion Volume) : framed (put_volume fs c).
Proof. unfold put_volume. framed_steps. Qed.

Lemma framed_mkdirSync (fs : nat) (path : string) (recursive : bool) :
  framed (mkdirSync fs path recursive).
Proof. unfold mkdirSync. pose proof framed_put_volume. framed_steps. Qed.

Lemma framed_writeFileSync (fs : nat) (path : string) (data : Text) :
  framed (writeFileSync fs path data).
Proof. unfold writeFileSync. pose proof framed_put_volume. framed_steps. Qed.

Lemma framed_require (path : string) : framed (require path).
Proof. unfold require. framed_steps. Qed.

#[local] Hint Resolve framed_read framed_path_resolve framed_path_argument
  framed_existsSync framed_readFileSync framed_mkdirSync framed_writeFileSync
  framed_require : framed.

Lemma framed_emitSitemap (o fs : nat) : framed (emitSitemap o fs).
Proof. unfold emitSitemap. framed_steps. Qed.

Lemma framed_generateBuildInfo (o : nat) : framed (generateBuildInfo o).
Proof. unfold generateBuildInfo. framed_steps. Qed.

Lemma framed_resolveBuildInfo (o fs : nat) (url : string) :
  framed (resolveBuildInfo o fs url).
Proof.
  unfold resolveBuildInfo. pose proof (framed_generateBuildInfo o). framed_steps.
Qed.

Lemma framed_emitBuildInfo (o fs : nat) (url : string) (b : Value) :
  framed (emitBuildInfo o fs url b).
Proof. unfold emitBuildInfo. framed_steps. Qed.


(** ** Paths *)

Example path_resolve_relative :
  path_resolve_from "/home/me/app" ["."; "build/web-public"; "sitemap.xml"]
  = "/home/me/app/build/web-public/sitemap.xml".
Proof. reflexivity. Qed.

Example path_resolve_absolute :
  path_resolve_from "/home/me" ["/pkg/config/webpack"; "/app"; "build//web-public/"]
  = "/app/build/web-public".
Proof. reflexivity. Qed.

Example path_resolve_parent :
  path_resolve_from "/home/me" ["/pkg/config/webpack"; "../workbox/default.js"]
  = "/pkg/config/workbox/default.js".
Proof. reflexivity. Qed.

Example path_resolve_above_root :
  path_resolve_from "/" ["../.."; ""] = "/".
Proof. reflexivity. Qed.

Section Paths.
#[local] Arguments String.append !_ _ / : simpl nomatch.














End Paths.

(** ** The file system calls *)

Lemma existsSync_run (fs : nat) (path : string) (w : World) :
  existsSync fs path w
  = (Normal (bool_decide (is_Some (node_at (volume w fs) (fs_key w path)))),
     set_calls (fun cs => cs ++ [ExistsSync fs path]) w).
Proof. reflexivity. Qed.

Lemma readFileSync_run (fs : nat) (path : string) (w : World) :
  readFileSync fs path w
  = (vol_read path (volume w fs) (fs_key w path),
     set_calls (fun cs => cs ++ [ReadFileSync fs path]) w).
Proof. reflexivity. Qed.

Lemma mkdirSync_run (fs : nat) (path : string) (recursive : bool) (w : World) :
  mkdirSync fs path recursive w
  = match (if recursive then vol_mkdir_p path (volume w fs) [] (fs_key w path)
           else vol_mkdir path (volume w fs) (fs_key w path)) with
    | Normal v =>
        (Normal tt,
         set_volumes <[fs := v]>
           (set_calls (fun cs => cs ++ [MkdirSync fs path recursive]) w))
    | Throw e =>
        (Throw e, set_calls (fun cs => cs ++ [MkdirSync fs path recursive]) w)
    end.
Proof.
  unfold mkdirSync, put_volume, call, bind, ret, gets, modify, lift. simpl.
  change (volume (set_calls _ w) fs) with (volume w fs).
  change (fs_key (set_calls _ w) path) with (fs_key w path).
  destruct (if recursive then _ else _); reflexivity.
Qed.

Lemma writeFileSync_run (fs : nat) (path : string) (data : Text) (w : World) :
  writeFileSync fs path data w
  = match vol_write path (volume w fs) (fs_key w path) data with
    | Normal v =>
        (Normal tt,
         set_volumes <[fs := v]>
           (set_calls (fun cs => cs ++ [WriteFileSync fs path data]) w))
    | Throw e =>
        (Throw e, set_calls (fun cs => cs ++ [WriteFileSync fs path data]) w)
    end.
Proof.
  unfold writeFileSync, put_volume, call, bind, ret, gets, modify, lift. simpl.
  change (volume (set_calls _ w) fs) with (volume w fs).
  change (fs_key (set_calls _ w) path) with (fs_key w path).
  destruct (vol_write path (volume w fs) (fs_key w path) data); reflexivity.
Qed.

Lemma volume_written (fs : nat) (v : Volume) (w : World) :
  volume (set_volumes <[fs := v]> w) fs = v.
Proof. unfold volume. simpl. by rewrite lookup_insert_eq. Qed.

Lemma vol_write_ok (path : string) (v : Volume) (k : list string) (t : Text) :
  node_at v (parent k) = Some Directory ->
  node_at v k <> Some Directory ->
  vol_write path v k t = Normal (<[k := File t]> v).
Proof.
  intros Hp Hk. unfold vol_write. rewrite Hp.
  destruct (node_at v k) as [[c|]|]; congruence.
Qed.


Lemma vol_write_normal (path : string) (v v' : Volume) (k : list string) (t : Text) :
  vol_write path v k t = Normal v' -> v' = <[k := File t]> v.
Proof.
  unfold vol_write. intros H.
  destruct (node_at v k) as [[c|]|]; try discriminate;
    destruct (node_at v (parent k)) as [[c'|]|]; try discriminate;
    by injection H as <-.
Qed.

Lemma node_at_nonempty (v : Volume) (k : list string) :
  k <> [] -> node_at v k = v !! k.
Proof. by destruct k. Qed.

Lemma snoc_nonempty {A} (l : list A) (x : A) : l ++ [x] <> [].
Proof. by destruct l. Qed.



(** ** Objects: what a property holds after an assignment and a spread *)

Lemma get_prop_set_prop (k : string) (v : Value) (props : Obj) :
  get_prop k (set_prop k v props) = Some v.
Proof.
  unfold get_prop. induction props as [|[k' v'] rest IH]; simpl.
  - by rewrite String.eqb_refl.
  - destruct (String.eqb k k') eqn:E; simpl; [by rewrite String.eqb_refl|].
    by rewrite E.
Qed.

Lemma get_prop_set_prop_ne (k k0 : string) (v : Value) (props : Obj) :
  k0 <> k -> get_prop k0 (set_prop k v props) = get_prop k0 props.
Proof.
  intros Hne. unfold get_prop. induction props as [|[k' v'] rest IH]; simpl.
  - apply String.eqb_neq in Hne. by rewrite Hne.
  - destruct (String.eqb k k') eqn:E; simpl.
    + apply String.eqb_eq in E as <-. apply String.eqb_neq in Hne. by rewrite Hne.
    + destruct (String.eqb k0 k'); [reflexivity|exact IH].
Qed.

Lemma get_prop_absent (k : string) (props : Obj) :
  k ∉ map fst props -> get_prop k props = None.
Proof.
  unfold get_prop. induction props as [|[k' v'] rest IH]; simpl; [reflexivity|].
  intros Hk. apply not_elem_of_cons in Hk as [Hne Hk].
  apply String.eqb_neq in Hne. rewrite Hne. by apply IH.
Qed.

(** In [{ ...target, ...source }] a property of [source] wins. *)
Lemma get_prop_spread (k : string) (source : Obj) :
  forall target : Obj,
    NoDup (map fst source) ->
    get_prop k (spread target source)
    = match get_prop k source with
      | Some v => Some v
      | None => get_prop k target
      end.
Proof.
  unfold spread.
  induction source as [|[k1 v1] rest IH]; intros target Hnodup; [reflexivity|].
  simpl in Hnodup. apply NoDup_cons in Hnodup as [Hk1 Hrest].
  simpl fold_left. rewrite (IH _ Hrest).
  unfold get_prop at 3. simpl List.find.
  destruct (String.eqb k k1) eqn:E.
  - apply String.eqb_eq in E as ->.
    rewrite (get_prop_absent _ _ Hk1). apply get_prop_set_prop.
  - fold (get_prop k rest).
    destruct (get_prop k rest); [reflexivity|].
    apply get_prop_set_prop_ne. by apply String.eqb_neq.
Qed.

(** ** [app-base.ts] *)

Section AppBaseFacts.
Import OptionsT.

(** *** The store *)

Lemma get_run (l : nat) (w : World) (r : OptionsT.t) :
  objects w !! l = Some r -> get l w = (Normal r, w).
Proof. intros H. unfold get, bind, gets, ret. simpl. rewrite H. reflexivity. Qed.

Lemma read_run {A} (l : nat) (f : OptionsT.t -> A) (w : World) (r : OptionsT.t) :
  objects w !! l = Some r -> read l f w = (Normal (f r), w).
Proof. intros H. unfold read, bind. rewrite (get_run _ _ _ H). reflexivity. Qed.

Lemma fresh_object (w : World) (l : nat) (r : OptionsT.t) :
  objects w !! l = Some r -> fresh (dom (objects w)) <> l.
Proof.
  intros H Heq. pose proof (is_fresh (dom (objects w))) as Hfresh.
  apply Hfresh. rewrite Heq. apply elem_of_dom. eauto.
Qed.

(** [defaults(clone(ops), { ... })] makes one new object: the copy of
    [ops] with the defaults filled in. *)
Lemma normalize_run (ops : nat) (w : World) (r : OptionsT.t) :
  objects w !! ops = Some r ->
  (c <- clone ops ;; defaults c defaultOptions)%js w
  = (Normal (fresh (dom (objects w))),
     set_objects <[fresh (dom (objects w)) := with_defaults defaultOptions r]> w).
Proof.
  intros H. unfold clone, defaults, alloc, get, bind, gets, modify, ret.
  simpl. rewrite H. simpl. rewrite lookup_insert_eq.
  unfold set_objects. simpl. rewrite insert_insert_eq. reflexivity.
Qed.

(** A write through a reference shows in the store: [defaults], applied
    to the caller's object, would change it. *)
Example defaults_writes_its_target :
  objects (world_after (defaults 0 defaultOptions) AppBaseSamples.plainWorld) !! 0
  = Some (with_defaults defaultOptions AppBaseSamples.plain)
  /\ with_defaults defaultOptions AppBaseSamples.plain <> AppBaseSamples.plain.
Proof. split; [vm_compute; reflexivity|discriminate]. Qed.

(** *** The phases of [configFactory] *)

Lemma emitSitemap_run (o fs : nat) (w : World) (r : OptionsT.t) :
  objects w !! o = Some r ->
  emitSitemap o fs w
  = if truthy_string (sitemap r) then
      let url := path_resolve_from (cwd w) [context r; template (sitemap r)] in
      let w1 := set_calls (fun cs => cs ++ [Require url]) w in
      match registry w !! url with
      | Some e =>
          let source := call_if_function e [] in
          if has_forEach source then
            match sitemapStream w source with
            | WriteThrows x => (Throw x, w1)
            | Rejected => (Normal tt, w1)
            | Resolved sitemap =>
                (Normal tt,
                 set_pending (fun js => js ++ [SitemapReady sitemap o fs]) w1)
            end
          else
            (Throw (TypeError (match source with
                               | VUndefined => "Cannot read properties of undefined"
                               | VNull => "Cannot read properties of null"
                               | _ => "source.forEach is not a function"
                               end)), w1)
      | None => (Throw (ModuleNotFound url), w1)
      end
    else (Normal tt, w).
Proof.
  intros H. unfold emitSitemap.
  rewrite bind_run, (read_run _ _ _ _ H).
  destruct (sitemap r) as [s|] eqn:Hs; simpl; [|reflexivity].
  destruct (negb (String.eqb s "")); simpl; [|reflexivity].
  rewrite bind_run, (read_run _ _ _ _ H).
  unfold require, path_resolve, call, bind, ret, throw, gets, modify. simpl.
  destruct (registry w !! _) as [e|]; [|reflexivity].
  destruct (has_forEach (call_if_function e [])); [|reflexivity].
  change (sitemapStream (set_calls _ w)) with (sitemapStream w).
  destruct (sitemapStream w (call_if_function e [])); reflexivity.
Qed.

Lemma generateBuildInfo_run (o : nat) (w : World) (r : OptionsT.t) :
  objects w !! o = Some r ->
  is_Some (publicPath r) ->
  generateBuildInfo o w = (Normal (BuildInfoT.value (generated r w)), w).
Proof.
  intros H [p Hp]. unfold generateBuildInfo.
  rewrite bind_run. simpl.
  rewrite bind_run, (read_run _ _ _ _ H), bind_run, (read_run _ _ _ _ H).
  unfold bind, gets, ret, generated, BuildInfoT.value. simpl.
  rewrite Hp. reflexivity.
Qed.

Lemma resolveBuildInfo_run (o fs : nat) (url : string) (w : World) (r : OptionsT.t) :
  objects w !! o = Some r ->
  is_Some (publicPath r) ->
  resolveBuildInfo o fs url w
  = match keepBuildInfo r with
    | Some (KeepObject info) => (Normal (VObject info), w)
    | Some (KeepFlag true) =>
        let w1 := set_calls (fun cs => cs ++ [ExistsSync fs url]) w in
        if bool_decide (is_Some (node_at (volume w fs) (fs_key w url))) then
          let w2 := set_calls (fun cs => cs ++ [ReadFileSync fs url]) w1 in
          match vol_read url (volume w fs) (fs_key w url) with
          | Normal text =>
              match JSON_parse text with
              | Normal v =>
                  (Normal (if ToBoolean v then v
                           else BuildInfoT.value (generated r w)), w2)
              | Throw e => (Throw e, w2)
              end
          | Throw e => (Throw e, w2)
          end
        else (Normal (BuildInfoT.value (generated r w)), w1)
    | _ => (Normal (BuildInfoT.value (generated r w)), w)
    end.
Proof.
  intros H Hp. unfold resolveBuildInfo.
  rewrite bind_run, (read_run _ _ _ _ H).
  destruct (keepBuildInfo r) as [[[|]|info]|]; simpl.
  - rewrite !bind_run, existsSync_run.
    destruct (bool_decide _); simpl.
    + rewrite bind_run, readFileSync_run.
      change (volume (set_calls _ w) fs) with (volume w fs).
      change (fs_key (set_calls _ w) url) with (fs_key w url).
      destruct (vol_read url (volume w fs) (fs_key w url)) as [text|e]; [|reflexivity].
      unfold lift. destruct (JSON_parse text) as [v|e]; [|reflexivity].
      destruct (ToBoolean v); simpl; [reflexivity|].
      rewrite (generateBuildInfo_run o _ r); [reflexivity|exact H|exact Hp].
    + rewrite (generateBuildInfo_run o _ r); [reflexivity|exact H|exact Hp].
  - rewrite bind_run. simpl. rewrite (generateBuildInfo_run o _ r); auto.
  - rewrite bind_run. reflexivity.
  - rewrite bind_run. simpl. rewrite (generateBuildInfo_run o _ r); auto.
Qed.

Lemma emitBuildInfo_run (o fs : nat) (url : string) (b : Value) (w : World)
    (r : OptionsT.t) :
  objects w !! o = Some r ->
  emitBuildInfo o fs url b w
  = if truthy_bool (dontEmitBuildInfo r) then (Normal tt, w)
    else
      let w1 := set_calls (fun cs => cs ++ [MkdirSync fs (context r) true]) w in
      match vol_mkdir_p (context r) (volume w fs) [] (fs_key w (context r)) with
      | Normal v1 =>
          let w2 := set_calls (fun cs => cs ++ [WriteFileSync fs url (Json b 0)])
                      (set_volumes <[fs := v1]> w1) in
          match vol_write url v1 (fs_key w url) (Json b 0) with
          | Normal v2 => (Normal tt, set_volumes <[fs := v2]> w2)
          | Throw e => (Throw e, w2)
          end
      | Throw e => (Throw e, w1)
      end.
Proof.
  intros H. unfold emitBuildInfo.
  rewrite bind_run, (read_run _ _ _ _ H).
  destruct (truthy_bool (dontEmitBuildInfo r)); simpl; [reflexivity|].
  rewrite bind_run, (read_run _ _ _ _ H), bind_run, mkdirSync_run.
  destruct (vol_mkdir_p _ _ _ _) as [v1|e]; [|reflexivity].
  rewrite writeFileSync_run, volume_written. unfold JSON_stringify.
  reflexivity.
Qed.

Lemma addWorkbox_run (o : nat) (plugins : list Configuration.Plugin) (w : World)
    (r : OptionsT.t) :
  objects w !! o = Some r ->
  addWorkbox o plugins w
  = (Normal (withWorkbox
               (path_resolve_from (cwd w) [__dirname w; "../workbox/default.js"])
               (workbox r) plugins),
     if truthy_workbox (workbox r) && negb (isObject (workbox r))
     then set_objects <[o := set_workbox (workboxOption (workbox r)) r]> w
     else w).
Proof.
  intros H. unfold addWorkbox, withWorkbox, workboxOption.
  rewrite bind_run, (read_run _ _ _ _ H).
  destruct (workbox r) as [[[|]|options]|] eqn:Hw; simpl; try reflexivity.
  - unfold assign_workbox. rewrite !bind_run, (get_run _ _ _ H).
    unfold modify. simpl. unfold path_resolve, gets. rewrite !bind_run. simpl.
    erewrite read_run by (simpl; apply lookup_insert_eq).
    reflexivity.
  - unfold path_resolve, gets, ret. rewrite !bind_run. simpl.
    rewrite (read_run _ _ _ _ H). rewrite Hw. reflexivity.
Qed.

Lemma returnConfiguration_run (ops o : nat) (entry : list string)
    (plugins : list Configuration.Plugin) (w : World) (r ro : OptionsT.t)
    (out : string) :
  objects w !! ops = Some r ->
  objects w !! o = Some ro ->
  outputPath ro = Some out ->
  returnConfiguration ops o entry plugins w
  = (Normal (configuration (context ro) entry (mode ro)
               (path_resolve_from (cwd w) [__dirname w; context ro; out])
               (publicPath ro) plugins
               (path_resolve_from (cwd w) [context ro; "src/assets"])
               (path_resolve_from (cwd w) [context ro; "src/shared/components"])
               (path_resolve_from (cwd w) [context ro; "src/assets/fonts"])
               (path_resolve_from (cwd w) [context ro; "src/styles"])
               (typescript r) (babelEnv ro) (babelLoaderOptions ro)
               (cssLocalIdent ro)),
     w).
Proof.
  intros Hops Ho Hout. unfold returnConfiguration.
  repeat first [ rewrite (read_run _ _ _ _ Ho)
               | rewrite (read_run _ _ _ _ Hops)
               | rewrite Hout
               | rewrite bind_run
               | progress (unfold path_argument, path_resolve, gets, ret) ].
  reflexivity.
Qed.

(** *** The factory as a whole *)

Lemma frame_of {A} (m : M A) (w w' : World) (c : Completion A) :
  framed m -> m w = (c, w') -> frame w w'.
Proof. intros Hm E. specialize (Hm w). unfold world_after in Hm. by rewrite E in Hm. Qed.

(** The reads of the options between the phases give what the caller's
    object held, with the defaults: no phase changes these properties. *)
Lemma configFactory_run (ops : nat) (w : World) (r : OptionsT.t) :
  objects w !! ops = Some r ->
  let o := fresh (dom (objects w)) in
  let fs := default nodeFs (OptionsT.fs r) in
  let url := path_resolve_from (cwd w) [context r; ".build-info"] in
  configFactory ops w
  = (emitSitemap o fs ;;
     buildInfo <- resolveBuildInfo o fs url ;;
     emitBuildInfo o fs url buildInfo ;;
     plugins <- addWorkbox o (basePlugins buildInfo (dontUseProgressPlugin r)) ;;
     returnConfiguration ops o (normalizeEntry (entry r)) plugins)%js
      (set_objects <[o := with_defaults defaultOptions r]> w).
Proof.
  intros Hops o fs url. unfold configFactory.
  rewrite bind_run, (normalize_run _ _ _ Hops). fold o.
  set (w0 := set_objects _ w).
  assert (Ho : objects w0 !! o = Some (with_defaults defaultOptions r))
    by (simpl; apply lookup_insert_eq).
  assert (Hops0 : objects w0 !! ops = Some r).
  { simpl. rewrite lookup_insert_ne; [exact Hops|]. by eapply fresh_object. }
  rewrite bind_run, (read_run _ _ _ _ Hops0). fold fs.
  rewrite !(bind_run (emitSitemap o fs)).
  destruct (emitSitemap o fs w0) as [[[]|e] wC] eqn:EC; [|reflexivity].
  destruct (frame_of _ _ _ _ (framed_emitSitemap o fs) EC)
    as (Hcwd & _ & _ & _ & _ & _ & HobjC).
  rewrite bind_run, (read_run _ _ _ (with_defaults defaultOptions r))
    by (rewrite HobjC; exact Ho).
  rewrite bind_run. unfold path_resolve at 1, gets at 1. simpl OptionsT.context.
  rewrite Hcwd. change (cwd w0) with (cwd w). fold url.
  rewrite !(bind_run (resolveBuildInfo o fs url)).
  destruct (resolveBuildInfo o fs url wC) as [[b|e] wE] eqn:EE; [|reflexivity].
  destruct (frame_of _ _ _ _ (framed_resolveBuildInfo o fs url) EE)
    as (_ & _ & _ & _ & _ & _ & HobjE).
  rewrite !(bind_run (emitBuildInfo o fs url b)).
  destruct (emitBuildInfo o fs url b wE) as [[[]|e] wF] eqn:EF; [|reflexivity].
  destruct (frame_of _ _ _ _ (framed_emitBuildInfo o fs url b) EF)
    as (_ & _ & _ & _ & _ & _ & HobjF).
  rewrite bind_run, (read_run _ _ _ (with_defaults defaultOptions r))
    by (rewrite HobjF, HobjE, HobjC; exact Ho).
  rewrite bind_run, (read_run _ _ _ r)
    by (rewrite HobjF, HobjE, HobjC; exact Hops0).
  reflexivity.
Qed.

Lemma or_default_Some {A} (x : option A) (d : A) :
  or_default x d = Some (default d x).
Proof. destruct x; reflexivity. Qed.

(** A call that returns went through the four phases; the configuration
    is made of the caller's options, the defaults, the build info of the
    second phase and the plugins. *)
Lemma configFactory_normal (ops : nat) (w w' : World) (r : OptionsT.t)
    (cfg : Configuration.t) :
  objects w !! ops = Some r ->
  configFactory ops w = (Normal cfg, w') ->
  let o := fresh (dom (objects w)) in
  let fs := default nodeFs (OptionsT.fs r) in
  let url := path_resolve_from (cwd w) [context r; ".build-info"] in
  let r' := with_defaults defaultOptions r in
  exists wC b wE wF,
    emitSitemap o fs (set_objects <[o := r']> w) = (Normal tt, wC)
    /\ resolveBuildInfo o fs url wC = (Normal b, wE)
    /\ emitBuildInfo o fs url b wE = (Normal tt, wF)
    /\ w' = (if truthy_workbox (workbox r) && negb (isObject (workbox r))
             then set_objects <[o := set_workbox (workboxOption (workbox r)) r']> wF
             else wF)
    /\ cfg = configurationFor r w
               (withWorkbox
                  (path_resolve_from (cwd w) [__dirname w; "../workbox/default.js"])
                  (workbox r) (basePlugins b (dontUseProgressPlugin r))).
Proof.
  intros Hops Hrun o fs url r'.
  rewrite (configFactory_run _ _ _ Hops) in Hrun. fold o fs url r' in Hrun.
  set (w0 := set_objects _ w) in *.
  assert (Ho : objects w0 !! o = Some r') by (simpl; apply lookup_insert_eq).
  assert (Hops0 : objects w0 !! ops = Some r).
  { simpl. rewrite lookup_insert_ne; [exact Hops|]. by eapply fresh_object. }
  apply bind_normal in Hrun as ([] & wC & EC & Hrun).
  apply bind_normal in Hrun as (b & wE & EE & Hrun).
  apply bind_normal in Hrun as ([] & wF & EF & Hrun).
  apply bind_normal in Hrun as (ps & wG & EG & Hrun).
  destruct (frame_of _ _ _ _ (framed_emitSitemap o fs) EC)
    as (HcwdC & HdirC & _ & _ & _ & _ & HobjC).
  destruct (frame_of _ _ _ _ (framed_resolveBuildInfo o fs url) EE)
    as (HcwdE & HdirE & _ & _ & _ & _ & HobjE).
  destruct (frame_of _ _ _ _ (framed_emitBuildInfo o fs url b) EF)
    as (HcwdF & HdirF & _ & _ & _ & _ & HobjF).
  assert (HoF : objects wF !! o = Some r')
    by (rewrite HobjF, HobjE, HobjC; exact Ho).
  assert (HopsF : objects wF !! ops = Some r)
    by (rewrite HobjF, HobjE, HobjC; exact Hops0).
  assert (HcwdF' : cwd wF = cwd w) by (rewrite HcwdF, HcwdE, HcwdC; reflexivity).
  assert (HdirF' : __dirname wF = __dirname w)
    by (rewrite HdirF, HdirE, HdirC; reflexivity).
  rewrite (addWorkbox_run _ _ _ _ HoF) in EG. injection EG as <- <-.
  assert (Hfresh : o <> ops) by (by eapply fresh_object).
  set (wG := if _ && _ then _ else wF) in *.
  assert (HoG : exists ro, objects wG !! o = Some ro
                           /\ ro = set_workbox (workbox ro) r').
  { subst wG. destruct (_ && _).
    - eexists. split; [simpl; apply lookup_insert_eq|reflexivity].
    - exists r'. split; [exact HoF|reflexivity]. }
  assert (HopsG : objects wG !! ops = Some r).
  { subst wG. destruct (_ && _); [|exact HopsF].
    simpl. rewrite lookup_insert_ne; [exact HopsF|exact Hfresh]. }
  assert (HcwdG : cwd wG = cwd w) by (subst wG; destruct (_ && _); exact HcwdF').
  assert (HdirG : __dirname wG = __dirname w)
    by (subst wG; destruct (_ && _); exact HdirF').
  destruct HoG as (ro & HoG & Hro).
  rewrite (returnConfiguration_run ops o _ _ wG r ro
             (default "build/web-public" (outputPath r)) HopsG HoG) in Hrun.
  - injection Hrun as <- <-.
    exists wC, b, wE, wF. repeat split; try assumption.
    rewrite HcwdF', HdirF', HcwdG, HdirG, Hro. unfold configurationFor. simpl.
    rewrite !or_default_Some. reflexivity.
  - rewrite Hro. simpl. apply or_default_Some.
Qed.

(** The sitemap phase, when it goes through, reads a module and queues
    a reaction; the file systems stay as they are. *)
Lemma emitSitemap_normal (o fs : nat) (w wC : World) (r : OptionsT.t) :
  objects w !! o = Some r ->
  emitSitemap o fs w = (Normal tt, wC) ->
  frame w wC /\ volumes wC = volumes w
  /\ exists l, calls wC = calls w ++ l /\ filter is_write l = [].
Proof.
  intros H E. split; [exact (frame_of _ _ _ _ (framed_emitSitemap o fs) E)|].
  rewrite (emitSitemap_run _ _ _ _ H) in E.
  destruct (truthy_string (sitemap r)).
  - cbv zeta in E. destruct (registry w !! _) as [e|]; [|discriminate].
    destruct (has_forEach _); [|discriminate].
    destruct (sitemapStream w _); [discriminate| |];
      injection E as <-; (split; [reflexivity|]); eexists; split; reflexivity.
  - injection E as <-. split; [reflexivity|].
    exists []. split; [symmetry; apply app_nil_r|reflexivity].
Qed.

Lemma buildInfoOf_plugins (r : OptionsT.t) (w : World) (swSrc : string) (b : Value) :
  buildInfoOf (configurationFor r w
                 (withWorkbox swSrc (workbox r)
                    (basePlugins b (dontUseProgressPlugin r))))
  = Some (JSON_stringify b 0).
Proof.
  unfold buildInfoOf, configurationFor, withWorkbox, basePlugins. simpl.
  destruct (truthy_workbox (workbox r)), (negb (truthy_bool (dontUseProgressPlugin r)));
    reflexivity.
Qed.

(** The build info of the configuration is the result of the second
    phase, which runs in a world whose files are those of the call. *)
Lemma configFactory_build_info (ops : nat) (w w' : World) (r : OptionsT.t)
    (cfg : Configuration.t) :
  objects w !! ops = Some r ->
  configFactory ops w = (Normal cfg, w') ->
  let o := fresh (dom (objects w)) in
  let fs := default nodeFs (OptionsT.fs r) in
  let url := path_resolve_from (cwd w) [context r; ".build-info"] in
  exists wC b wE,
    resolveBuildInfo o fs url wC = (Normal b, wE)
    /\ objects wC !! o = Some (with_defaults defaultOptions r)
    /\ volumes wC = volumes w /\ cwd wC = cwd w
    /\ entropy wC = entropy w /\ clock wC = clock w
    /\ buildInfoOf cfg = Some (JSON_stringify b 0).
Proof.
  intros Hops Hrun o fs url.
  destruct (configFactory_normal _ _ _ _ _ Hops Hrun)
    as (wC & b & wE & wF & EC & EE & _ & _ & ->).
  fold o fs url in EC, EE.
  assert (Ho : objects (set_objects <[o := with_defaults defaultOptions r]> w) !! o
               = Some (with_defaults defaultOptions r))
    by (simpl; apply lookup_insert_eq).
  destruct (emitSitemap_normal _ _ _ _ _ Ho EC)
    as ((Hcwd & _ & _ & Hent & Hclk & _ & Hobj) & Hvol & _).
  exists wC, b, wE. repeat split; try assumption.
  - rewrite Hobj. exact Ho.
  - apply buildInfoOf_plugins.
Qed.

Lemma generated_defaults (r : OptionsT.t) (w w0 : World) :
  entropy w0 = entropy w -> clock w0 = clock w ->
  generated (with_defaults defaultOptions r) w0 = generated r w.
Proof.
  intros He Hc. unfold generated. simpl. rewrite He, Hc.
  destruct (publicPath r); reflexivity.
Qed.

(** The second phase, in terms of the caller's options and world. *)
Lemma resolveBuildInfo_cases (ops : nat) (w w' : World) (r : OptionsT.t)
    (cfg : Configuration.t) :
  objects w !! ops = Some r ->
  configFactory ops w = (Normal cfg, w') ->
  exists b,
    buildInfoOf cfg = Some (JSON_stringify b 0)
    /\ match keepBuildInfo r with
       | Some (KeepObject info) => b = VObject info
       | Some (KeepFlag true) =>
           match buildInfoFile r w with
           | Some (File text) =>
               exists v, JSON_parse text = Normal v
                         /\ b = (if ToBoolean v then v
                                 else BuildInfoT.value (generated r w))
           | Some Directory => False
           | None => b = BuildInfoT.value (generated r w)
           end
       | _ => b = BuildInfoT.value (generated r w)
       end.
Proof.
  intros Hops Hrun.
  destruct (configFactory_build_info _ _ _ _ _ Hops Hrun)
    as (wC & b & wE & EE & Ho & Hvol & Hcwd & Hent & Hclk & Hb).
  exists b. split; [exact Hb|].
  rewrite (resolveBuildInfo_run _ _ _ _ _ Ho) in EE
    by (simpl; rewrite or_default_Some; eauto).
  rewrite (generated_defaults r w wC Hent Hclk) in EE.
  unfold buildInfoFile. unfold volume, fs_key in *. rewrite Hvol, Hcwd in EE.
  simpl in EE.
  destruct (keepBuildInfo r) as [[[|]|info]|]; try (injection EE as <- _; reflexivity).
  unfold vol_read in EE.
  destruct (node_at _ _) as [[text|]|]; simpl in EE.
  - destruct (JSON_parse text) as [v|e]; [|discriminate].
    exists v. split; [reflexivity|]. by injection EE as <- _.
  - discriminate.
  - by injection EE as <- _.
Qed.

(** C1, amended. A call whose [keepBuildInfo] is an object uses that
    object as the build info. A call whose [keepBuildInfo] is [true] and
    that finds [<context>/.build-info] parses the file: a truthy value
    is the build info, a falsy one ([null], [false], [0], the empty
    string) makes it generate one, and a text that is not JSON, or a
    folder in place of the file, makes it throw. In every other case (no
    option, [false], no file) a build info is generated. *)
Theorem build_info_decision (ops : nat) (w : World) (r : OptionsT.t) :
  objects w !! ops = Some r ->
  match keepBuildInfo r with
  | Some (KeepObject info) => returns_build_info ops w (VObject info)
  | Some (KeepFlag true) =>
      match buildInfoFile r w with
      | Some (File text) =>
          match JSON_parse text with
          | Normal v =>
              returns_build_info ops w
                (if ToBoolean v then v else BuildInfoT.value (generated r w))
          | Throw _ => throws ops w
          end
      | Some Directory => throws ops w
      | None => returns_build_info ops w (BuildInfoT.value (generated r w))
      end
  | _ => returns_build_info ops w (BuildInfoT.value (generated r w))
  end.
Proof.
  intros Hops.
  assert (Hthrow : (forall cfg w', configFactory ops w <> (Normal cfg, w')) ->
                   throws ops w).
  { intros Hno. unfold throws, completion_of.
    destruct (configFactory ops w) as [[cfg|e] w'] eqn:E; [|eauto].
    by destruct (Hno cfg w'). }
  pose proof (fun cfg w' => resolveBuildInfo_cases ops w w' r cfg Hops) as Hcases.
  destruct (keepBuildInfo r) as [[[|]|info]|].
  2-4: intros cfg w' Hrun; destruct (Hcases _ _ Hrun) as (b & Hb & ->); exact Hb.
  destruct (buildInfoFile r w) as [[text|]|].
  - destruct (JSON_parse text) as [v|e] eqn:Hparse.
    + intros cfg w' Hrun.
      destruct (Hcases _ _ Hrun) as (b & Hb & v' & [= <-] & ->). exact Hb.
    + apply Hthrow. intros cfg w' Hrun.
      destruct (Hcases _ _ Hrun) as (b & _ & v' & [=] & _).
  - apply Hthrow. intros cfg w' Hrun.
    by destruct (Hcases _ _ Hrun) as (b & _ & []).
  - intros cfg w' Hrun. destruct (Hcases _ _ Hrun) as (b & Hb & ->). exact Hb.
Qed.

Lemma build_info_decision_witness :
  uses_build_info 0 AppBaseSamples.builtWorld AppBaseSamples.earlier.
Proof.
  unfold uses_build_info.
  destruct (configFactory 0 AppBaseSamples.builtWorld) as [[cfg|e] w'] eqn:E.
  - exists cfg, w'. split; [reflexivity|].
    exact (build_info_decision 0 AppBaseSamples.builtWorld AppBaseSamples.reuse
             eq_refl cfg w' E).
  - vm_compute in E. discriminate E.
Defined.

(** C1, as the claim states it, fails when [.build-info] does not hold
    JSON: the call throws a [SyntaxError], and no build info is loaded or
    generated. *)
Lemma build_info_not_generated_for_corrupt_file :
  ~ build_info_claim 0 AppBaseSamples.corruptWorld.
Proof.
  intros H. specialize (H AppBaseSamples.reuse eq_refl).
  assert (Hthrow : configFactory 0 AppBaseSamples.corruptWorld
                   = (Throw (SyntaxError "Unexpected token"),
                      world_after (configFactory 0) AppBaseSamples.corruptWorld))
    by (vm_compute; reflexivity).
  change (match buildInfoFile AppBaseSamples.reuse AppBaseSamples.corruptWorld with
          | Some (File text) =>
              (exists b, JSON_parse text = Normal b
                         /\ uses_build_info 0 AppBaseSamples.corruptWorld b)
              \/ uses_build_info 0 AppBaseSamples.corruptWorld
                   (BuildInfoT.value
                      (generated AppBaseSamples.reuse AppBaseSamples.corruptWorld))
          | _ => uses_build_info 0 AppBaseSamples.corruptWorld
                   (BuildInfoT.value
                      (generated AppBaseSamples.reuse AppBaseSamples.corruptWorld))
          end) in H.
  replace (buildInfoFile AppBaseSamples.reuse AppBaseSamples.corruptWorld)
    with (Some (File (NotJson "<<<<<<< HEAD"))) in H by (vm_compute; reflexivity).
  destruct H as [(b & Hparse & _)|(cfg & w' & Hrun & _)].
  - discriminate Hparse.
  - rewrite Hthrow in Hrun. discriminate Hrun.
Qed.

(** The second phase asks the file system and does not change it. *)
Lemma resolveBuildInfo_normal (o fs : nat) (url : string) (w wE : World)
    (r : OptionsT.t) (b : Value) :
  objects w !! o = Some r ->
  is_Some (publicPath r) ->
  resolveBuildInfo o fs url w = (Normal b, wE) ->
  volumes wE = volumes w
  /\ exists l, calls wE = calls w ++ l /\ filter is_write l = [].
Proof.
  intros H Hp E. rewrite (resolveBuildInfo_run _ _ _ _ _ H Hp) in E.
  assert (Hnil : forall w0 : World, exists l, calls w0 = calls w0 ++ l
                                       /\ filter is_write l = []).
  { intros w0. exists []. split; [symmetry; apply app_nil_r|reflexivity]. }
  destruct (keepBuildInfo r) as [[[|]|info]|]; simpl in E;
    try (injection E as _ <-; split; [reflexivity|apply Hnil]).
  destruct (bool_decide _).
  - destruct (vol_read _ _ _) as [text|e]; [|discriminate].
    destruct (JSON_parse text) as [v|e]; [|discriminate].
    injection E as _ <-. split; [reflexivity|]. simpl.
    rewrite <- app_assoc. eexists. split; reflexivity.
  - injection E as _ <-. split; [reflexivity|]. eexists. split; reflexivity.
Qed.

(** C2, as the claim states it, fails for a call that opts out with
    [dontEmitBuildInfo]: nothing is written. *)
Lemma build_info_not_written_when_opted_out :
  ~ build_info_written_claim 0 AppBaseSamples.optedOutWorld.
Proof.
  intros H. destruct (H AppBaseSamples.optedOut eq_refl) as (l & b & Hcalls & Hl).
  vm_compute in Hcalls. subst l. discriminate Hl.
Qed.

(** C2, amended. A call that returns and whose [dontEmitBuildInfo] is
    not set has made one write: after [mkdirSync(context, { recursive:
    true })], as its last two calls to the file system, it has written
    the build info of its configuration, as JSON, to
    [<context>/.build-info], which holds it afterwards. A build info that
    is generated because [keepBuildInfo] is absent or [false] is a record
    of [key], [publicPath], [useServiceWorker] and [timestamp]. A call whose
    [dontEmitBuildInfo] is set writes nothing and leaves the file systems
    as they are. *)
Theorem build_info_file_written (ops : nat) (w w' : World) (r : OptionsT.t)
    (cfg : Configuration.t) :
  objects w !! ops = Some r ->
  configFactory ops w = (Normal cfg, w') ->
  let fs := default nodeFs (OptionsT.fs r) in
  let url := path_resolve_from (cwd w) [context r; ".build-info"] in
  exists l,
    calls w' = calls w ++ l
    /\ if truthy_bool (dontEmitBuildInfo r)
       then filter is_write l = [] /\ volumes w' = volumes w
       else exists b l0,
           buildInfoOf cfg = Some (JSON_stringify b 0)
           /\ l = l0 ++ [MkdirSync fs (context r) true;
                         WriteFileSync fs url (JSON_stringify b 0)]
           /\ filter is_write l0 = []
           /\ volume w' fs !! fs_key w url = Some (File (JSON_stringify b 0))
           /\ filter is_write l = [WriteFileSync fs url (JSON_stringify b 0)]
           /\ (truthy_keep (keepBuildInfo r) = false ->
               b = BuildInfoT.value (generated r w)).
Proof.
  intros Hops Hrun fs url.
  destruct (resolveBuildInfo_cases _ _ _ _ _ Hops Hrun) as (b0 & Hb0 & Hcase).
  destruct (configFactory_normal _ _ _ _ _ Hops Hrun)
    as (wC & b & wE & wF & EC & EE & EF & Hw' & Hcfg).
  fold fs url in EC, EE, EF.
  set (o := fresh (dom (objects w))) in *.
  set (r' := with_defaults defaultOptions r) in *.
  assert (Ho : objects (set_objects <[o := r']> w) !! o = Some r')
    by (simpl; apply lookup_insert_eq).
  destruct (emitSitemap_normal _ _ _ _ _ Ho EC)
    as ((HcwdC & _ & _ & _ & _ & _ & HobjC) & HvolC & lC & HcallsC & HlC).
  assert (HoC : objects wC !! o = Some r') by (rewrite HobjC; exact Ho).
  assert (Hpub : is_Some (publicPath r'))
    by (subst r'; simpl; rewrite or_default_Some; eauto).
  destruct (resolveBuildInfo_normal _ _ _ _ _ _ _ HoC Hpub EE)
    as (HvolE & lE & HcallsE & HlE).
  destruct (frame_of _ _ _ _ (framed_resolveBuildInfo o fs url) EE)
    as (HcwdE & _ & _ & _ & _ & _ & HobjE).
  assert (HoE : objects wE !! o = Some r') by (rewrite HobjE; exact HoC).
  rewrite (emitBuildInfo_run _ _ _ _ _ _ HoE) in EF. simpl in EF.
  assert (Hcalls' : calls w' = calls wF /\ volumes w' = volumes wF).
  { rewrite Hw'. destruct (_ && _); split; reflexivity. }
  destruct Hcalls' as [Hcalls' Hvol'].
  assert (Hb : buildInfoOf cfg = Some (JSON_stringify b 0))
    by (rewrite Hcfg; apply buildInfoOf_plugins).
  destruct (truthy_bool (dontEmitBuildInfo r)).
  - injection EF as <-. exists (lC ++ lE). split; [|split].
    + rewrite Hcalls', HcallsE, HcallsC. simpl. by rewrite app_assoc.
    + by rewrite filter_app, HlC, HlE.
    + by rewrite Hvol', HvolE, HvolC.
  - destruct (vol_mkdir_p _ _ _ _) as [v1|e]; [|discriminate].
    destruct (vol_write _ _ _ _) as [v2|e] eqn:Hwrite; [|discriminate].
    apply vol_write_normal in Hwrite. injection EF as <-.
    exists ((lC ++ lE) ++ [MkdirSync fs (context r) true;
                           WriteFileSync fs url (JSON_stringify b 0)]).
    split.
    + rewrite Hcalls'. simpl. rewrite HcallsE, HcallsC. simpl.
      rewrite <- !app_assoc. reflexivity.
    + exists b, (lC ++ lE). repeat split.
      * exact Hb.
      * by rewrite filter_app, HlC, HlE.
      * unfold volume. rewrite Hvol'. simpl. rewrite lookup_insert_eq. simpl.
        subst v2. unfold fs_key. rewrite HcwdE, HcwdC. apply lookup_insert_eq.
      * rewrite !filter_app, HlC, HlE. reflexivity.
      * intros Hkeep. rewrite Hb in Hb0. injection Hb0 as <-.
        destruct (keepBuildInfo r) as [[[|]|info]|]; try discriminate Hkeep;
          exact Hcase.
Qed.

Lemma build_info_file_written_witness :
  exists cfg w' l b l0,
    configFactory 0 AppBaseSamples.plainWorld = (Normal cfg, w')
    /\ calls w' = l
    /\ buildInfoOf cfg = Some (JSON_stringify b 0)
    /\ l = l0 ++ [MkdirSync nodeFs "/app" true;
                  WriteFileSync nodeFs "/app/.build-info" (JSON_stringify b 0)]
    /\ filter is_write l0 = []
    /\ volume w' nodeFs !! ["app"; ".build-info"] = Some (File (JSON_stringify b 0)).
Proof.
  destruct (configFactory 0 AppBaseSamples.plainWorld) as [[cfg|e] w'] eqn:E.
  - destruct (build_info_file_written 0 AppBaseSamples.plainWorld w'
                AppBaseSamples.plain cfg eq_refl E)
      as (l & Hcalls & b & l0 & Hb & Hl & Hl0 & Hfile & _ & _).
    exists cfg, w', l, b, l0. repeat split; assumption.
  - vm_compute in E. discriminate E.
Defined.

(** C10. The entry list of the configuration that a call returns is the
    three polyfills, in their order, and then the caller's entry points:
    the one string, or the strings of the array in their order. *)
Theorem entry_points (ops : nat) (w w' : World) (r : OptionsT.t)
    (cfg : Configuration.t) :
  objects w !! ops = Some r ->
  configFactory ops w = (Normal cfg, w') ->
  Configuration.entry cfg
  = ["core-js/stable"; "regenerator-runtime/runtime"; "nodelist-foreach-polyfill"]
      ++ match entry r with
         | EntryOne s => [s]
         | EntryMany l => l
         end.
Proof.
  intros Hops Hrun.
  destruct (configFactory_normal _ _ _ _ _ Hops Hrun)
    as (wC & b & wE & wF & _ & _ & _ & _ & ->).
  simpl. unfold normalizeEntry, polyfills. destruct (entry r); reflexivity.
Qed.

Lemma entry_points_witness :
  exists cfg w',
    configFactory 0 AppBaseSamples.plainWorld = (Normal cfg, w')
    /\ Configuration.entry cfg
       = ["core-js/stable"; "regenerator-runtime/runtime";
          "nodelist-foreach-polyfill"; "./src"].
Proof.
  destruct (configFactory 0 AppBaseSamples.plainWorld) as [[cfg|e] w'] eqn:E.
  - exists cfg, w'. split; [reflexivity|].
    exact (entry_points 0 AppBaseSamples.plainWorld w' AppBaseSamples.plain cfg
             eq_refl E).
  - vm_compute in E. discriminate E.
Defined.

(** C6. In the configuration that a call returns, the output path, the
    public path, the options of the Babel loader and the template of CSS
    class names are the caller's when the caller gives them, and
    ['build/web-public'], [''], [{}] and ['[hash:base64:6]'] when the
    option is absent: the output path, resolved, is [output.path]; the
    public path, followed by a slash, is [output.publicPath]; the
    template is [localIdentName] in the [modules] of the CSS loader for
    SCSS files; and the options of the Babel loader are the factory's
    own when the caller gives none, and hold every option that the
    caller gives, with the caller's value. The factory's copy of the
    options holds the four values as well. *)
Theorem defaults_for_absent_options (ops : nat) (w w' : World) (r : OptionsT.t)
    (cfg : Configuration.t) :
  objects w !! ops = Some r ->
  configFactory ops w = (Normal cfg, w') ->
  let given {A} (x : option A) (d : A) :=
    match x with Some v => v | None => d end in
  Configuration.path (Configuration.output cfg)
  = path_resolve_from (cwd w)
      [__dirname w; context r; given (outputPath r) "build/web-public"]
  /\ Configuration.publicPath (Configuration.output cfg)
     = given (publicPath r) "" +:+ "/"
  /\ (exists modules,
        cssLoaderModules cfg = Some modules
        /\ get_prop "localIdentName" modules
           = Some (VString (given (cssLocalIdent r) "[hash:base64:6]")))
  /\ (exists rule options,
        babelLoader cfg = Some rule
        /\ get_prop "options" rule = Some (VObject options)
        /\ (babelLoaderOptions r = None ->
            options
            = [("babelrc", VBool false);
               ("configFile", VBool false);
               ("envName", VString (babelEnv r));
               ("presets",
                VArray [VArray [VString "@dr.pogodin/react-utils/config/babel/webpack";
                                VObject [("typescript",
                                          match typescript r with
                                          | Some b => VBool b
                                          | None => VUndefined
                                          end)]]])])
        /\ (forall caller, babelLoaderOptions r = Some caller ->
            NoDup (map fst caller) ->
            forall k v, get_prop k caller = Some v -> get_prop k options = Some v))
  /\ objects w' !! fresh (dom (objects w))
     = Some (set_workbox (workboxOption (workbox r))
               {| babelEnv := babelEnv r;
                  babelLoaderOptions := Some (given (babelLoaderOptions r) []);
                  context := context r;
                  cssLocalIdent := Some (given (cssLocalIdent r) "[hash:base64:6]");
                  dontEmitBuildInfo := dontEmitBuildInfo r;
                  dontUseProgressPlugin := dontUseProgressPlugin r;
                  entry := entry r;
                  fs := fs r;
                  keepBuildInfo := keepBuildInfo r;
                  mode := mode r;
                  outputPath := Some (given (outputPath r) "build/web-public");
                  publicPath := Some (given (publicPath r) "");
                  sitemap := sitemap r;
                  typescript := typescript r;
                  workbox := workbox r |}).
Proof.
  intros Hops Hrun given.
  destruct (configFactory_normal _ _ _ _ _ Hops Hrun)
    as (wC & b & wE & wF & EC & EE & EF & Hw' & ->).
  split; [reflexivity|]. split; [reflexivity|].
  split; [unfold cssLoaderModules; simpl;
          destruct (truthy_bool (typescript r)); eexists; split; reflexivity|].
  split.
  { eexists _, _. split; [reflexivity|]. split; [reflexivity|]. split.
    - intros Hnone. simpl. rewrite Hnone. destruct (typescript r); reflexivity.
    - intros caller Hcaller Hnodup k v Hk. simpl. rewrite Hcaller. simpl.
      rewrite (get_prop_spread _ _ _ Hnodup), Hk. reflexivity. }
  set (o := fresh (dom (objects w))) in *.
  set (r' := with_defaults defaultOptions r) in *.
  assert (Ho : objects (set_objects <[o := r']> w) !! o = Some r')
    by (simpl; apply lookup_insert_eq).
  destruct (frame_of _ _ _ _ (framed_emitSitemap _ _) EC)
    as (_ & _ & _ & _ & _ & _ & HobjC).
  destruct (frame_of _ _ _ _ (framed_resolveBuildInfo _ _ _) EE)
    as (_ & _ & _ & _ & _ & _ & HobjE).
  destruct (frame_of _ _ _ _ (framed_emitBuildInfo _ _ _ _) EF)
    as (_ & _ & _ & _ & _ & _ & HobjF).
  assert (HoF : objects wF !! o = Some r')
    by (rewrite HobjF, HobjE, HobjC; exact Ho).
  rewrite Hw'. unfold workboxOption.
  destruct (truthy_workbox (workbox r) && negb (isObject (workbox r))); simpl.
  - rewrite lookup_insert_eq. subst r'. unfold with_defaults, set_workbox. simpl.
    rewrite !or_default_Some. reflexivity.
  - rewrite HoF. subst r'. unfold with_defaults, set_workbox. simpl.
    rewrite !or_default_Some. reflexivity.
Qed.

Lemma defaults_for_absent_options_witness :
  exists cfg w' modules,
    configFactory 0 AppBaseSamples.plainWorld = (Normal cfg, w')
    /\ Configuration.path (Configuration.output cfg) = "/app/build/web-public"
    /\ Configuration.publicPath (Configuration.output cfg) = "/"
    /\ cssLoaderModules cfg = Some modules
    /\ get_prop "localIdentName" modules = Some (VString "[hash:base64:6]").
Proof.
  destruct (configFactory 0 AppBaseSamples.plainWorld) as [[cfg|e] w'] eqn:E.
  - destruct (defaults_for_absent_options 0 AppBaseSamples.plainWorld w'
                AppBaseSamples.plain cfg eq_refl E)
      as (Hpath & Hpublic & (modules & Hmodules & Hident) & _).
    exists cfg, w', modules. split; [reflexivity|].
    split; [exact Hpath|]. split; [exact Hpublic|].
    split; [exact Hmodules|exact Hident].
  - vm_compute in E. discriminate E.
Defined.

(** *** The caller's object *)

Lemma framed_sitemapResolved (sitemap : Text) (o fs : nat) :
  framed (sitemapResolved sitemap o fs).
Proof. unfold sitemapResolved. framed_steps. Qed.

Lemma framed_runJob (j : Job) : framed (runJob j).
Proof. destruct j; simpl; [apply framed_sitemapResolved|apply framed_call]. Qed.

Lemma framed_returnConfiguration (ops o : nat) (entry : list string)
    (plugins : list Configuration.Plugin) :
  framed (returnConfiguration ops o entry plugins).
Proof. unfold returnConfiguration. framed_steps. Qed.

Lemma runPending_objects (w : World) : objects (runPending w) = objects w.
Proof.
  unfold runPending.
  change (objects w) with (objects (set_pending (fun _ => []) w)).
  generalize (set_pending (fun _ => []) w). generalize (pending w).
  intros js. induction js as [|j js IH]; intros w1; simpl; [reflexivity|].
  rewrite IH. apply (framed_runJob j w1).
Qed.

(** C8. The object that the caller passes holds after the call what it
    held before it, whether the call returns or throws, and also once
    the reaction that writes the sitemap has run: the factory fills in
    the defaults and rewrites [workbox] in its own copy. *)
Theorem options_not_mutated (ops : nat) (w : World) (r : OptionsT.t) :
  objects w !! ops = Some r ->
  let w' := world_after (configFactory ops) w in
  objects w' !! ops = Some r
  /\ objects (runPending w') !! ops = Some r.
Proof.
  intros Hops w'.
  assert (H : objects w' !! ops = Some r);
    [|split; [exact H|rewrite runPending_objects; exact H]].
  subst w'. unfold world_after. rewrite (configFactory_run _ _ _ Hops).
  set (o := fresh (dom (objects w))).
  set (fs := default nodeFs (OptionsT.fs r)).
  set (url := path_resolve_from _ _).
  set (r' := with_defaults defaultOptions r).
  set (w0 := set_objects _ w).
  assert (Hfresh : o <> ops) by (by eapply fresh_object).
  assert (Ho : objects w0 !! o = Some r') by (simpl; apply lookup_insert_eq).
  assert (Hops0 : objects w0 !! ops = Some r)
    by (simpl; rewrite lookup_insert_ne; [exact Hops|exact Hfresh]).
  rewrite bind_run.
  destruct (emitSitemap o fs w0) as [[[]|e] wC] eqn:EC;
    destruct (frame_of _ _ _ _ (framed_emitSitemap o fs) EC)
      as (_ & _ & _ & _ & _ & _ & HobjC);
    [|simpl; rewrite HobjC; exact Hops0].
  rewrite bind_run.
  destruct (resolveBuildInfo o fs url wC) as [[b|e] wE] eqn:EE;
    destruct (frame_of _ _ _ _ (framed_resolveBuildInfo o fs url) EE)
      as (_ & _ & _ & _ & _ & _ & HobjE);
    [|simpl; rewrite HobjE, HobjC; exact Hops0].
  rewrite bind_run.
  destruct (emitBuildInfo o fs url b wE) as [[[]|e] wF] eqn:EF;
    destruct (frame_of _ _ _ _ (framed_emitBuildInfo o fs url b) EF)
      as (_ & _ & _ & _ & _ & _ & HobjF);
    [|simpl; rewrite HobjF, HobjE, HobjC; exact Hops0].
  assert (HoF : objects wF !! o = Some r')
    by (rewrite HobjF, HobjE, HobjC; exact Ho).
  assert (HopsF : objects wF !! ops = Some r)
    by (rewrite HobjF, HobjE, HobjC; exact Hops0).
  rewrite bind_run, (addWorkbox_run _ _ _ _ HoF).
  match goal with
  | |- context [returnConfiguration ?a ?b ?c ?d ?wG] =>
      pose proof (framed_returnConfiguration a b c d wG) as HG;
      unfold world_after in HG;
      destruct HG as (_ & _ & _ & _ & _ & _ & HobjG)
  end.
  rewrite HobjG.
  destruct (truthy_workbox (workbox r') && negb (isObject (workbox r')));
    [|exact HopsF].
  simpl. rewrite lookup_insert_ne; [exact HopsF|exact Hfresh].
Qed.

Lemma options_not_mutated_witness :
  let w' := world_after (configFactory 0) AppBaseSamples.withWorkboxWorld in
  objects w' !! 0 = Some AppBaseSamples.withWorkbox
  /\ (workbox <$> objects w' !! 1) = Some (Some (WorkboxObject [])).
Proof.
  split.
  - exact (proj1 (options_not_mutated 0 AppBaseSamples.withWorkboxWorld
                    AppBaseSamples.withWorkbox eq_refl)).
  - vm_compute. reflexivity.
Defined.

(** *** The sitemap *)



(** C5 fails on a project that has no [build] folder yet: the call
    returns and leaves the reaction that is to write the sitemap; the
    reaction finds no output folder, asks for [build/web-public] with a
    [mkdirSync] that is not recursive, and this throws [ENOENT]. No
    [sitemap.xml] is written. *)
Lemma sitemap_lost_without_build_folder :
  let w' := world_after (configFactory 0) AppBaseSamples.sitemapWorld in
  let job := SitemapReady (SitemapXml [VString "https://example.com/";
                                     VString "https://example.com/about"]) 1 nodeFs in
  (exists cfg, completion_of (configFactory 0) AppBaseSamples.sitemapWorld = Normal cfg)
  /\ pending w' = [job]
  /\ completion_of (runJob job) w'
     = Throw (SystemError "ENOENT" "mkdir" "/app/build/web-public")
  /\ node_at (volume (runPending w') nodeFs)
             ["app"; "build"; "web-public"; "sitemap.xml"] = None
  /\ node_at (volume (runPending w') nodeFs) ["app"; "build"; "web-public"] = None.
Proof.
  simpl. split; [|split; [|split; [|split]]].
  - destruct (completion_of (configFactory 0) AppBaseSamples.sitemapWorld)
      as [cfg|e] eqn:E; [eauto|]. vm_compute in E. discriminate E.
  - vm_compute. reflexivity.
  - vm_compute. reflexivity.
  - vm_compute. reflexivity.
  - vm_compute. reflexivity.
Qed.

(** With [build] there, as an earlier build leaves it, the same call
    gets the folder [build/web-public] made and the sitemap written. *)
Lemma sitemap_written_after_earlier_build :
  let w' := runPending (world_after (configFactory 0) AppBaseSamples.rebuildWorld) in
  node_at (volume w' nodeFs) ["app"; "build"; "web-public"] = Some Directory
  /\ node_at (volume w' nodeFs) ["app"; "build"; "web-public"; "sitemap.xml"]
     = Some (File (SitemapXml [VString "https://example.com/";
                                     VString "https://example.com/about"])).
Proof. simpl. split; vm_compute; reflexivity. Qed.



(** X8. A call without sitemap, without reuse of a build info and without a
    build info file to write returns: the theorems about the
    configuration that a call returns are about something. *)
Lemma configFactory_returns (ops : nat) (w : World) (r : OptionsT.t) :
  objects w !! ops = Some r ->
  truthy_string (sitemap r) = false ->
  is_true (keepBuildInfo r) = false ->
  truthy_bool (dontEmitBuildInfo r) = true ->
  exists cfg w', configFactory ops w = (Normal cfg, w').
Proof.
  intros Hops Hsitemap Hkeep Hdont.
  rewrite (configFactory_run _ _ _ Hops).
  set (o := fresh (dom (objects w))).
  set (r' := with_defaults defaultOptions r).
  set (w0 := set_objects _ w).
  assert (Hfresh : o <> ops) by (by eapply fresh_object).
  assert (Ho : objects w0 !! o = Some r') by (simpl; apply lookup_insert_eq).
  assert (Hops0 : objects w0 !! ops = Some r)
    by (simpl; rewrite lookup_insert_ne; [exact Hops|exact Hfresh]).
  assert (Hpub : is_Some (publicPath r'))
    by (subst r'; simpl; rewrite or_default_Some; eauto).
  rewrite bind_run, (emitSitemap_run _ _ _ _ Ho). simpl sitemap. rewrite Hsitemap.
  rewrite bind_run, (resolveBuildInfo_run _ _ _ _ _ Ho Hpub). simpl keepBuildInfo.
  destruct (keepBuildInfo r) as [[[|]|info]|]; try discriminate Hkeep;
    rewrite bind_run, (emitBuildInfo_run _ _ _ _ _ _ Ho); simpl dontEmitBuildInfo;
    rewrite Hdont, bind_run, (addWorkbox_run _ _ _ _ Ho);
    match goal with
    | |- context [returnConfiguration ?a ?b ?c ?d ?wG] =>
        assert (HG : exists ro, objects wG !! o = Some ro
                                /\ outputPath ro = outputPath r'
                                /\ objects wG !! ops = Some r)
    end;
    try (destruct (truthy_workbox (workbox r') && negb (isObject (workbox r')));
         [eexists; split; [simpl; apply lookup_insert_eq|split; [reflexivity|]];
          simpl; rewrite lookup_insert_ne; [exact Hops0|exact Hfresh]
         |exists r'; split; [exact Ho|split; [reflexivity|exact Hops0]]]);
    destruct HG as (ro & HoG & Hout & HopsG);
    erewrite (returnConfiguration_run _ _ _ _ _ r ro _ HopsG HoG);
    eauto; rewrite Hout; subst r'; simpl; apply or_default_Some.
Qed.

End AppBaseFacts.
(** ** The build script *)

Section BuildScriptFacts.
Import BuildScript BuildScriptClaims.

Lemma includes_valid (t : option string) :
  includes VALID_BUILD_TYPES t = true <->
  t = Some "development" \/ t = Some "production".
Proof.
  destruct t as [s|]; simpl.
  - rewrite !orb_true_iff, !String.eqb_eq. split.
    + intros [->|[->|H]]; [now left|now right|discriminate].
    + intros [H|H]; injection H as ->; auto.
  - split; [discriminate|intros [H|H]; discriminate].
Qed.

(** C4. A build type that is neither 'development' nor 'production', or
    no build type at all, makes the script throw the error 'Invalid build
    type' at once: the world is as it was, so no folder was cleaned or
    created and no build step was called. *)
Theorem invalid_build_type_halts (args : CmdLineArgs) (w : World) :
  buildType args <> Some "development" ->
  buildType args <> Some "production" ->
  main args w = (Throw (Error "Invalid build type"), w).
Proof.
  intros Hd Hp. unfold main.
  destruct (includes VALID_BUILD_TYPES (buildType args)) eqn:E.
  - apply includes_valid in E. tauto.
  - reflexivity.
Qed.

Lemma invalid_build_type_halts_witness :
  main BuildScriptSamples.noBuildType sampleWorld
  = (Throw (Error "Invalid build type"), sampleWorld).
Proof.
  apply (invalid_build_type_halts BuildScriptSamples.noBuildType sampleWorld);
    simpl; discriminate.
Defined.

(** With a valid build type the script goes on: it cleans and creates the
    output folder, loads the Webpack configuration, starts Webpack and
    Babel. *)
Lemma valid_build_type_builds :
  completion_of (main BuildScriptSamples.development) sampleWorld = Normal tt
  /\ calls (world_after (main BuildScriptSamples.development) sampleWorld)
     = [RimrafSync "/app/build";
        MkdirSync nodeFs "/app/build" true;
        Require "/app/webpack.config.js";
        Webpack (VObject [("mode", VString "development");
                          ("output", VObject [("path", VString "/app/build/web-public")])]);
        CompilerRun;
        CompilerClose;
        Exec "/app/node_modules/.bin/babel /app/src --out-dir /app/build --source-maps"
             "development"].
Proof. split; vm_compute; reflexivity. Qed.

Ltac run_handler :=
  unfold world_after, completion_of, handleWebpackCompilationResults, handleStats,
    writeFileSync, put_volume, setExitCode, when, call, bind, ret, throw,
    gets, modify, lift, DEVELOPMENT;
  simpl.

(** Every branch of the handler, one after the other. *)
Ltac branches :=
  repeat match goal with
         | |- context [if ?b then _ else _] => destruct b eqn:?; simpl
         | |- context [match vol_write ?p ?v ?k ?t with _ => _ end] =>
             destruct (vol_write p v k t) eqn:?; simpl
         end.

(** The calls made form a list that goes on from the calls before. *)
Ltac trace :=
  rewrite <- ?app_assoc; simpl;
  first [ reflexivity
        | eexists _, _; reflexivity
        | exists []; reflexivity
        | eexists [_]; reflexivity
        | eexists [_; _]; reflexivity
        | eexists [_; _; _]; reflexivity
        | eexists [_; _; _; _]; reflexivity ].

(** C3. When a compilation failed, the handler sets the exit code of the
    process to 1 if the build type is not 'development', and returns. If
    it is 'development', the exit code stays as it was and the failure
    is written to the error console. The handler then goes on to the
    stats: given stats, it prints them and writes the chunk groups; but
    a fatal error comes without stats, and then the handler throws a
    [TypeError] at [stats.toJson()], having logged the error and its
    details. *)
Theorem compilation_failure_exit_code
    (buildType webpackOutDir : string) (error : option WebpackError)
    (stats : option Stats) (w : World) :
  failed error stats ->
  let run := handleWebpackCompilationResults buildType webpackOutDir error stats in
  let w' := world_after run w in
  (buildType <> "development" ->
     exitCode w' = Some 1%Z /\ completion_of run w = Normal tt)
  /\ (buildType = "development" ->
      exitCode w' = exitCode w
      /\ (exists args rest, calls w' = calls w ++ ConsoleError args :: rest)
      /\ match stats with
         | Some s =>
             exists logged,
               calls w' = calls w ++ logged
                            ++ [ConsoleLog [VString (rendered s)];
                                manifest webpackOutDir s]
         | None =>
             completion_of run w
             = Throw (TypeError "Cannot read properties of undefined")
             /\ forall e, error = Some e ->
                  calls w'
                  = calls w
                      ++ ConsoleError [match stack e with
                                       | Some s =>
                                           if String.eqb s "" then error_value e
                                           else VString s
                                       | None => error_value e
                                       end]
                      :: match details e with
                         | Some d =>
                             if String.eqb d "" then [] else [ConsoleError [VString d]]
                         | None => []
                         end
         end).
Proof.
  intros Hfail. split.
  - intros Hne. apply String.eqb_neq in Hne.
    destruct error as [e|].
    + run_handler. rewrite Hne. simpl.
      destruct (truthy_string (details e)); split; reflexivity.
    + destruct Hfail as [[e He]|(s & -> & Herr)]; [discriminate|].
      run_handler. rewrite Herr, Hne. split; reflexivity.
  - intros ->. split; [|split].
    + destruct error as [e|], stats as [s|]; run_handler; branches; reflexivity.
    + destruct error as [e|].
      * destruct stats as [s|]; run_handler; branches; trace.
      * destruct Hfail as [[e He]|(s & -> & Herr)]; [discriminate|].
        run_handler. rewrite Herr. simpl. branches; trace.
    + destruct stats as [s|].
      * unfold manifest, JSON_stringify.
        destruct error as [e|]; run_handler; branches; trace.
      * destruct error as [e|].
        -- split; [run_handler; branches; reflexivity|].
           intros e' [= <-]. run_handler.
           destruct (stack e) as [s|], (details e) as [d|]; simpl;
             repeat match goal with
                    | |- context [String.eqb ?x ""] => destruct (String.eqb x ""); simpl
                    end;
             rewrite <- ?app_assoc; reflexivity.
        -- destruct Hfail as [[e He]|(s & Hs & _)]; discriminate.
Qed.

(** X15. A fatal error comes without stats. In development the handler
    logs the error (its stack, or the error itself when it has none) and
    then its details, if it has any; it does not return, and throws a
    [TypeError] at [stats.toJson()]. The exit code and the file systems
    are as they were. *)
Lemma fatal_error_without_stats (webpackOutDir : string) (e : WebpackError) (w : World) :
  let run := handleWebpackCompilationResults "development" webpackOutDir (Some e) None in
  let w' := world_after run w in
  completion_of run w = Throw (TypeError "Cannot read properties of undefined")
  /\ exitCode w' = exitCode w
  /\ volumes w' = volumes w
  /\ calls w'
     = calls w
         ++ ConsoleError [match stack e with
                          | Some s => if String.eqb s "" then error_value e else VString s
                          | None => error_value e
                          end]
         :: match details e with
            | Some d => if String.eqb d "" then [] else [ConsoleError [VString d]]
            | None => []
            end.
Proof.
  run_handler.
  destruct (stack e) as [s|], (details e) as [d|]; simpl;
    repeat match goal with
           | |- context [String.eqb ?x ""] => destruct (String.eqb x ""); simpl
           end;
    rewrite <- ?app_assoc; repeat split; reflexivity.
Qed.

Lemma compilation_failure_exit_code_witness :
  let run := handleWebpackCompilationResults "development" "/app/build/web-public"
               (Some BuildScriptSamples.fatal) None in
  let w' := world_after run sampleWorld in
  exitCode w' = None
  /\ completion_of run sampleWorld
     = Throw (TypeError "Cannot read properties of undefined")
  /\ calls w' = [ConsoleError [VString "Error: Invalid configuration object"]].
Proof.
  pose proof (compilation_failure_exit_code "development" "/app/build/web-public"
                (Some BuildScriptSamples.fatal) None sampleWorld) as H.
  simpl in H. destruct H as [_ H].
  - left. eexists. reflexivity.
  - destruct (H eq_refl) as (Hcode & _ & Hthrow & Hcalls).
    split; [exact Hcode|]. split; [exact Hthrow|].
    exact (Hcalls _ eq_refl).
Defined.

(** C7, as the claim states it, fails for a production build whose
    stats report errors: the handler returns before the manifest. *)
Lemma manifest_not_written_on_failure :
  ~ writes_manifest "production" "/app/build/web-public" None
      (Some BuildScriptSamples.failedStats) sampleWorld.
Proof.
  intros H. specialize (H _ eq_refl).
  vm_compute in H. destruct H as [H|[]]. discriminate H.
Qed.

Lemma lookup_map {A B} (f : A -> B) (l : list A) (i : nat) :
  map f l !! i = f <$> l !! i.
Proof.
  revert i. induction l as [|x l IH]; intros [|i]; simpl; try reflexivity. apply IH.
Qed.

(** C7, amended. A handler that is given stats and does not stop at a
    failure (the build type is 'development', or there is no fatal error
    and the stats report no error) calls [writeFileSync] once, as its
    last call, for the file [__chunk_groups__.json] in the Webpack output
    folder, with the JSON (indented by 2) of an object that has, in the
    order of the named chunk groups, one property per group: its name,
    with the array of the names of its assets. If that folder exists the
    file holds this JSON afterwards. A handler that stops at a failure,
    with or without stats, writes no file. *)
Theorem chunk_groups_manifest
    (buildType webpackOutDir : string) (error : option WebpackError)
    (stats : option Stats) (w : World) :
  let w' := world_after
              (handleWebpackCompilationResults buildType webpackOutDir error stats) w in
  let path := webpackOutDir +:+ "/__chunk_groups__.json" in
  let file := fs_key w path in
  (forall s, stats = Some s ->
     buildType = "development" \/ (error = None /\ hasErrors s = false) ->
     exists chunks logged,
       map fst chunks = map fst (namedChunkGroups s)
       /\ (forall i group_name group,
              namedChunkGroups s !! i = Some (group_name, group) ->
              chunks !! i
              = Some (group_name,
                      VArray (map (fun asset => VString (name asset)) (assets group))))
       /\ calls w' = calls w ++ logged
                        ++ [WriteFileSync nodeFs path (Json (VObject chunks) 2)]
       /\ filter is_write logged = []
       /\ (node_at (volume w nodeFs) (parent file) = Some Directory ->
           node_at (volume w nodeFs) file <> Some Directory ->
           volume w' nodeFs !! file = Some (File (Json (VObject chunks) 2))))
  /\ (buildType <> "development" -> failed error stats ->
      exists logged,
        calls w' = calls w ++ logged /\ filter is_write logged = []).
Proof.
  cbv zeta. split.
  - intros s -> Hgo.
    exists (map (fun g => (fst g, VArray (map (fun a => VString (name a))
                                              (assets (snd g)))))
                (namedChunkGroups s)).
    assert (Hcalls : exists logged,
               calls (world_after
                        (handleWebpackCompilationResults buildType webpackOutDir
                           error (Some s)) w)
               = calls w ++ logged ++ [manifest webpackOutDir s]
               /\ filter is_write logged = []).
    { destruct Hgo as [->|[-> Herr]]; [destruct error as [e|]|];
        run_handler; rewrite ?Herr; simpl; branches;
        rewrite <- ?app_assoc; simpl; unfold manifest;
        first [ exists []; split; reflexivity
              | eexists [_]; split; reflexivity
              | eexists [_; _]; split; reflexivity
              | eexists [_; _; _]; split; reflexivity
              | eexists [_; _; _; _]; split; reflexivity
              | eexists [_; _; _; _; _]; split; reflexivity ]. }
    destruct Hcalls as (logged & Hcalls & Hlogged).
    exists logged. split; [|split; [|split; [|split]]].
    + rewrite map_map. reflexivity.
    + intros i group_name group Hi. rewrite lookup_map, Hi. reflexivity.
    + exact Hcalls.
    + exact Hlogged.
    + intros Hp Hk.
      pose proof (vol_write_ok (webpackOutDir +:+ "/__chunk_groups__.json")
                    _ _ (Json (chunkGroups (namedChunkGroups s)) 2) Hp Hk) as Hok.
      destruct Hgo as [->|[-> Herr]]; [destruct error as [e|]|];
        unfold world_after, handleWebpackCompilationResults, handleStats,
          setExitCode, when, call, bind, ret, throw, gets, modify, DEVELOPMENT;
        simpl; rewrite ?Herr; simpl; branches;
        rewrite writeFileSync_run;
        match goal with
        | |- context [vol_write ?p (volume ?w0 ?fs) (fs_key ?w1 ?q) ?t] =>
            change (vol_write p (volume w0 fs) (fs_key w1 q) t)
              with (vol_write p (volume w fs) (fs_key w p) t)
        end;
        unfold JSON_stringify; rewrite Hok; simpl;
        rewrite volume_written; apply lookup_insert_eq.
  - intros Hne Hfail. apply String.eqb_neq in Hne.
    destruct error as [e|].
    + run_handler. rewrite Hne. simpl. branches;
        rewrite <- ?app_assoc; simpl;
        first [ eexists [_]; split; reflexivity
              | eexists [_; _]; split; reflexivity ].
    + destruct Hfail as [[e He]|(s' & -> & Herr)]; [discriminate|].
      run_handler. rewrite Herr, Hne. simpl.
      eexists [_]; split; reflexivity.
Qed.

Lemma chunk_groups_manifest_witness :
  let w' := world_after
              (handleWebpackCompilationResults "development" "/app"
                 None (Some BuildScriptSamples.failedStats)) sampleWorld in
  volume w' nodeFs !! ["app"; "__chunk_groups__.json"]
  = Some (File (Json (VObject [("main", VArray [VString "main.js";
                                               VString "main.css"])]) 2)).
Proof.
  pose proof (chunk_groups_manifest "development" "/app" None
                (Some BuildScriptSamples.failedStats) sampleWorld) as H.
  cbv zeta in H. destruct H as [H _].
  destruct (H _ eq_refl (or_introl eq_refl))
    as (chunks & logged & Hnames & Hchunks & _ & _ & Hfile).
  assert (Hc : chunks = [("main", VArray [VString "main.js"; VString "main.css"])]).
  { pose proof (Hchunks 0 _ _ eq_refl) as H0. simpl in H0.
    destruct chunks as [|c [|c' rest]]; [discriminate H0| |discriminate Hnames].
    simpl in H0. by injection H0 as ->. }
  rewrite <- Hc. apply Hfile; vm_compute; [reflexivity|discriminate].
Defined.

End BuildScriptFacts.

(** ** The Modal component *)

Section ModalFacts.
Import Modal.
Context {App ReactNode : Type}.


(** X19. The first render gives nothing. The first effect appends a new
    element to the children of the body, and this element is the portal
    of the next render, which gives five elements inside it: a focus
    guard, the overlay (a button labelled 'Cancel'), the container (a
    dialog that holds the children of the modal) and two more focus
    guards. *)
Lemma modal_mounts (props : PropsT App ReactNode) (page : Page App) :
  BaseModal props None = None
  /\ exists p,
       snd (mountEffects props page) = Some p
       /\ (p ∉ body page)
       /\ body (fst (mountEffects props page)) = body page ++ [p]
       /\ exists divs,
            BaseModal props (snd (mountEffects props page)) = Some (divs, p)
            /\ map ariaLabel divs = [None; Some "Cancel"; None; None; None]
            /\ map role divs = [None; Some "button"; Some "dialog"; None; None]
            /\ map ariaModal divs = [None; None; Some "true"; None; None]
            /\ map tabIndex divs = [Some 0%Z; Some 0%Z; None; Some 0%Z; Some 0%Z]
            /\ map className divs
               = [None; overlay (theme props); container (theme props); None; None]
            /\ map content divs = [None; None; children props; None; None].
Proof.
  split; [reflexivity|]. exists (S (max_list (body page))).
  split; [reflexivity|]. split.
  - intros Hin. apply max_list_elem_of_le in Hin. lia.
  - split; [reflexivity|]. eexists. repeat split; reflexivity.
Qed.

(** X18. A key other than Escape does nothing, with or without the callback. *)
Lemma overlay_other_key (props : PropsT App ReactNode) (e : SyntheticEvent) (app : App) :
  key e <> "Escape" -> keyDown (overlayDiv props) e app = (e, app).
Proof.
  intros Hkey. apply String.eqb_neq in Hkey.
  unfold keyDown, dispatch. simpl. rewrite Hkey. reflexivity.
Qed.
End ModalFacts.
(** ** [app-base.ts]: the plugins, the sitemap, and the file system of a call *)

Section AppBasePlugins.
Import OptionsT.

Lemma not_in_basePlugins (b : Value) (d : option bool) (o : Obj) :
  Configuration.InjectManifest o ∉ basePlugins b d.
Proof.
  unfold basePlugins. intros H.
  destruct (negb (truthy_bool d)); simpl in H;
    repeat (apply elem_of_cons in H as [H|H]; [discriminate H|]);
    by apply elem_of_nil in H.
Qed.

(** X1. The plugin that generates the service worker is in the configuration
    if and only if [workbox] is truthy, and then it is the last plugin.
    Its options are those of the [workbox] object, with two exceptions:
    [swDest] always is ['__service-worker.js'], whatever the object says,
    and [swSrc] is the default worker of the library unless the object
    names one. *)
Theorem service_worker_plugin (ops : nat) (w w' : World) (r : OptionsT.t)
    (cfg : Configuration.t) :
  objects w !! ops = Some r ->
  configFactory ops w = (Normal cfg, w') ->
  NoDup (map fst (workbox_props (workbox r))) ->
  let given := workbox_props (workbox r) in
  let swSrc := path_resolve_from (cwd w) [__dirname w; "../workbox/default.js"] in
  if truthy_workbox (workbox r) then
    exists plugins options,
      Configuration.plugins cfg = plugins ++ [Configuration.InjectManifest options]
      /\ (forall o, Configuration.InjectManifest o ∉ plugins)
      /\ get_prop "swDest" options = Some (VString "__service-worker.js")
      /\ get_prop "swSrc" options
         = Some (default (VString swSrc) (get_prop "swSrc" given))
      /\ (forall k, k <> "swDest" -> k <> "swSrc" ->
                    get_prop k options = get_prop k given)
  else forall o, Configuration.InjectManifest o ∉ Configuration.plugins cfg.
Proof.
  intros Hops Hrun Hnodup given swSrc.
  destruct (configFactory_normal _ _ _ _ _ Hops Hrun)
    as (wC & b & wE & wF & _ & _ & _ & _ & ->).
  unfold configurationFor. simpl Configuration.plugins.
  unfold withWorkbox. fold swSrc.
  assert (Hgiven : workbox_props (workboxOption (workbox r)) = given).
  { subst given. unfold workboxOption.
    destruct (workbox r) as [[[|]|options]|]; reflexivity. }
  rewrite Hgiven. subst given.
  destruct (truthy_workbox (workbox r)); [|intros o; apply not_in_basePlugins].
  eexists _, _. split; [reflexivity|].
  split; [intros o; apply not_in_basePlugins|].
  split; [apply get_prop_set_prop|]. split.
  - rewrite get_prop_set_prop_ne by discriminate.
    rewrite (get_prop_spread _ _ _ Hnodup).
    destruct (get_prop "swSrc" _); reflexivity.
  - intros k Hdest Hsrc.
    rewrite get_prop_set_prop_ne by exact Hdest.
    rewrite (get_prop_spread _ _ _ Hnodup).
    destruct (get_prop k _); [reflexivity|].
    unfold get_prop. simpl. apply String.eqb_neq in Hsrc. by rewrite Hsrc.
Qed.

(** X2. The first plugin of the configuration defines [BUILD_INFO], and
    nothing else. The progress plugin is in the configuration if and
    only if [dontUseProgressPlugin] is not set; it comes second. *)
Theorem progress_plugin (ops : nat) (w w' : World) (r : OptionsT.t)
    (cfg : Configuration.t) :
  objects w !! ops = Some r ->
  configFactory ops w = (Normal cfg, w') ->
  exists text rest,
    Configuration.plugins cfg
    = Configuration.DefinePlugin [("BUILD_INFO", text)]
        :: (if truthy_bool (dontUseProgressPlugin r) then rest
            else Configuration.ProgressPlugin :: rest)
    /\ (Configuration.ProgressPlugin ∉ rest)
    /\ (forall definitions, Configuration.DefinePlugin definitions ∉ rest).
Proof.
  intros Hops Hrun.
  destruct (configFactory_normal _ _ _ _ _ Hops Hrun)
    as (wC & b & wE & wF & _ & _ & _ & _ & ->).
  unfold configurationFor. simpl Configuration.plugins.
  unfold withWorkbox, basePlugins.
  destruct (truthy_workbox (workbox r)), (truthy_bool (dontUseProgressPlugin r));
    simpl; eexists _, _; (split; [reflexivity|]); (split; [|intros definitions]);
    intros H; repeat (apply elem_of_cons in H as [H|H]; [discriminate H|]);
    by apply elem_of_nil in H.
Qed.

(** X22. The rule of the Babel loader in the returned configuration. It
    tests for JS, JSX and SVG files, and for TS and TSX files as well if
    and only if [ops.typescript] is truthy. Its options are the
    [babelLoaderOptions] of the caller spread over the defaults of the
    factory: every option that the caller gives is there with the
    caller's value, also in place of a default of the same name, and a
    default that the caller does not name ([babelrc], [configFile],
    [envName], [presets]) stays. *)
Theorem babel_loader_options (ops : nat) (w w' : World) (r : OptionsT.t)
    (cfg : Configuration.t) :
  objects w !! ops = Some r ->
  configFactory ops w = (Normal cfg, w') ->
  let given := default [] (babelLoaderOptions r) in
  NoDup (map fst given) ->
  exists rule options,
    babelLoader cfg = Some rule
    /\ get_prop "test" rule
       = Some (VRegExp (if truthy_bool (typescript r)
                        then "\.((j|t)sx?|svg)$" else "\.(jsx?|svg)$"))
    /\ get_prop "options" rule = Some (VObject options)
    /\ (forall k v, get_prop k given = Some v -> get_prop k options = Some v)
    /\ (forall k, get_prop k given = None ->
                  get_prop k options
                  = get_prop k (babelLoaderDefaults (typescript r) (babelEnv r))).
Proof.
  intros Hops Hrun given Hnodup.
  destruct (configFactory_normal _ _ _ _ _ Hops Hrun)
    as (wC & b & wE & wF & _ & _ & _ & _ & ->).
  eexists _, _. split; [reflexivity|]. split; [reflexivity|].
  split; [reflexivity|]. simpl default. fold given.
  split.
  - intros k v Hk. rewrite (get_prop_spread _ _ _ Hnodup), Hk. reflexivity.
  - intros k Hk. rewrite (get_prop_spread _ _ _ Hnodup), Hk. reflexivity.
Qed.

End AppBasePlugins.

Section AppBaseSitemap.
Import OptionsT.






(** X5. A sitemap option that leads nowhere stops the call at once. When
    no module is found at the path of the option, [require] throws. When
    the module gives a value on which [forEach] cannot be called (not an
    array, and not an object with a function at [forEach]), the loop
    throws a [TypeError]. When the module gives an array and a write to
    the stream of the library throws, as it does for an entry that the
    library refuses, the call throws the same. In each case the only
    call made is the [require], the file systems are as they were (no
    build info has been written) and no reaction waits. *)
Theorem sitemap_source_errors (ops : nat) (w : World) (r : OptionsT.t) (x : Exception) :
  objects w !! ops = Some r ->
  truthy_string (sitemap r) = true ->
  let url := path_resolve_from (cwd w) [context r; template (sitemap r)] in
  let w' := world_after (configFactory ops) w in
  let source e := match e with
                  | ExportValue source => source
                  | ExportFunction factory => factory []
                  end in
  ((registry w !! url = None /\ x = ModuleNotFound url)
   \/ (exists e m, registry w !! url = Some e /\ no_forEach (source e)
                   /\ x = TypeError m
                   /\ m = match source e with
                          | VUndefined => "Cannot read properties of undefined"
                          | VNull => "Cannot read properties of null"
                          | _ => "source.forEach is not a function"
                          end)
   \/ (exists e items, registry w !! url = Some e /\ source e = VArray items
                       /\ sitemapStream w (VArray items) = WriteThrows x)) ->
  completion_of (configFactory ops) w = Throw x
  /\ volumes w' = volumes w
  /\ pending w' = pending w
  /\ calls w' = calls w ++ [Require url].
Proof.
  intros Hops Hsitemap url w' source Hcase. subst w'.
  unfold world_after, completion_of.
  rewrite (configFactory_run _ _ _ Hops).
  set (o := fresh (dom (objects w))).
  set (r' := with_defaults defaultOptions r).
  assert (Ho : objects (set_objects <[o := r']> w) !! o = Some r')
    by (simpl; apply lookup_insert_eq).
  rewrite bind_run, (emitSitemap_run _ _ _ _ Ho).
  simpl sitemap. rewrite Hsitemap. cbv zeta.
  simpl context. simpl cwd. simpl registry. fold url.
  change (sitemapStream (set_objects _ w)) with (sitemapStream w).
  destruct Hcase as [[Hreg ->]|[(e & m & Hreg & Hno & -> & ->)|(e & items & Hreg & Hsrc & Hx)]];
    rewrite Hreg.
  - simpl. repeat split; reflexivity.
  - change (call_if_function e []) with (source e).
    assert (Hfalse : has_forEach (source e) = false).
    { destruct (source e) as [| | | | | |props| |]; try reflexivity; try destruct Hno.
      simpl in *. destruct (get_prop "forEach" props) as [[]|]; try reflexivity.
      by destruct (Hno name). }
    rewrite Hfalse. simpl. repeat split; reflexivity.
  - change (call_if_function e []) with (source e). rewrite Hsrc.
    simpl has_forEach. cbv iota. rewrite Hx. simpl. repeat split; reflexivity.
Qed.

End AppBaseSitemap.

(** *** The file system that a call works on *)

Section AppBaseFileSystem.
Import OptionsT.
Variable fs : nat.

Lemma confined_same (w w' : World) :
  volumes w' = volumes w -> pending w' = pending w -> confined fs w w'.
Proof.
  intros Hv Hp. split; [intros k _; by rewrite Hv|].
  exists []. split; [by rewrite app_nil_r|constructor].
Qed.

Lemma confined_trans (w1 w2 w3 : World) :
  confined fs w1 w2 -> confined fs w2 w3 -> confined fs w1 w3.
Proof.
  intros (Hv1 & js1 & Hp1 & Hj1) (Hv2 & js2 & Hp2 & Hj2). split.
  - intros k Hk. by rewrite Hv2, Hv1.
  - exists (js1 ++ js2). split; [by rewrite Hp2, Hp1, app_assoc|].
    by apply Forall_app.
Qed.

Lemma confines_bind {A B} (m : M A) (k : A -> M B) :
  confines fs m -> (forall a, confines fs (k a)) -> confines fs (bind m k).
Proof.
  intros Hm Hk w. rewrite world_after_bind.
  destruct (completion_of m w); [|apply Hm].
  eapply confined_trans; [apply Hm|apply Hk].
Qed.

Lemma confines_ret {A} (a : A) : confines fs (ret a).
Proof. intros w. by apply confined_same. Qed.

Lemma confines_throw {A} (e : Exception) : confines fs (@throw A e).
Proof. intros w. by apply confined_same. Qed.

Lemma confines_gets {A} (f : World -> A) : confines fs (gets f).
Proof. intros w. by apply confined_same. Qed.

Lemma confines_lift {A} (c : Completion A) : confines fs (lift c).
Proof. intros w. by apply confined_same. Qed.

Lemma confines_call (c : Call) : confines fs (call c).
Proof. intros w. by apply confined_same. Qed.

Lemma confines_set_objects (f : gmap nat OptionsT.t -> gmap nat OptionsT.t) :
  confines fs (modify (set_objects f)).
Proof. intros w. by apply confined_same. Qed.

Lemma confines_alloc (o : OptionsT.t) : confines fs (alloc o).
Proof. intros w. by apply confined_same. Qed.

Lemma confines_write (v : Volume) : confines fs (modify (set_volumes <[fs := v]>)).
Proof.
  intros w. split.
  - intros k Hk. simpl. by apply lookup_insert_ne.
  - exists []. split; [by rewrite app_nil_r|constructor].
Qed.

Lemma confines_schedule (sitemap : Text) (o : nat) :
  confines fs (modify (set_pending (fun js => js ++ [SitemapReady sitemap o fs]))).
Proof.
  intros w. split; [done|].
  eexists. split; [reflexivity|]. by repeat constructor.
Qed.

Ltac confines_steps :=
  repeat first
    [ solve [auto]
    | apply confines_ret | apply confines_throw | apply confines_gets
    | apply confines_lift | apply confines_call | apply confines_set_objects
    | apply confines_alloc | apply confines_write | apply confines_schedule
    | apply confines_bind; [|intros ?]
    | match goal with
      | |- confines _ (match ?x with _ => _ end) => destruct x
      | |- confines _ (when ?b _) => unfold when
      end ].

Lemma confines_get (l : nat) : confines fs (get l).
Proof. unfold get. confines_steps. Qed.

Lemma confines_read {A} (l : nat) (f : OptionsT.t -> A) : confines fs (read l f).
Proof. unfold read. pose proof (confines_get l). confines_steps. Qed.

Lemma confines_path_resolve (args : list string) : confines fs (path_resolve args).
Proof. unfold path_resolve. confines_steps. Qed.

Lemma confines_path_argument (x : option string) : confines fs (path_argument x).
Proof. unfold path_argument. confines_steps. Qed.

Lemma confines_existsSync (path : string) : confines fs (existsSync fs path).
Proof. unfold existsSync. confines_steps. Qed.

Lemma confines_readFileSync (path : string) : confines fs (readFileSync fs path).
Proof. unfold readFileSync. confines_steps. Qed.

Lemma confines_put_volume (c : Completion Volume) : confines fs (put_volume fs c).
Proof. unfold put_volume. confines_steps. Qed.

Lemma confines_mkdirSync (path : string) (recursive : bool) :
  confines fs (mkdirSync fs path recursive).
Proof. unfold mkdirSync. pose proof confines_put_volume. confines_steps. Qed.

Lemma confines_writeFileSync (path : string) (data : Text) :
  confines fs (writeFileSync fs path data).
Proof. unfold writeFileSync. pose proof confines_put_volume. confines_steps. Qed.

Lemma confines_require (path : string) : confines fs (require path).
Proof. unfold require. confines_steps. Qed.

Ltac confines_calls :=
  pose proof @confines_read; pose proof confines_path_resolve;
  pose proof confines_path_argument; pose proof confines_existsSync;
  pose proof confines_readFileSync; pose proof confines_mkdirSync;
  pose proof confines_writeFileSync; pose proof confines_require;
  pose proof confines_get;
  confines_steps.

Lemma confines_emitSitemap (o : nat) : confines fs (emitSitemap o fs).
Proof. unfold emitSitemap. confines_calls. Qed.

Lemma confines_resolveBuildInfo (o : nat) (url : string) :
  confines fs (resolveBuildInfo o fs url).
Proof. unfold resolveBuildInfo, generateBuildInfo. confines_calls. Qed.

Lemma confines_emitBuildInfo (o : nat) (url : string) (b : Value) :
  confines fs (emitBuildInfo o fs url b).
Proof. unfold emitBuildInfo. confines_calls. Qed.

Lemma confines_addWorkbox (o : nat) (plugins : list Configuration.Plugin) :
  confines fs (addWorkbox o plugins).
Proof. unfold addWorkbox, assign_workbox. confines_calls. Qed.

Lemma confines_returnConfiguration (ops o : nat) (entry : list string)
    (plugins : list Configuration.Plugin) :
  confines fs (returnConfiguration ops o entry plugins).
Proof. unfold returnConfiguration. confines_calls. Qed.

Lemma confines_sitemapResolved (sitemap : Text) (o : nat) :
  confines fs (sitemapResolved sitemap o fs).
Proof. unfold sitemapResolved. confines_calls. Qed.

Lemma confines_runJob (j : Job) : job_on fs j -> confines fs (runJob j).
Proof.
  destruct j as [sitemap o f|command env]; simpl.
  - intros ->. apply confines_sitemapResolved.
  - intros _. apply confines_call.
Qed.

Lemma confined_jobs (js : list Job) :
  Forall (job_on fs) js ->
  forall (w : World) (k : nat),
    k <> fs ->
    volumes (fold_left (fun w j => snd (runJob j w)) js w) !! k = volumes w !! k.
Proof.
  induction 1 as [|j js Hj _ IH]; intros w k Hk; simpl; [reflexivity|].
  rewrite IH by exact Hk. by apply (confines_runJob j Hj w).
Qed.

End AppBaseFileSystem.

Section AppBaseOwnFileSystem.
Import OptionsT.

(** X6. A call works on one file system: the one given as the option [fs],
    or Node's when there is none. Whether the call returns or throws, and
    also once the reaction that writes the sitemap has run, every other
    file system holds what it held before. *)
Theorem own_file_system (ops : nat) (w : World) (r : OptionsT.t) (k : nat) :
  objects w !! ops = Some r ->
  pending w = [] ->
  k <> default nodeFs (OptionsT.fs r) ->
  let w' := world_after (configFactory ops) w in
  volumes w' !! k = volumes w !! k
  /\ volumes (runPending w') !! k = volumes w !! k.
Proof.
  intros Hops Hpending Hk w'.
  set (fs := default nodeFs (OptionsT.fs r)) in *.
  assert (H : confined fs w w').
  { subst w'. unfold world_after. rewrite (configFactory_run _ _ _ Hops).
    fold fs.
    set (w0 := set_objects _ w).
    apply (confined_trans fs w w0); [apply confined_same; reflexivity|].
    match goal with
    | |- confined fs w0 (snd (?m w0)) =>
        change (confined fs w0 (world_after m w0)); generalize w0;
        change (confines fs m)
    end.
    apply confines_bind; [apply confines_emitSitemap|intros _].
    apply confines_bind; [apply confines_resolveBuildInfo|intros b].
    apply confines_bind; [apply confines_emitBuildInfo|intros _].
    apply confines_bind; [apply confines_addWorkbox|intros plugins].
    apply confines_returnConfiguration. }
  destruct H as (Hv & js & Hjs & Hon).
  split; [by apply Hv|].
  unfold runPending. rewrite Hjs, Hpending. simpl.
  rewrite (confined_jobs fs js Hon) by exact Hk. by apply Hv.
Qed.

End AppBaseOwnFileSystem.

(** *** The build info, from one call to the next *)

Section AppBaseReuse.
Import OptionsT.

Lemma vol_write_node (path : string) (v v' : Volume) (k : list string) (t : Text) :
  vol_write path v k t = Normal v' -> node_at v' k = Some (File t).
Proof.
  intros H. destruct k as [|s l]; [discriminate H|].
  apply vol_write_normal in H as ->. simpl. apply lookup_insert_eq.
Qed.

Lemma ToBoolean_jsonify (v : Value) : ToBoolean (jsonify v) = ToBoolean v.
Proof. destruct v; reflexivity. Qed.

(** The build info of a call that returns is truthy. *)
Lemma build_info_truthy (ops : nat) (w w' : World) (r : OptionsT.t)
    (cfg : Configuration.t) (b : Value) :
  objects w !! ops = Some r ->
  configFactory ops w = (Normal cfg, w') ->
  buildInfoOf cfg = Some (JSON_stringify b 0) ->
  ToBoolean b = true.
Proof.
  intros Hops Hrun Hb.
  destruct (resolveBuildInfo_cases _ _ _ _ _ Hops Hrun) as (b0 & Hb0 & Hcase).
  rewrite Hb in Hb0. injection Hb0 as <-.
  destruct (keepBuildInfo r) as [[[|]|info]|]; try (by rewrite Hcase).
  destruct (buildInfoFile r w) as [[text|]|]; [| |by rewrite Hcase].
  - destruct Hcase as (v & _ & ->). by destruct (ToBoolean v) eqn:E.
  - destruct Hcase.
Qed.

(** A call that writes the build info leaves it in the file. *)
Lemma build_info_on_disk (ops : nat) (w w' : World) (r : OptionsT.t)
    (cfg : Configuration.t) :
  objects w !! ops = Some r ->
  configFactory ops w = (Normal cfg, w') ->
  truthy_bool (dontEmitBuildInfo r) = false ->
  exists b, buildInfoOf cfg = Some (JSON_stringify b 0)
            /\ buildInfoFile r w' = Some (File (JSON_stringify b 0)).
Proof.
  intros Hops Hrun Hemit.
  destruct (configFactory_normal _ _ _ _ _ Hops Hrun)
    as (wC & b & wE & wF & EC & EE & EF & Hw' & Hcfg).
  set (fs := default nodeFs (OptionsT.fs r)) in *.
  set (url := path_resolve_from (cwd w) [context r; ".build-info"]) in *.
  set (o := fresh (dom (objects w))) in *.
  set (r' := with_defaults defaultOptions r) in *.
  destruct (frame_of _ _ _ _ (framed_emitSitemap _ _) EC)
    as (HcwdC & _ & _ & _ & _ & _ & HobjC).
  destruct (frame_of _ _ _ _ (framed_resolveBuildInfo _ _ _) EE)
    as (HcwdE & _ & _ & _ & _ & _ & HobjE).
  destruct (frame_of _ _ _ _ (framed_emitBuildInfo _ _ _ _) EF)
    as (HcwdF & _ & _ & _ & _ & _ & _).
  assert (HoE : objects wE !! o = Some r').
  { rewrite HobjE, HobjC. simpl. apply lookup_insert_eq. }
  rewrite (emitBuildInfo_run _ _ _ _ _ _ HoE) in EF. simpl in EF.
  rewrite Hemit in EF.
  destruct (vol_mkdir_p _ _ _ _) as [v1|e]; [|discriminate].
  destruct (vol_write _ _ _ _) as [v2|e] eqn:Hwrite; [|discriminate].
  apply vol_write_node in Hwrite. injection EF as <-.
  exists b. split; [rewrite Hcfg; apply buildInfoOf_plugins|].
  assert (Hvol : volume w' fs = v2).
  { rewrite Hw'. destruct (_ && _); unfold volume; simpl;
      by rewrite lookup_insert_eq. }
  assert (Hcwd : cwd w' = cwd w).
  { rewrite Hw'. destruct (_ && _); simpl; by rewrite HcwdE, HcwdC. }
  unfold buildInfoFile. fold fs. rewrite Hvol, Hcwd. fold url.
  unfold fs_key in *. rewrite Hcwd. rewrite HcwdE, HcwdC in Hwrite. exact Hwrite.
Qed.

(** X7. What one call writes, the next one reads. After a call that has
    written the build info, a call for the same [context] and file
    system with [keepBuildInfo: true] generates nothing: its build info
    is what [JSON.parse] makes of the file, that is the build info of
    the first call as far as JSON keeps it. When the first call generated
    its build info, the second call has the very same one. *)
Theorem build_info_reused (ops1 ops2 : nat) (w w1 w2 : World) (r1 r2 : OptionsT.t)
    (cfg1 cfg2 : Configuration.t) :
  objects w !! ops1 = Some r1 ->
  configFactory ops1 w = (Normal cfg1, w1) ->
  truthy_bool (dontEmitBuildInfo r1) = false ->
  objects w1 !! ops2 = Some r2 ->
  context r2 = context r1 ->
  default nodeFs (OptionsT.fs r2) = default nodeFs (OptionsT.fs r1) ->
  keepBuildInfo r2 = Some (KeepFlag true) ->
  configFactory ops2 w1 = (Normal cfg2, w2) ->
  exists b,
    buildInfoOf cfg1 = Some (JSON_stringify b 0)
    /\ buildInfoOf cfg2 = Some (JSON_stringify (jsonify b) 0)
    /\ (truthy_keep (keepBuildInfo r1) = false -> buildInfoOf cfg2 = buildInfoOf cfg1).
Proof.
  intros Hops1 Hrun1 Hemit Hops2 Hctx Hfs Hkeep Hrun2.
  destruct (build_info_on_disk _ _ _ _ _ Hops1 Hrun1 Hemit) as (b & Hb1 & Hfile).
  pose proof (build_info_truthy _ _ _ _ _ _ Hops1 Hrun1 Hb1) as Htruthy.
  destruct (resolveBuildInfo_cases _ _ _ _ _ Hops2 Hrun2) as (b2 & Hb2 & Hcase).
  rewrite Hkeep in Hcase.
  assert (Hsame : buildInfoFile r2 w1 = buildInfoFile r1 w1)
    by (unfold buildInfoFile; by rewrite Hctx, Hfs).
  rewrite Hsame, Hfile in Hcase. destruct Hcase as (v & Hparse & ->).
  assert (Hv : v = jsonify b).
  { destruct b; simpl in Hparse; try discriminate Htruthy;
      try discriminate Hparse; by injection Hparse as <-. }
  subst v. rewrite ToBoolean_jsonify, Htruthy in Hb2.
  exists b. split; [exact Hb1|]. split; [exact Hb2|].
  intros Hfresh.
  destruct (resolveBuildInfo_cases _ _ _ _ _ Hops1 Hrun1) as (b1 & Hb1' & Hcase).
  rewrite Hb1 in Hb1'. injection Hb1' as <-.
  rewrite Hb2, Hb1.
  destruct (keepBuildInfo r1) as [[[|]|info]|]; try discriminate Hfresh;
    by rewrite Hcase.
Qed.

End AppBaseReuse.

Lemma service_worker_plugin_witness :
  exists cfg w' plugins options,
    configFactory 0 AppBaseRuns.customWorkboxWorld = (Normal cfg, w')
    /\ Configuration.plugins cfg = plugins ++ [Configuration.InjectManifest options]
    /\ get_prop "swDest" options = Some (VString "__service-worker.js")
    /\ get_prop "swSrc" options = Some (VString "/app/src/sw.js")
    /\ get_prop "maximumFileSizeToCacheInBytes" options = Some (VNumber 5000000).
Proof.
  destruct (configFactory 0 AppBaseRuns.customWorkboxWorld) as [[cfg|e] w'] eqn:E;
    [|vm_compute in E; discriminate E].
  assert (Hnodup : NoDup (map fst (workbox_props
                                     (OptionsT.workbox AppBaseRuns.customWorkbox)))).
  { simpl. repeat (apply NoDup_cons; split;
                     [intros H; repeat (apply elem_of_cons in H as [H|H];
                                        [discriminate H|]);
                      by apply elem_of_nil in H|]).
    apply NoDup_nil_2. }
  pose proof (service_worker_plugin 0 AppBaseRuns.customWorkboxWorld w'
                AppBaseRuns.customWorkbox cfg eq_refl E Hnodup) as H.
  destruct H as (plugins & options & Hplugins & _ & Hdest & Hsrc & Hother).
  exists cfg, w', plugins, options. split; [reflexivity|].
  split; [exact Hplugins|]. split; [exact Hdest|]. split; [exact Hsrc|].
  rewrite Hother by discriminate. reflexivity.
Defined.

Lemma babel_loader_options_witness :
  exists cfg w' rule options,
    configFactory 0 AppBaseRuns.customBabelWorld = (Normal cfg, w')
    /\ babelLoader cfg = Some rule
    /\ get_prop "test" rule = Some (VRegExp "\.((j|t)sx?|svg)$")
    /\ get_prop "options" rule = Some (VObject options)
    /\ get_prop "envName" options = Some (VString "modern")
    /\ get_prop "cacheDirectory" options = Some (VBool true)
    /\ get_prop "babelrc" options = Some (VBool false).
Proof.
  destruct (configFactory 0 AppBaseRuns.customBabelWorld) as [[cfg|e] w'] eqn:E;
    [|vm_compute in E; discriminate E].
  destruct (babel_loader_options 0 AppBaseRuns.customBabelWorld w'
              AppBaseRuns.customBabel cfg eq_refl E)
    as (rule & options & Hrule & Htest & Hoptions & Hgiven & Hdefaults).
  - simpl. repeat (apply NoDup_cons; split;
                     [intros H; repeat (apply elem_of_cons in H as [H|H];
                                        [discriminate H|]);
                      by apply elem_of_nil in H|]).
    apply NoDup_nil_2.
  - exists cfg, w', rule, options. split; [reflexivity|].
    split; [exact Hrule|]. split; [exact Htest|]. split; [exact Hoptions|].
    split; [by apply Hgiven|]. split; [by apply Hgiven|].
    by rewrite Hdefaults.
Defined.

Lemma progress_plugin_witness :
  exists cfg w' text rest,
    configFactory 0 AppBaseSamples.plainWorld = (Normal cfg, w')
    /\ Configuration.plugins cfg
       = Configuration.DefinePlugin [("BUILD_INFO", text)]
           :: Configuration.ProgressPlugin :: rest.
Proof.
  destruct (configFactory 0 AppBaseSamples.plainWorld) as [[cfg|e] w'] eqn:E;
    [|vm_compute in E; discriminate E].
  destruct (progress_plugin 0 AppBaseSamples.plainWorld w' AppBaseSamples.plain cfg
              eq_refl E) as (text & rest & Hplugins & _).
  exists cfg, w', text, rest. split; [reflexivity|exact Hplugins].
Defined.



Lemma sitemap_source_errors_witness :
  let w' := world_after (configFactory 0) AppBaseSources.byPathWorld in
  completion_of (configFactory 0) AppBaseSources.byPathWorld
  = Throw (TypeError "Invalid URL")
  /\ volumes w' = volumes AppBaseSources.byPathWorld
  /\ pending w' = []
  /\ calls w' = [Require "/app/routes.json"].
Proof.
  apply (sitemap_source_errors 0 AppBaseSources.byPathWorld AppBaseSources.byPath
           (TypeError "Invalid URL") eq_refl eq_refl).
  right. right.
  exists (ExportValue (VArray [VString "/"; VString "/about"])),
         [VString "/"; VString "/about"].
  split; [vm_compute; reflexivity|]. split; reflexivity.
Defined.

Lemma configFactory_returns_witness :
  exists cfg w', configFactory 0 AppBaseSamples.optedOutWorld = (Normal cfg, w').
Proof.
  exact (configFactory_returns 0 AppBaseSamples.optedOutWorld AppBaseSamples.optedOut
           eq_refl eq_refl eq_refl eq_refl).
Defined.

Lemma own_file_system_witness :
  let w' := world_after (configFactory 0) AppBaseBuilds.inMemoryWorld in
  volumes w' !! nodeFs = Some projectVolume
  /\ volumes (runPending w') !! nodeFs = Some projectVolume.
Proof.
  destruct (own_file_system 0 AppBaseBuilds.inMemoryWorld AppBaseBuilds.inMemory nodeFs
              eq_refl eq_refl) as [Hcall Hlater].
  - simpl. discriminate.
  - split; [rewrite Hcall|rewrite Hlater]; vm_compute; reflexivity.
Defined.

Lemma build_info_reused_witness :
  exists cfg1 w1 cfg2 w2,
    configFactory 0 AppBaseBuilds.buildThenServe = (Normal cfg1, w1)
    /\ configFactory 5 w1 = (Normal cfg2, w2)
    /\ buildInfoOf cfg2 = buildInfoOf cfg1.
Proof.
  destruct (configFactory 0 AppBaseBuilds.buildThenServe) as [[cfg1|e] w1] eqn:E1;
    [|vm_compute in E1; discriminate E1].
  assert (Hops2 : objects w1 !! 5 = Some AppBaseSamples.reuse).
  { pose proof E1 as E0. vm_compute in E0. injection E0 as _ <-.
    vm_compute. reflexivity. }
  destruct (configFactory 5 w1) as [[cfg2|e] w2] eqn:E2.
  - destruct (build_info_reused 0 5 AppBaseBuilds.buildThenServe w1 w2
                AppBaseSamples.plain AppBaseSamples.reuse cfg1 cfg2
                eq_refl E1 eq_refl Hops2 eq_refl eq_refl eq_refl E2)
      as (b & _ & _ & Hsame).
    exists cfg1, w1, cfg2, w2.
    split; [reflexivity|split; [exact E2|apply Hsame; reflexivity]].
  - exfalso. pose proof E1 as E0. vm_compute in E0. injection E0 as _ <-.
    vm_compute in E2. discriminate E2.
Defined.

(** ** The build script: a build without failure, and the script as a whole *)

Section BuildScriptRun.
Import BuildScript BuildScriptClaims BuildScriptPlan.

Lemma require_run (path : string) (w : World) :
  require path w
  = let w1 := set_calls (fun cs => cs ++ [Require path]) w in
    match registry w !! path with
    | Some e => (Normal e, w1)
    | None => (Throw (ModuleNotFound path), w1)
    end.
Proof.
  unfold require, call, bind, modify, gets, ret, throw. simpl.
  destruct (registry w !! path); reflexivity.
Qed.

(** The script with a valid build type, step by step: the output folder
    is removed and made again, the Webpack configuration is loaded, and
    then the build steps are started, none of which can throw. *)
Lemma main_run (args : CmdLineArgs) (t : string) (w : World) :
  buildType args = Some t ->
  includes VALID_BUILD_TYPES (Some t) = true ->
  let out := outDirOf args t w in
  let cleaned := vol_rimraf (volume w nodeFs) (fs_key w out) in
  let w1 := set_volumes <[nodeFs := cleaned]>
              (set_calls (fun cs => cs ++ [RimrafSync out]) w) in
  let w2 := set_calls (fun cs => cs ++ [MkdirSync nodeFs out true]) w1 in
  main args w
  = match vol_mkdir_p out cleaned [] (fs_key w out) with
    | Throw e => (Throw e, w2)
    | Normal v =>
        let w3 := set_calls (fun cs => cs ++ [Require (configPathOf args w)])
                    (set_volumes <[nodeFs := v]> w2) in
        match registry w !! configPathOf args w with
        | None => (Throw (ModuleNotFound (configPathOf args w)), w3)
        | Some e =>
            (Normal tt,
             set_calls
               (fun cs =>
                  cs ++ [Webpack (merge_output_path (call_if_function e [VString t])
                                    (webpackOutDirOf args t w))]
                     ++ (if truthy_bool (watch args) then [CompilerWatch]
                         else [CompilerRun; CompilerClose])
                     ++ [Exec (BABEL_CMD_JS args t w) t]
                     ++ (if truthy_string (copyFiles args)
                         then [CopyFromFolder (inDirOf args w) out
                                 (template (copyFiles args))]
                         else []))
               (set_pending (fun js => js ++ [BabelJsDone (BABEL_CMD_SVG args t w) t]) w3))
        end
    end.
Proof.
  intros Ht Hvalid out cleaned w1 w2. unfold main. rewrite Ht, Hvalid.
  change (template (Some t)) with t. cbn [negb].
  rewrite bind_run. unfold gets at 1.
  rewrite bind_run. unfold path_resolve at 1, gets at 1.
  rewrite bind_run. unfold path_resolve at 1, gets at 1.
  fold (inDirOf args w).
  change (if lib args then path_resolve_from (cwd w) [cwd w; outDir args] +:+ "/" +:+ t
          else path_resolve_from (cwd w) [cwd w; outDir args]) with out.
  rewrite bind_run.
  change (rimraf_sync out w) with (Normal tt, w1). cbv beta iota.
  rewrite bind_run, mkdirSync_run.
  change (volume w1 nodeFs) with (volume (set_volumes <[nodeFs := cleaned]> w) nodeFs).
  rewrite volume_written.
  change (fs_key w1 out) with (fs_key w out).
  destruct (vol_mkdir_p out cleaned [] (fs_key w out)) as [v|e]; [|reflexivity].
  rewrite bind_run. unfold path_resolve at 1, gets at 1.
  change (path_resolve_from _ [cwd w; webpackConfig args]) with (configPathOf args w).
  rewrite bind_run, require_run.
  change (registry _ !! configPathOf args w) with (registry w !! configPathOf args w).
  cbv zeta.
  destruct (registry w !! configPathOf args w) as [e|]; [|reflexivity].
  change (if negb (lib args) then out +:+ "/web-public" else out)
    with (webpackOutDirOf args t w).
  match goal with
  | |- context [babelBuild ?js ?svg t] =>
      change js with (BABEL_CMD_JS args t w); change svg with (BABEL_CMD_SVG args t w)
  end.
  fold w2. generalize (set_volumes <[nodeFs := v]> w2). intros w3.
  unfold babelBuild, exec, copyFromFolder, when, call, bind, modify, ret.
  unfold set_calls, set_pending.
  destruct (truthy_bool (watch args)), (truthy_string (copyFiles args));
    simpl; rewrite <- ?app_assoc; reflexivity.
Qed.

Lemma main_valid (args : CmdLineArgs) (t : string) (w w' : World) :
  buildType args = Some t ->
  main args w = (Normal tt, w') ->
  includes VALID_BUILD_TYPES (Some t) = true.
Proof.
  intros Ht Hrun. unfold main in Hrun. rewrite Ht in Hrun.
  destruct (includes VALID_BUILD_TYPES (Some t)); [reflexivity|discriminate].
Qed.

(** *** The file system: [mkdirSync] with [recursive], and [rimraf] *)

Lemma vol_mkdir_p_spec (path : string) (todo : list string) :
  forall (v : Volume) (done : list string) (v' : Volume),
    vol_mkdir_p path v done todo = Normal v' ->
    (forall k n, v !! k = Some n -> v' !! k = Some n)
    /\ (forall k, ~ k `prefix_of` (done ++ todo) -> v' !! k = v !! k)
    /\ (todo <> [] -> v' !! (done ++ todo) = Some Directory).
Proof.
  induction todo as [|seg rest IH]; intros v done v' H; simpl in H.
  - injection H as <-. repeat split; auto. congruence.
  - assert (Hk : node_at v (done ++ [seg]) = v !! (done ++ [seg]))
      by (apply node_at_nonempty, snoc_nonempty).
    assert (Happ : (done ++ [seg]) ++ rest = done ++ seg :: rest)
      by (rewrite <- app_assoc; reflexivity).
    assert (Hlast : forall u : Volume,
              vol_mkdir_p path u (done ++ [seg]) rest = Normal v' ->
              u !! (done ++ [seg]) = Some Directory ->
              v' !! (done ++ seg :: rest) = Some Directory).
    { intros u Hu Hdir. destruct (IH _ _ _ Hu) as (Hmono & _ & Hend).
      destruct rest as [|s rest'].
      - apply Hmono. exact Hdir.
      - rewrite <- Happ. apply Hend. discriminate. }
    rewrite Hk in H.
    destruct (v !! (done ++ [seg])) as [[c|]|] eqn:Hnode; [discriminate| |].
    + destruct (IH _ _ _ H) as (Hmono & Hout & _).
      split; [exact Hmono|]. split; [|intros _; by apply (Hlast v)].
      intros k Hpre. apply Hout. by rewrite Happ.
    + destruct (IH _ _ _ H) as (Hmono & Hout & _).
      assert (Hpre0 : (done ++ [seg]) `prefix_of` (done ++ seg :: rest))
        by (exists rest; by rewrite Happ).
      split; [|split].
      * intros k n Hkn. apply Hmono. rewrite lookup_insert_ne; [exact Hkn|].
        intros <-. congruence.
      * intros k Hpre. rewrite Hout by (by rewrite Happ).
        apply lookup_insert_ne. intros <-. by apply Hpre.
      * intros _. apply (Hlast _ H). apply lookup_insert_eq.
Qed.

Lemma vol_rimraf_below (v : Volume) (k k' : list string) :
  k `prefix_of` k' -> vol_rimraf v k !! k' = None.
Proof.
  intros Hpre. unfold vol_rimraf. apply map_lookup_filter_None_2.
  destruct (v !! k') as [n|]; [right|by left].
  intros x _ Hnot. by apply Hnot.
Qed.


(** *** The script *)


(** X10. Webpack is given the configuration that the module at the path of
    [--webpack-config] exports or, when the module exports a function,
    what the function returns for the build type. In a configuration
    that is an object, the script sets [output.path]: to the folder
    [web-public] in the output folder, or to the output folder itself
    for a library build, whatever path the module had chosen. Every
    other property of the configuration and of its [output] passes as
    the module gives it. *)
Theorem webpack_output_path (args : CmdLineArgs) (t : string) (w w' : World) :
  buildType args = Some t ->
  main args w = (Normal tt, w') ->
  exists e before after,
    registry w !! configPathOf args w = Some e
    /\ let given := call_if_function e [VString t] in
       let config := merge_output_path given (webpackOutDirOf args t w) in
       calls w' = calls w ++ before ++ Webpack config :: after
       /\ filter is_build_step before = []
       /\ forall props, given = VObject props ->
            output_path config = Some (VString (webpackOutDirOf args t w))
            /\ exists props',
                 config = VObject props'
                 /\ (forall k, k <> "output" -> get_prop k props' = get_prop k props)
                 /\ (forall output k,
                        get_prop "output" props = Some (VObject output) ->
                        k <> "path" ->
                        exists output',
                          get_prop "output" props' = Some (VObject output')
                          /\ get_prop k output' = get_prop k output).
Proof.
  intros Ht Hrun.
  pose proof (main_valid _ _ _ _ Ht Hrun) as Hvalid.
  rewrite (main_run _ _ _ Ht Hvalid) in Hrun. cbv zeta in Hrun.
  destruct (vol_mkdir_p _ _ _ _) as [v|e]; [|discriminate].
  destruct (registry w !! _) as [e|] eqn:Hreg; [|discriminate].
  injection Hrun as <-.
  exists e. eexists [_; _; _], _. split; [reflexivity|]. cbv zeta.
  split; [simpl; rewrite <- !app_assoc; reflexivity|].
  split; [reflexivity|].
  intros props ->. unfold merge_output_path, output_path.
  split.
  - rewrite get_prop_set_prop.
    destruct (get_prop "output" props) as [[| | | | | |output| |]|];
      try reflexivity.
    apply get_prop_set_prop.
  - eexists. split; [reflexivity|]. split.
    + intros k Hk. by apply get_prop_set_prop_ne.
    + intros output k -> Hk. eexists. split; [apply get_prop_set_prop|].
      by apply get_prop_set_prop_ne.
Qed.

(** X11. In watch mode the compiler is asked to watch, and is neither run
    nor closed by the script; otherwise it is run once and then
    closed. *)
Theorem watch_or_run (args : CmdLineArgs) (t : string) (w w' : World) :
  buildType args = Some t ->
  main args w = (Normal tt, w') ->
  exists l,
    calls w' = calls w ++ l
    /\ filter is_compiler l
       = if truthy_bool (watch args) then [CompilerWatch]
         else [CompilerRun; CompilerClose].
Proof.
  intros Ht Hrun.
  pose proof (main_valid _ _ _ _ Ht Hrun) as Hvalid.
  rewrite (main_run _ _ _ Ht Hvalid) in Hrun. cbv zeta in Hrun.
  destruct (vol_mkdir_p _ _ _ _) as [v|e]; [|discriminate].
  destruct (registry w !! _) as [e|] eqn:Hreg; [|discriminate].
  injection Hrun as <-.
  eexists. split; [simpl; rewrite <- !app_assoc; reflexivity|].
  destruct (truthy_bool (watch args)), (truthy_string (copyFiles args)); reflexivity.
Qed.

(** X12. Babel runs twice, with the build type as its [BABEL_ENV]: the pass
    for JS and JSX files starts when the script runs, and the pass for
    SVG files, whose command is that of the first pass with the options
    for the [.svg] extension added, starts once the first pass is
    through. The command has [--minified] for a production build only. *)
Theorem babel_passes (args : CmdLineArgs) (t : string) (w w' : World) :
  buildType args = Some t ->
  pending w = [] ->
  main args w = (Normal tt, w') ->
  let js := cwd w +:+ "/node_modules/.bin/babel " +:+ inDirOf args w +:+ " --out-dir "
                  +:+ outDirOf args t w +:+ " --source-maps"
                  +:+ (if String.eqb t "production" then " --minified" else "") in
  let svg := js +:+ " --extensions " +:+ dquote +:+ ".svg" +:+ dquote
                +:+ " --keep-file-extension" in
  (exists l, calls w' = calls w ++ l /\ filter is_exec l = [Exec js t])
  /\ pending w' = [BabelJsDone svg t]
  /\ calls (runPending w') = calls w' ++ [Exec svg t].
Proof.
  intros Ht Hpending Hrun.
  pose proof (main_valid _ _ _ _ Ht Hrun) as Hvalid.
  rewrite (main_run _ _ _ Ht Hvalid) in Hrun. cbv zeta in Hrun.
  destruct (vol_mkdir_p _ _ _ _) as [v|e]; [|discriminate].
  destruct (registry w !! _) as [e|] eqn:Hreg; [|discriminate].
  injection Hrun as <-.
  assert (Hjs : BABEL_CMD_JS args t w
                = cwd w +:+ "/node_modules/.bin/babel " +:+ inDirOf args w
                    +:+ " --out-dir " +:+ outDirOf args t w +:+ " --source-maps"
                    +:+ (if String.eqb t "production" then " --minified" else "")).
  { reflexivity. }
  cbv zeta. split; [|split].
  - eexists. split; [simpl; rewrite <- !app_assoc; reflexivity|].
    rewrite <- Hjs.
    destruct (truthy_bool (watch args)), (truthy_string (copyFiles args)); reflexivity.
  - simpl. rewrite Hpending. unfold BABEL_CMD_SVG. by rewrite Hjs.
  - unfold runPending. simpl. rewrite Hpending. simpl.
    unfold BABEL_CMD_SVG. by rewrite Hjs.
Qed.

(** X13. When no module is found at the path of [--webpack-config], the
    script throws, having removed the output folder already; no build
    step has been started. *)
Theorem missing_webpack_config (args : CmdLineArgs) (t : string) (w : World) :
  buildType args = Some t ->
  (t = "development" \/ t = "production") ->
  registry w !! configPathOf args w = None ->
  let w' := world_after (main args) w in
  (exists e, completion_of (main args) w = Throw e)
  /\ (exists l, calls w' = calls w ++ RimrafSync (outDirOf args t w) :: l
                /\ filter is_build_step l = [])
  /\ forall k, fs_key w (outDirOf args t w) `prefix_of` k ->
               k <> fs_key w (outDirOf args t w) ->
               node_at (volume w' nodeFs) k = None.
Proof.
  intros Ht Hvalid Hreg.
  assert (Hinc : includes VALID_BUILD_TYPES (Some t) = true)
    by (apply includes_valid; destruct Hvalid as [->| ->]; auto).
  unfold world_after, completion_of. rewrite (main_run _ _ _ Ht Hinc). cbv zeta.
  rewrite Hreg.
  set (out := outDirOf args t w).
  assert (Hk : forall k, fs_key w out `prefix_of` k -> k <> fs_key w out -> k <> []).
  { intros k Hpre Hne ->. apply Hne. symmetry. by apply prefix_nil_inv. }
  destruct (vol_mkdir_p _ _ _ _) as [v|e] eqn:Hmk; simpl.
  - split; [eauto|]. split.
    + eexists. split; [rewrite <- !app_assoc; reflexivity|reflexivity].
    + intros k Hpre Hne.
      rewrite node_at_nonempty by (by apply Hk).
      unfold volume at 1. simpl. rewrite lookup_insert_eq. simpl.
      destruct (vol_mkdir_p_spec _ _ _ _ _ Hmk) as (_ & Hout & _).
      rewrite Hout; [by apply vol_rimraf_below|].
      intros Hpre'. apply Hne. by apply (anti_symm prefix).
  - split; [eauto|]. split.
    + eexists. split; [rewrite <- !app_assoc; reflexivity|reflexivity].
    + intros k Hpre Hne.
      rewrite node_at_nonempty by (by apply Hk).
      unfold volume at 1. simpl. rewrite lookup_insert_eq. simpl.
      by apply vol_rimraf_below.
Qed.

(** *** The handler, for a compilation that did not fail *)

(** X14. A compilation without a fatal error and without errors in its stats
    leaves the exit code of the process as it is, whatever the build
    type. Nothing goes to the error console: the warnings, if the stats
    report any, go to [console.warn], then the stats are printed and the
    manifest of chunk groups is written. *)
Theorem compilation_success (buildType webpackOutDir : string) (s : Stats) (w : World) :
  hasErrors s = false ->
  let w' := world_after
              (handleWebpackCompilationResults buildType webpackOutDir None (Some s)) w in
  exitCode w' = exitCode w
  /\ calls w' = calls w
                  ++ (if hasWarnings s then [ConsoleWarn [warnings s]] else [])
                  ++ [ConsoleLog [VString (rendered s)]; manifest webpackOutDir s].
Proof.
  intros Herr.
  unfold world_after, handleWebpackCompilationResults, handleStats,
    writeFileSync, put_volume, setExitCode, when, call, bind, ret, throw,
    gets, modify, lift.
  simpl. rewrite Herr. simpl.
  unfold manifest, JSON_stringify.
  destruct (hasWarnings s); simpl;
    destruct (vol_write _ _ _ _); simpl; rewrite <- ?app_assoc; split; reflexivity.
Qed.

End BuildScriptRun.


Lemma webpack_output_path_witness :
  let w' := world_after (BuildScript.main BuildScriptSamples.development) sampleWorld in
  exists config,
    In (Webpack config) (calls w')
    /\ BuildScriptPlan.output_path config = Some (VString "/app/build/web-public")
    /\ exists props, config = VObject props
                     /\ get_prop "mode" props = Some (VString "development").
Proof.
  assert (E : BuildScript.main BuildScriptSamples.development sampleWorld
              = (Normal tt,
                 world_after (BuildScript.main BuildScriptSamples.development)
                   sampleWorld))
    by (vm_compute; reflexivity).
  destruct (webpack_output_path BuildScriptSamples.development "development"
              _ _ eq_refl E) as (e & before & after & Hreg & Hcalls & _ & Hprops).
  vm_compute in Hreg. injection Hreg as <-.
  destruct (Hprops [("mode", VString "development")] eq_refl)
    as (Hpath & props' & Hconfig & Hkeep & _).
  eexists. split; [|split].
  - simpl. rewrite Hcalls. apply in_or_app. right. apply in_or_app. right.
    left. reflexivity.
  - exact Hpath.
  - exists props'. split; [exact Hconfig|].
    rewrite Hkeep by discriminate. reflexivity.
Defined.

Lemma watch_or_run_witness :
  let w' := world_after (BuildScript.main BuildScriptRuns.library) sampleWorld in
  exists l, calls w' = l /\ filter BuildScriptPlan.is_compiler l = [CompilerWatch].
Proof.
  assert (E : BuildScript.main BuildScriptRuns.library sampleWorld
              = (Normal tt,
                 world_after (BuildScript.main BuildScriptRuns.library) sampleWorld))
    by (vm_compute; reflexivity).
  destruct (watch_or_run BuildScriptRuns.library "production" _ _ eq_refl E)
    as (l & Hcalls & Hl).
  exists l. split; [exact Hcalls|exact Hl].
Defined.

Lemma babel_passes_witness :
  let w' := world_after (BuildScript.main BuildScriptRuns.library) sampleWorld in
  let js := "/app/node_modules/.bin/babel /app/src --out-dir /app/build/production --source-maps --minified" in
  let svg := js +:+ " --extensions " +:+ BuildScript.dquote +:+ ".svg"
                +:+ BuildScript.dquote +:+ " --keep-file-extension" in
  (exists l, calls w' = l /\ filter BuildScriptPlan.is_exec l = [Exec js "production"])
  /\ calls (runPending w') = calls w' ++ [Exec svg "production"].
Proof.
  assert (E : BuildScript.main BuildScriptRuns.library sampleWorld
              = (Normal tt,
                 world_after (BuildScript.main BuildScriptRuns.library) sampleWorld))
    by (vm_compute; reflexivity).
  destruct (babel_passes BuildScriptRuns.library "production" sampleWorld _
              eq_refl eq_refl E)
    as ((l & Hcalls & Hl) & _ & Hsvg).
  split; [exists l; split; [exact Hcalls|exact Hl]|exact Hsvg].
Defined.

Lemma missing_webpack_config_witness :
  let w' := world_after (BuildScript.main BuildScriptRuns.misconfigured)
              BuildScriptRuns.staleWorld in
  (exists e, completion_of (BuildScript.main BuildScriptRuns.misconfigured)
               BuildScriptRuns.staleWorld = Throw e)
  /\ node_at (volume w' nodeFs) ["app"; "build"; "web-public"; "old.js"] = None.
Proof.
  destruct (missing_webpack_config BuildScriptRuns.misconfigured "production"
              BuildScriptRuns.staleWorld eq_refl (or_intror eq_refl))
    as (Hthrow & _ & Hgone).
  - vm_compute. reflexivity.
  - split; [exact Hthrow|].
    apply Hgone; [exists ["web-public"; "old.js"]; reflexivity|discriminate].
Defined.

Lemma compilation_success_witness :
  let w' := world_after
              (BuildScript.handleWebpackCompilationResults "production"
                 "/app/build/web-public" None (Some BuildScriptRuns.cleanStats))
              sampleWorld in
  exitCode w' = None
  /\ calls w' = [ConsoleWarn [VArray [VString "asset size limit"]];
                 ConsoleLog [VString "compiled with 1 warning"];
                 BuildScriptClaims.manifest "/app/build/web-public"
                   BuildScriptRuns.cleanStats].
Proof.
  exact (compilation_success "production" "/app/build/web-public"
           BuildScriptRuns.cleanStats sampleWorld eq_refl).
Defined.


(** ** The Modal component: the other elements, mount and unmount *)

Section ModalLifecycleFacts.
Import Modal ModalLifecycle.
Context {App ReactNode : Type}.

(** X16. What can cancel a mounted modal, on a page whose window had no
    listeners before. A click or a key pressed on an element other than
    the overlay never does: the application is as it was. A wheel event
    does not when it comes from the container, which stops it; from any
    other element, the overlay included, it travels on to the window,
    where [onCancel] listens if and only if [cancelOnScrolling] is set
    and there is an [onCancel]: then the callback is called, once. *)
Theorem cancel_by_element (props : PropsT App ReactNode) (page : Page App)
    (portal : nat) (d : Div App ReactNode) (e : SyntheticEvent) (app : App) :
  windowListeners page = [] ->
  propagationStopped e = false ->
  d ∈ elements props (Some portal) ->
  let mounted := fst (mountEffects props page) in
  (ariaLabel d <> Some "Cancel" ->
     snd (clickOn mounted d e app) = app /\ snd (keyDownOn mounted d e app) = app)
  /\ (role d = Some "dialog" -> snd (wheelOn mounted d e app) = app)
  /\ (role d <> Some "dialog" ->
      snd (wheelOn mounted d e app)
      = match onCancel props, cancelOnScrolling props with
        | Some cancel, Some true => cancel app
        | _, _ => app
        end).
Proof.
  intros Hlisteners He Hin. unfold elements in Hin. simpl in Hin.
  unfold clickOn, keyDownOn, wheelOn, atWindow, click, keyDown, wheel, dispatch.
  simpl. rewrite Hlisteners.
  repeat (apply elem_of_cons in Hin as [->|Hin]);
    [| | | | |by apply elem_of_nil in Hin]; simpl; rewrite ?He; simpl.
  - split; [intros _|split; [discriminate|intros _]];
      destruct (onCancel props) as [cancel|], (cancelOnScrolling props) as [[|]|];
      simpl; try split; reflexivity.
  - split; [intros Hlabel; by destruct Hlabel|split; [discriminate|intros _]].
    destruct (onCancel props) as [cancel|], (cancelOnScrolling props) as [[|]|];
      reflexivity.
  - split; [intros _|split; [reflexivity|intros Hrole; by destruct Hrole]].
    destruct (onCancel props) as [cancel|], (cancelOnScrolling props) as [[|]|];
      simpl; split; reflexivity.
  - split; [intros _|split; [discriminate|intros _]];
      destruct (onCancel props) as [cancel|], (cancelOnScrolling props) as [[|]|];
      simpl; try split; reflexivity.
  - split; [intros _|split; [discriminate|intros _]];
      destruct (onCancel props) as [cancel|], (cancelOnScrolling props) as [[|]|];
      simpl; try split; reflexivity.
Qed.

(** X17. A click or a wheel event inside the container of the modal does not
    travel on to the elements around the modal, and does not cancel the
    modal: the handlers of the container stop the propagation, whatever
    the properties of the modal are. *)
Theorem container_stops_propagation (props : PropsT App ReactNode)
    (e : SyntheticEvent) (app : App) :
  let inside := containerDiv props in
  (forall portal, inside ∈ elements props (Some portal))
  /\ propagationStopped (fst (click inside e app)) = true
  /\ propagationStopped (fst (wheel inside e app)) = true
  /\ key (fst (click inside e app)) = key e
  /\ key (fst (wheel inside e app)) = key e
  /\ snd (click inside e app) = app
  /\ snd (wheel inside e app) = app.
Proof.
  simpl. split; [|repeat split; reflexivity].
  intros portal. unfold elements. simpl.
  apply elem_of_cons; right; apply elem_of_cons; right; apply elem_of_cons; by left.
Qed.

(** X20. Mount and unmount leave the children of the body as they were: the
    first effect appends a new element, the portal, and its cleanup
    removes this element again. *)
Theorem portal_removed_on_unmount (props : PropsT App ReactNode) (page : Page App) :
  let mounted := mountEffects props page in
  exists p,
    snd mounted = Some p
    /\ (p ∉ body page)
    /\ body (fst mounted) = body page ++ [p]
    /\ exists page', portalCleanup p (fst mounted) = Normal page'
                     /\ body page' = body page.
Proof.
  simpl. set (p := S (max_list (body page))).
  assert (Hfresh : p ∉ body page).
  { intros Hin. apply max_list_elem_of_le in Hin. subst p. lia. }
  exists p. repeat split; [exact Hfresh|].
  unfold portalCleanup, removeChild. simpl.
  rewrite bool_decide_eq_true_2 by (apply elem_of_app; right; apply elem_of_cons; by left).
  eexists. split; [reflexivity|]. simpl.
  rewrite filter_app, filter_cons_False, filter_nil, app_nil_r by (intros H; by apply H).
  generalize Hfresh. generalize p. generalize (body page).
  intros l q. induction l as [|c l IH]; intros Hq; [reflexivity|].
  apply not_elem_of_cons in Hq as [Hne Hl].
  rewrite filter_cons_True by (intros ->; by apply Hne).
  f_equal. exact (IH Hl).
Qed.

(** X21. Unless [dontDisableScrolling] is set, the class that disables
    scrolling is on the body once the modal is mounted, and off it once
    the modal is unmounted, also when the class was there before the
    mount, as another modal that is still open leaves it. With
    [dontDisableScrolling] the classes of the body stay as they are. *)
Theorem scrolling_class_on_unmount (props : PropsT App ReactNode) (page : Page App) :
  let mounted := fst (mountEffects props page) in
  let unmounted := scrollingCleanup props mounted in
  if truthy_bool (dontDisableScrolling props) then
    bodyClasses mounted = bodyClasses page
    /\ bodyClasses unmounted = bodyClasses page
  else
    ("scrollingDisabledByModal" ∈ bodyClasses mounted)
    /\ ("scrollingDisabledByModal" ∉ bodyClasses unmounted)
    /\ bodyClasses unmounted
       = filter (fun c => c <> "scrollingDisabledByModal") (bodyClasses page).
Proof.
  unfold scrollingCleanup. simpl.
  destruct (truthy_bool (dontDisableScrolling props)); [split; reflexivity|].
  simpl. destruct (bool_decide _) eqn:Hin.
  - apply bool_decide_eq_true in Hin. split; [exact Hin|]. split; [|reflexivity].
    intros H. apply list_elem_of_filter in H as [H _]. by apply H.
  - split; [apply elem_of_app; right; apply elem_of_cons; by left|].
    rewrite filter_app, filter_cons_False, filter_nil, app_nil_r
      by (intros H; by apply H).
    split; [|reflexivity].
    intros H. apply list_elem_of_filter in H as [H _]. by apply H.
Qed.

End ModalLifecycleFacts.

Lemma overlay_other_key_witness :
  Modal.keyDown (Modal.overlayDiv ModalSamples.props) ModalSamples.keyEnter 0
  = (ModalSamples.keyEnter, 0).
Proof.
  apply (overlay_other_key ModalSamples.props ModalSamples.keyEnter 0).
  simpl. discriminate.
Defined.

Lemma cancel_by_element_witness :
  let mounted := fst (Modal.mountEffects ModalSamples.scrollProps ModalSamples.page) in
  snd (ModalLifecycle.clickOn mounted (@Modal.focusLast nat string) ModalSamples.wheelEvent 0) = 0
  /\ snd (ModalLifecycle.wheelOn mounted (Modal.containerDiv ModalSamples.scrollProps)
            ModalSamples.wheelEvent 0) = 0
  /\ snd (ModalLifecycle.wheelOn mounted (@Modal.focusLast nat string) ModalSamples.wheelEvent 0) = 1.
Proof.
  assert (Hin : forall d,
             d = (@Modal.focusLast nat string) \/ d = Modal.containerDiv ModalSamples.scrollProps ->
             d ∈ ModalLifecycle.elements ModalSamples.scrollProps (Some 3)).
  { intros d [->| ->]; unfold ModalLifecycle.elements; simpl.
    - apply elem_of_cons. by left.
    - apply elem_of_cons; right; apply elem_of_cons; right; apply elem_of_cons; by left. }
  destruct (cancel_by_element ModalSamples.scrollProps ModalSamples.page 3
              (@Modal.focusLast nat string) ModalSamples.wheelEvent 0 eq_refl eq_refl
              (Hin _ (or_introl eq_refl))) as (Hclick & _ & Hwheel).
  destruct (cancel_by_element ModalSamples.scrollProps ModalSamples.page 3
              (Modal.containerDiv ModalSamples.scrollProps) ModalSamples.wheelEvent 0
              eq_refl eq_refl (Hin _ (or_intror eq_refl))) as (_ & Hinside & _).
  split; [|split].
  - apply Hclick. simpl. discriminate.
  - apply Hinside. reflexivity.
  - apply Hwheel. simpl. discriminate.
Defined.
